(** * ReportZen: the Firebase Admin bootstrap and the list-users action

    A shallow embedding of

    - [src/lib/firebase/admin.ts]: the module-level state
      ([adminAuthInstance], [initializationError], [isInitialized],
      [initializedVia]), [initializeFirebaseAdmin], the module-load call that
      wraps it, and the exported getter [getAdminAuth];
    - [src/actions/list-users.ts]: [listUsersAction].

    JavaScript values are an inductive type with the language's truthiness,
    [||] and [&&]; statements run in a state monad whose completions are the
    three the code uses (normal, [return], [throw]).  Strings are UTF-8
    text.  What a built-in or a synchronous SDK call throws is an [Error];
    what a promise is rejected with, and so what the two handlers that
    await one catch, is any value.  The runtime's
    [JSON.parse] and [Date] parsing are Section variables, the file system,
    the environment and the Admin SDK are fields of a [World]; a reference
    implementation of each is given for closed examples.  Console output is
    not modelled. *)

From Stdlib Require Import String Ascii List ZArith Lia Bool Arith.
From Stdlib Require Import DecimalString Sorted Permutation.
Import ListNotations.
Local Open Scope string_scope.
Set Warnings "-register-all".

(** ** JavaScript values, errors and string helpers *)
Module Js.

(** A number is kept as the decimal [m * 10^e] it was written as; its being
    zero is observed, and its text where a message is made of it. *)
Inductive Value : Type :=
| Undefined
| Null
| Bool (b : bool)
| Number (m e : Z)
| Str (s : string)
| Arr (items : list Value)
| Obj (fields : list (string * Value)).

(** ToBoolean. *)
Definition truthy (v : Value) : bool :=
  match v with
  | Undefined | Null => false
  | Bool b => b
  | Number m _ => negb (m =? 0)%Z
  | Str s => negb (s =? "")
  | Arr _ | Obj _ => true
  end.

(** [!!v] *)
Definition notnot (v : Value) : Value := Bool (truthy v).

(** [a || b] and [a && b]: the value of an operand, not a boolean. *)
Definition or_ (a b : Value) : Value := if truthy a then a else b.
Definition and_ (a b : Value) : Value := if truthy a then b else a.

(** [typeof v === 'object'] *)
Definition typeof_object (v : Value) : bool :=
  match v with
  | Null | Arr _ | Obj _ => true
  | _ => false
  end.

Definition is_null (v : Value) : bool :=
  match v with Null => true | _ => false end.

(** [Array.isArray(v)] *)
Definition Array_isArray (v : Value) : bool :=
  match v with Arr _ => true | _ => false end.

Fixpoint lookup (k : string) (fields : list (string * Value)) : Value :=
  match fields with
  | [] => Undefined
  | (k', v) :: rest => if k =? k' then v else lookup k rest
  end.

(** [v.k] for a [v] that is not null or undefined; an array has no such
    named property. *)
Definition get (v : Value) (k : string) : Value :=
  match v with
  | Obj fields => lookup k fields
  | _ => Undefined
  end.

(** [v?.k] *)
Definition get_opt (v : Value) (k : string) : Value :=
  match v with
  | Undefined | Null => Undefined
  | _ => get v k
  end.

(** A [string | undefined] read as a value. *)
Definition of_option (o : option string) : Value :=
  match o with Some s => Str s | None => Undefined end.

Inductive ErrorClass : Type := PlainError | SyntaxError | TypeError.

Record Error : Type := mkError {
  class : ErrorClass;
  message : string;
  code : option string
}.

(** [new Error(msg)] *)
Definition new_Error (msg : string) : Error := mkError PlainError msg None.

Definition instanceof_SyntaxError (e : Error) : bool :=
  match class e with SyntaxError => true | _ => false end.

(** What a [catch] clause can receive: an [Error] object, or any other
    value ([throw null], a promise rejected with a string, ...). *)
Inductive Thrown : Type :=
| ErrorObject (e : Error)
| JsValue (v : Value).

(** Completion of a statement: it ran to its end, it executed [return], or
    it threw a value of type [E]. *)
Inductive CompletionOf (E A : Type) : Type :=
| Normal (a : A)
| Return
| Throw (e : E).
Arguments Normal {E A} a.
Arguments Return {E A}.
Arguments Throw {E A} e.

(** Where only [Error] objects are thrown. *)
Definition Completion (A : Type) : Type := CompletionOf Error A.

(** Outcome of an expression: a value, or an exception of type [E]. *)
Inductive ResultOf (E A : Type) : Type :=
| Ok (a : A)
| Err (e : E).
Arguments Ok {E A} a.
Arguments Err {E A} e.

Definition Result (A : Type) : Type := ResultOf Error A.

(** An outcome whose exception is an [Error], seen where any value can be
    thrown. *)
Definition thrown {A} (r : Result A) : ResultOf Thrown A :=
  match r with
  | Ok a => Ok a
  | Err e => Err (ErrorObject e)
  end.

(** The TypeError of a property read on [null] or [undefined]. *)
Definition cannot_read (what prop : string) : Error :=
  mkError TypeError
    ("Cannot read properties of " ++ what ++ " (reading '" ++ prop ++ "')") None.

(** The TypeError of a call of something that is no function. *)
Definition not_a_function (callee : string) : Error :=
  mkError TypeError (callee ++ " is not a function") None.

(** [error.message] for a caught [error]: a TypeError when [error] is
    [null] or [undefined]. *)
Definition message_of (error : Thrown) : Result Value :=
  match error with
  | ErrorObject e => Ok (Str (message e))
  | JsValue Undefined => Err (cannot_read "undefined" "message")
  | JsValue Null => Err (cannot_read "null" "message")
  | JsValue v => Ok (get v "message")
  end.

(** The length in bytes of the white-space character [s] begins with, 0 when
    it begins with none.  White space is what [String.prototype.trim]
    strips, WhiteSpace and LineTerminator of the language, in UTF-8:
    U+0009 to U+000D, U+0020, U+00A0, U+1680, U+2000 to U+200A, U+2028,
    U+2029, U+202F, U+205F, U+3000 and U+FEFF. *)
Definition space_width (s : string) : nat :=
  match s with
  | EmptyString => 0
  | String c r =>
      let c := nat_of_ascii c in
      if ((9 <=? c) && (c <=? 13)) || (c =? 32) then 1
      else
        match r with
        | EmptyString => 0
        | String d r' =>
            let d := nat_of_ascii d in
            if (c =? 194) && (d =? 160) then 2
            else
              match r' with
              | EmptyString => 0
              | String e _ =>
                  let e := nat_of_ascii e in
                  if (c =? 225) && (d =? 154) && (e =? 128) then 3
                  else if (c =? 226) && (d =? 128)
                          && (((128 <=? e) && (e <=? 138))
                              || (e =? 168) || (e =? 169) || (e =? 175)) then 3
                  else if (c =? 226) && (d =? 129) && (e =? 159) then 3
                  else if (c =? 227) && (d =? 128) && (e =? 128) then 3
                  else if (c =? 239) && (d =? 187) && (e =? 191) then 3
                  else 0
              end
        end
  end%nat.

Fixpoint skip (n : nat) (s : string) : string :=
  match n, s with
  | S n', String _ r => skip n' r
  | _, _ => s
  end.

(** At most [fuel] leading white-space characters removed. *)
Fixpoint trimStart_from (fuel : nat) (s : string) : string :=
  match fuel with
  | O => s
  | S fuel' =>
      match space_width s with
      | O => s
      | n => trimStart_from fuel' (skip n s)
      end
  end.

Definition trimStart (s : string) : string :=
  trimStart_from (String.length s) s.

(** The longest suffix of white space is dropped: a character stays when
    something other than white space follows or starts with it. *)
Fixpoint trimEnd (s : string) : string :=
  match s with
  | String c r =>
      if trimStart (String c r) =? "" then "" else String c (trimEnd r)
  | EmptyString => ""
  end.

Definition trim (s : string) : string := trimEnd (trimStart s).

(** [s.includes(needle)] *)
Fixpoint includes (needle s : string) : bool :=
  prefix needle s ||
  match s with
  | String _ r => includes needle r
  | EmptyString => false
  end.

(** A length in a template literal. *)
Definition nat_to_string (n : nat) : string :=
  NilZero.string_of_uint (Nat.to_uint n).

Fixpoint zeros (n : nat) : string :=
  match n with
  | O => ""
  | S n' => String "0" (zeros n')
  end.

Fixpoint strip_zeros (digits : string) : string :=
  match digits with
  | String c r =>
      let r' := strip_zeros r in
      if (c =? "0")%char && (r' =? "") then "" else String c r'
  | EmptyString => ""
  end.

(** Number::toString of a positive [m * 10^e], radix 10: with [s] the [k]
    digits of [m] without its trailing zeros and [n] the position of the
    decimal point after the first of them.  Exact for a number whose
    digits a double holds. *)
Definition positive_to_string (m e : Z) : string :=
  let all := NilZero.string_of_uint (N.to_uint (Z.to_N m)) in
  let s := strip_zeros all in
  let k := Z.of_nat (String.length s) in
  let n := (Z.of_nat (String.length all) + e)%Z in
  if ((k <=? n) && (n <=? 21))%Z then
    s ++ zeros (Z.to_nat (n - k))
  else if ((0 <? n) && (n <=? 21))%Z then
    substring 0 (Z.to_nat n) s ++ "." ++ skip (Z.to_nat n) s
  else if ((-6 <? n) && (n <=? 0))%Z then
    "0." ++ zeros (Z.to_nat (- n)) ++ s
  else
    (if (k =? 1)%Z then s else substring 0 1 s ++ "." ++ skip 1 s)
    ++ "e" ++ (if (n - 1 <? 0)%Z then "-" else "+")
    ++ NilZero.string_of_uint (N.to_uint (Z.to_N (Z.abs (n - 1)))).

Definition number_to_string (m e : Z) : string :=
  if (m =? 0)%Z then "0"
  else if (m <? 0)%Z then "-" ++ positive_to_string (- m) e
  else positive_to_string m e.

(** ToString, as a template literal applies it: an array joins its
    elements with commas, [null] and [undefined] among them as nothing. *)
Fixpoint ToString (v : Value) : string :=
  match v with
  | Undefined => "undefined"
  | Null => "null"
  | Bool true => "true"
  | Bool false => "false"
  | Number m e => number_to_string m e
  | Str s => s
  | Arr items =>
      (fix join (l : list Value) : string :=
         match l with
         | [] => ""
         | x :: rest =>
             (match x with
              | Undefined | Null => ""
              | _ => ToString x
              end)
             ++ (match rest with
                 | [] => ""
                 | _ :: _ => "," ++ join rest
                 end)
         end) items
  | Obj _ => "[object Object]"
  end.

(** SameValueZero of a value and a string, the test of
    [Array.prototype.includes]. *)
Definition same_string (s : string) (v : Value) : bool :=
  match v with
  | Str t => s =? t
  | _ => false
  end.

(** [v?.includes(needle)] read as a condition: nothing is called on [null]
    or [undefined], a string and an array have the method, and on anything
    else [includes] is not a function. *)
Definition optional_includes (callee : string) (v : Value) (needle : string)
  : Result bool :=
  match v with
  | Undefined | Null => Ok false
  | Str s => Ok (includes needle s)
  | Arr items => Ok (existsb (same_string needle) items)
  | Bool _ | Number _ _ | Obj _ => Err (not_a_function callee)
  end.

End Js.

(** ** The statement monad: state passing with [return] and [throw] *)
Module Stmt.
Import Js.

(** Statements over a state [S] that throw values of type [E]. *)
Definition MOf (E S A : Type) : Type := S -> CompletionOf E A * S.

(** Statements that throw [Error] objects only. *)
Definition M (S A : Type) : Type := MOf Error S A.

Definition ret {E S A} (a : A) : MOf E S A := fun s => (Normal a, s).

Definition bind {E S A B} (m : MOf E S A) (k : A -> MOf E S B) : MOf E S B :=
  fun s =>
    match m s with
    | (Normal a, s') => k a s'
    | (Return, s') => (Return, s')
    | (Throw e, s') => (Throw e, s')
    end.

(** [return;] *)
Definition return_ {E S A} : MOf E S A := fun s => (Return, s).

(** [throw e;] *)
Definition throw {E S A} (e : E) : MOf E S A := fun s => (Throw e, s).

(** [try { body } catch (e) { handler }]: a [return] inside [body] leaves
    the enclosing function, only a [throw] reaches the handler, and what the
    handler throws goes on. *)
Definition try_catch {E E' S A} (body : MOf E S A) (handler : E -> MOf E' S A)
  : MOf E' S A :=
  fun s =>
    match body s with
    | (Throw e, s') => handler e s'
    | (Normal a, s') => (Normal a, s')
    | (Return, s') => (Return, s')
    end.

(** A call of a [void] function: its [return] ends the call, its [throw]
    goes on to the caller. *)
Definition call {E S} (body : MOf E S unit) : MOf E S unit :=
  fun s =>
    match body s with
    | (Return, s') => (Normal tt, s')
    | r => r
    end.

Definition gets {E S A} (f : S -> A) : MOf E S A := fun s => (Normal (f s), s).
Definition modify {E S} (f : S -> S) : MOf E S unit :=
  fun s => (Normal tt, f s).

(** An expression that may throw, evaluated as a statement. *)
Definition lift {E S A} (r : ResultOf E A) : MOf E S A :=
  fun s => match r with Ok a => (Normal a, s) | Err e => (Throw e, s) end.

Definition exec {E S A} (m : MOf E S A) (s : S) : S := snd (m s).
Definition eval {E S A} (m : MOf E S A) (s : S) : CompletionOf E A :=
  fst (m s).

Declare Scope stmt_scope.
Delimit Scope stmt_scope with stmt.
Notation "x <- m ;; k" := (bind m (fun x => k))
  (at level 61, m at next level, right associativity) : stmt_scope.
Notation "' pat <- m ;; k" := (bind m (fun x => match x with pat => k end))
  (at level 61, pat pattern, m at next level, right associativity) : stmt_scope.
Notation "m ;; k" := (bind m (fun _ => k))
  (at level 61, right associativity) : stmt_scope.

End Stmt.


(** ** The Admin SDK as this code sees it, and the process around it *)
Module Sdk.
Import Js.

(** [admin.auth.Auth]: an opaque client handle. *)
Record Auth : Type := mkAuth { auth_id : nat }.

(** An entry of [admin.apps]; [app_auth] is what [app.auth()] does. *)
Record App : Type := mkApp {
  app_name : string;
  app_auth : Result Auth
}.

Record UserMetadata : Type := mkUserMetadata {
  creationTime : string;
  lastSignInTime : string
}.

(** [UserRecord] of firebase-admin/auth, the fields the action reads.
    [customClaims] is an object or [undefined]. *)
Record UserRecord : Type := mkUserRecord {
  uid : string;
  email : option string;
  metadata : UserMetadata;
  disabled : bool;
  customClaims : Value
}.

Record ListUsersPage : Type := mkListUsersPage {
  users : list UserRecord;
  pageToken : option string
}.

(** What is outside the code: the environment, the file system, the SDK and
    the identity provider behind it.  [admin_initializeApp] stands for
    [admin.initializeApp({ credential: admin.credential.cert(sa) })] on the
    current [admin.apps] and gives the new [admin.apps].  [auth_listUsers]
    is the promise of [listUsers] once settled: it may be rejected with any
    value. *)
Record World : Type := mkWorld {
  process_env : string -> option string;
  path_resolve : string -> string;
  fs_existsSync : string -> bool;
  fs_readFileSync : string -> Result string;
  admin_initializeApp : Value -> list (option App) -> Result (list (option App));
  admin_auth : list (option App) -> Result Auth;
  auth_listUsers : Auth -> Z -> ResultOf Thrown ListUsersPage
}.

(** Calls that leave the process, in the order they are made. *)
Inductive Event : Type :=
| ExistsSync (path : string)
| ReadFileSync (path : string)
| InitializeApp (serviceAccount : Value)
| AdminAuth
| AppAuth (app : App)
| ListUsers (auth : Auth) (maxResults : Z).

End Sdk.

(** ** src/lib/firebase/admin.ts *)
Module Admin.
Import Js Stmt Sdk.
Local Open Scope stmt_scope.

(** The module's four [let] variables, with the SDK's [admin.apps] and the
    calls made so far. *)
Record State : Type := mkState {
  adminAuthInstance : option Auth;
  initializationError : option Error;
  isInitialized : bool;
  initializedVia : option string;
  admin_apps : list (option App);
  trace : list Event
}.

Definition set_adminAuthInstance (v : option Auth) (st : State) : State :=
  mkState v (initializationError st) (isInitialized st) (initializedVia st)
          (admin_apps st) (trace st).
Definition set_initializationError (v : option Error) (st : State) : State :=
  mkState (adminAuthInstance st) v (isInitialized st) (initializedVia st)
          (admin_apps st) (trace st).
Definition set_isInitialized (v : bool) (st : State) : State :=
  mkState (adminAuthInstance st) (initializationError st) v (initializedVia st)
          (admin_apps st) (trace st).
Definition set_initializedVia (v : option string) (st : State) : State :=
  mkState (adminAuthInstance st) (initializationError st) (isInitialized st) v
          (admin_apps st) (trace st).
Definition set_admin_apps (v : list (option App)) (st : State) : State :=
  mkState (adminAuthInstance st) (initializationError st) (isInitialized st)
          (initializedVia st) v (trace st).
Definition log (evs : list Event) (st : State) : State :=
  mkState (adminAuthInstance st) (initializationError st) (isInitialized st)
          (initializedVia st) (admin_apps st) (trace st ++ evs).
Definition emit (ev : Event) : M State unit := modify (log [ev]).

(** The state of a freshly evaluated module; [admin.apps] is the SDK's and
    may already hold apps (hot reload). *)
Definition initial (apps : list (option App)) : State :=
  mkState None None false None apps [].

Definition serviceAccountFilename : string :=
  "reportzen-mixd3-firebase-adminsdk-fbsvc-f006f10e8d.json".
Definition envVarKey : string := "FIREBASE_SERVICE_ACCOUNT_KEY".

(** [typeof parsed !== 'object' || parsed === null || !parsed.project_id ||
    !parsed.private_key || !parsed.client_email] *)
Definition invalid_shape (parsed : Value) : bool :=
  negb (typeof_object parsed) || is_null parsed
  || negb (truthy (get parsed "project_id"))
  || negb (truthy (get parsed "private_key"))
  || negb (truthy (get parsed "client_email")).

Definition invalid_shape_message : string :=
  "Parsed JSON object is invalid or missing required fields (project_id, private_key, client_email).".

(** [envVarValue && envVarValue.trim() !== '' && envVarValue.trim() !== '{}'] *)
Definition env_usable (envVarValue : option string) : bool :=
  match envVarValue with
  | Some v => negb (v =? "") && negb (trim v =? "") && negb (trim v =? "{}")
  | None => false
  end.

(** [!serviceAccountJson] for a [string | null]. *)
Definition no_json (serviceAccountJson : option string) : bool :=
  match serviceAccountJson with
  | Some j => j =? ""
  | None => true
  end.

(** [credentialSource || 'existing app detection'] *)
Definition source_or_existing (credentialSource : option string) : string :=
  match credentialSource with
  | Some src => if src =? "" then "existing app detection" else src
  | None => "existing app detection"
  end.

(** [credentialSource || 'unknown source'] *)
Definition source_or_unknown (credentialSource : option string) : string :=
  match credentialSource with
  | Some src => if src =? "" then "unknown source" else src
  | None => "unknown source"
  end.

Section Bootstrap.

(** The runtime's [JSON.parse]. *)
Variable JSON_parse : string -> Result Value.
Variable w : World.

Definition existsSync (path : string) : M State bool :=
  emit (ExistsSync path) ;; ret (fs_existsSync w path).

Definition readFileSync (path : string) : M State string :=
  emit (ReadFileSync path) ;; lift (fs_readFileSync w path).

(** [admin.initializeApp({ credential: admin.credential.cert(sa) })] *)
Definition initializeApp (serviceAccount : Value) : M State unit :=
  emit (InitializeApp serviceAccount) ;;
  apps <- gets admin_apps ;;
  apps' <- lift (admin_initializeApp w serviceAccount apps) ;;
  modify (set_admin_apps apps').

(** [admin.auth()] *)
Definition auth : M State Auth :=
  emit AdminAuth ;;
  apps <- gets admin_apps ;;
  lift (admin_auth w apps).

(** [app.auth()] *)
Definition auth_of (app : App) : M State Auth :=
  emit (AppAuth app) ;; lift (app_auth app).

(** Lines 36-62, "Method 1": the values of [serviceAccountJson] and
    [credentialSource] after the block. *)
Definition load_from_env : M State (option string * option string) :=
  let envVarValue := process_env w envVarKey in
  if env_usable envVarValue then
    let value := match envVarValue with Some v => v | None => "" end in
    try_catch
      (parsed <- lift (JSON_parse value) ;;
       (if invalid_shape parsed
        then throw (new_Error invalid_shape_message) else ret tt) ;;
       ret (Some value, Some "environment variable"))
      (fun e =>
         modify (set_initializationError (Some (new_Error
           ("CRITICAL - Failed to parse service account JSON from " ++ envVarKey
            ++ ". Ensure it's valid, complete, single-line JSON. Error: "
            ++ message e)))) ;;
         return_)
  else ret (None, None).

(** Lines 64-97, "Method 2". *)
Definition load_from_file (serviceAccountJson credentialSource : option string)
  : M State (option string * option string) :=
  if no_json serviceAccountJson then
    let serviceAccountPath := path_resolve w ("./" ++ serviceAccountFilename) in
    try_catch
      (found <- existsSync serviceAccountPath ;;
       if found then
         json <- readFileSync serviceAccountPath ;;
         if trim json =? "" then ret (None, credentialSource)
         else
           parsed <- lift (JSON_parse json) ;;
           (if invalid_shape parsed
            then throw (new_Error invalid_shape_message) else ret tt) ;;
           ret (Some json,
                Some ("local file (" ++ serviceAccountFilename ++ ")"))
       else ret (serviceAccountJson, credentialSource))
      (fun error =>
         modify (set_initializationError (Some (
           if instanceof_SyntaxError error then
             new_Error ("CRITICAL - Failed to parse service account JSON from "
                        ++ serviceAccountFilename
                        ++ ". Ensure it's valid JSON. Error: " ++ message error)
           else
             new_Error ("CRITICAL - Error reading local "
                        ++ serviceAccountFilename ++ ": " ++ message error)))) ;;
         return_)
  else ret (serviceAccountJson, credentialSource).

(** Lines 99-104. *)
Definition require_credentials (serviceAccountJson : option string)
  : M State string :=
  if no_json serviceAccountJson then
    modify (set_initializationError (Some (new_Error
      ("CRITICAL - No valid service account credentials found. Cannot initialize. Checked environment variable '"
       ++ envVarKey ++ "' and local file at '"
       ++ path_resolve w ("./" ++ serviceAccountFilename) ++ "'.")))) ;;
    return_
  else ret (match serviceAccountJson with Some json => json | None => "" end).

(** Lines 106-151. *)
Definition initialize_sdk (serviceAccountJson : string)
  (credentialSource : option string) : M State unit :=
  apps <- gets admin_apps ;;
  (if (0 <? List.length apps)%nat then
     a <- auth ;;
     modify (set_adminAuthInstance (Some a)) ;;
     modify (set_initializedVia (Some (source_or_existing credentialSource))) ;;
     modify (set_initializationError None) ;;
     return_
   else ret tt) ;;
  try_catch
    (serviceAccount <- lift (JSON_parse serviceAccountJson) ;;
     initializeApp serviceAccount ;;
     a <- auth ;;
     modify (set_adminAuthInstance (Some a)) ;;
     modify (set_initializedVia credentialSource) ;;
     modify (set_initializationError None))
    (fun error =>
       (match code error with
        | Some c =>
            if c =? "app/duplicate-app" then
              apps <- gets admin_apps ;;
              match apps with
              | Some app0 :: _ =>
                  a <- auth_of app0 ;;
                  modify (set_adminAuthInstance (Some a)) ;;
                  modify (set_initializedVia
                            (Some (source_or_existing credentialSource))) ;;
                  modify (set_initializationError None) ;;
                  return_
              | _ =>
                  modify (set_initializationError (Some (new_Error
                    ("CRITICAL - Caught 'app/duplicate-app' error but no existing app found. Initialization failed. Error: "
                     ++ message error))))
              end
            else
              modify (set_initializationError (Some (new_Error
                ("CRITICAL - Error during admin.initializeApp() via "
                 ++ source_or_unknown credentialSource ++ ". Error: "
                 ++ message error))))
        | None =>
            modify (set_initializationError (Some (new_Error
              ("CRITICAL - Error during admin.initializeApp() via "
               ++ source_or_unknown credentialSource ++ ". Error: "
               ++ message error))))
        end) ;;
       modify (set_adminAuthInstance None)).

(** The body of [function initializeFirebaseAdmin()], lines 17-151. *)
Definition initializeFirebaseAdmin_body : M State unit :=
  initialized <- gets isInitialized ;;
  (if initialized then return_ else ret tt) ;;
  modify (set_isInitialized true) ;;
  '(serviceAccountJson, credentialSource) <- load_from_env ;;
  '(serviceAccountJson, credentialSource) <-
     load_from_file serviceAccountJson credentialSource ;;
  json <- require_credentials serviceAccountJson ;;
  initialize_sdk json credentialSource.

Definition initializeFirebaseAdmin : M State unit :=
  call initializeFirebaseAdmin_body.

(** Lines 156-163: the call made when the module is evaluated. *)
Definition module_load : M State unit :=
  try_catch initializeFirebaseAdmin
    (fun initError =>
       recorded <- gets initializationError ;;
       modify (set_initializationError
                 (match recorded with
                  | Some e => Some e
                  | None => Some initError
                  end)) ;;
       modify (set_adminAuthInstance None)).

End Bootstrap.

Definition access_failed_message (recorded : string) : string :=
  "Firebase Admin SDK access failed: " ++ recorded
  ++ ". Check server startup logs for details. Common causes are missing, empty, or invalid service account credentials (env var 'FIREBASE_SERVICE_ACCOUNT_KEY' or local file '"
  ++ serviceAccountFilename
  ++ "'). Please verify your setup according to the README.md.".

(** [export const getAdminAuth], lines 173-184. *)
Definition getAdminAuth (st : State) : Result Auth :=
  match initializationError st with
  | Some err => Err (new_Error (access_failed_message (message err)))
  | None =>
      match adminAuthInstance st with
      | None => Err (new_Error
          "Firebase Admin SDK was not initialized successfully, but no specific error was recorded. This indicates a potential bug or race condition. Check server logs.")
      | Some instance => Ok instance
      end
  end.

End Admin.

(** ** src/actions/list-users.ts *)
Module ListUsers.
Import Js Stmt.
Import Admin.
Local Open Scope stmt_scope.

(** An element of [users] in the result.  [isAdmin] and [allowedSections]
    hold whatever value the expressions of lines 35 and 38-40 give. *)
Record User : Type := mkUser {
  uid : string;
  email : option string;
  creationTime : string;
  lastSignInTime : string;
  disabled : bool;
  isAdmin : Value;
  allowedSections : Value
}.

Record ListUsersResult : Type := mkListUsersResult {
  success : bool;
  message : string;
  users : option (list User)
}.

(** [s === v] for a string [s]. *)
Definition strict_eq_string (s : string) (v : Value) : bool :=
  match v with
  | Str t => s =? t
  | _ => false
  end.

Section Sorting.
Context {A : Type}.

(** The comparator's number: [None] is NaN, which the sort reads as 0. *)
Variable compareFn : A -> A -> option Z.

Definition sorts_before (a b : A) : bool :=
  match compareFn a b with
  | Some d => (d <? 0)%Z
  | None => false
  end.

Fixpoint sort_insert (x : A) (sorted : list A) : list A :=
  match sorted with
  | [] => [x]
  | y :: rest =>
      if sorts_before y x then y :: sort_insert x rest else x :: y :: rest
  end.

(** [Array.prototype.sort(compareFn)]: a stable sort (insertion, from the
    right).  With a comparator that is consistent, as the one of line 54 is
    on dates that are all valid, the order is the one every engine gives;
    with NaN among the comparisons the engine's order is its own. *)
Fixpoint Array_sort (l : list A) : list A :=
  match l with
  | [] => []
  | x :: rest => sort_insert x (Array_sort rest)
  end.

End Sorting.

Section Action.

(** [new Date(s).getTime()], in milliseconds; [None] is NaN. *)
Variable Date_getTime : string -> option Z.
Variable w : Sdk.World.

(** [adminAuth.listUsers(maxResults)], awaited. *)
Definition listUsers (adminAuth : Sdk.Auth) (maxResults : Z)
  : MOf Thrown State Sdk.ListUsersPage :=
  modify (log [Sdk.ListUsers adminAuth maxResults]) ;;
  lift (Sdk.auth_listUsers w adminAuth maxResults).

(** Line 35. *)
Definition isAdmin_of (userRecord : Sdk.UserRecord) : Value :=
  let NEXT_PUBLIC_ADMIN_UID :=
    of_option (Sdk.process_env w "NEXT_PUBLIC_ADMIN_UID") in
  or_ (notnot (get_opt (Sdk.customClaims userRecord) "admin"))
      (and_ NEXT_PUBLIC_ADMIN_UID
            (Bool (strict_eq_string (Sdk.uid userRecord) NEXT_PUBLIC_ADMIN_UID))).

(** Lines 38-40. *)
Definition allowedSections_of (userRecord : Sdk.UserRecord) : Value :=
  if Array_isArray (get_opt (Sdk.customClaims userRecord) "allowedSections")
  then get_opt (Sdk.customClaims userRecord) "allowedSections"
  else Arr [].

(** The callback of [map], lines 33-51. *)
Definition to_user (userRecord : Sdk.UserRecord) : User :=
  mkUser (Sdk.uid userRecord)
         (Sdk.email userRecord)
         (Sdk.creationTime (Sdk.metadata userRecord))
         (Sdk.lastSignInTime (Sdk.metadata userRecord))
         (Sdk.disabled userRecord)
         (isAdmin_of userRecord)
         (allowedSections_of userRecord).

(** The comparator of line 54:
    [new Date(b.creationTime).getTime() - new Date(a.creationTime).getTime()]. *)
Definition by_creation_desc (a b : User) : option Z :=
  match Date_getTime (creationTime b), Date_getTime (creationTime a) with
  | Some tb, Some ta => Some (tb - ta)%Z
  | _, _ => None
  end.

Definition critical_marker : string := "Firebase Admin SDK access failed".

(** What the handler of lines 61-74 returns as [message] when it caught an
    [Error] object. *)
Definition error_message (error : Error) : string :=
  if includes critical_marker (Js.message error) then
    "Erreur critique: Impossible d'initialiser Firebase Admin SDK. Vérifiez les logs du serveur. ("
    ++ Js.message error ++ ")"
  else
    "Erreur lors de la récupération des utilisateurs: " ++ Js.message error.

(** The handler of lines 61-74, for whatever was caught: reading
    [error.message] (line 64) throws on [null] and [undefined], and
    [error.message?.includes(...)] (line 66) throws when the message is
    neither a string, an array, [null] nor [undefined]. *)
Definition on_error (error : Thrown) : M State ListUsersResult :=
  message <- lift (message_of error) ;;
  let errorMessage :=
    "Erreur lors de la récupération des utilisateurs: " ++ ToString message in
  critical <- lift (optional_includes "error.message?.includes" message
                      critical_marker) ;;
  let errorMessage :=
    if (critical : bool) then
      "Erreur critique: Impossible d'initialiser Firebase Admin SDK. Vérifiez les logs du serveur. ("
      ++ ToString message ++ ")"
    else errorMessage in
  ret (mkListUsersResult false errorMessage None).

(** [export async function listUsersAction()]: [Normal r] is the promise
    resolved with [r], [Throw e] the promise rejected with [e]. *)
Definition listUsersAction : M State ListUsersResult :=
  try_catch
    (st <- gets (fun st => st) ;;
     adminAuth <- lift (thrown (getAdminAuth st)) ;;
     listUsersResult <- listUsers adminAuth 1000 ;;
     let users := map to_user (Sdk.users listUsersResult) in
     let users := Array_sort by_creation_desc users in
     ret (mkListUsersResult true
            ("Successfully fetched " ++ nat_to_string (List.length users)
             ++ " users.")
            (Some users)))
    on_error.

End Action.

End ListUsers.

(** ** Reference runtime: [JSON.parse] and the dates the SDK writes

    Instances of the Section variables above, for closed examples. *)
Module Runtime.
Import Js.

Definition dquote : ascii := ascii_of_nat 34.
Definition backslash : ascii := ascii_of_nat 92.

(** Text written with ['] where JSON has the double quote. *)
Fixpoint json_text (s : string) : string :=
  match s with
  | String c r =>
      String (if (c =? "'")%char then dquote else c) (json_text r)
  | EmptyString => EmptyString
  end.

Definition json_ws (c : ascii) : bool :=
  match nat_of_ascii c with
  | 9 | 10 | 13 | 32 => true
  | _ => false
  end.

Fixpoint skip_ws (s : string) : string :=
  match s with
  | String c r => if json_ws c then skip_ws r else s
  | EmptyString => s
  end.

Definition digit_of (c : ascii) : option Z :=
  let n := nat_of_ascii c in
  if (48 <=? n)%nat && (n <=? 57)%nat then Some (Z.of_nat (n - 48)) else None.

Definition hex_of (c : ascii) : option nat :=
  let n := nat_of_ascii c in
  if (48 <=? n)%nat && (n <=? 57)%nat then Some (n - 48)
  else if (65 <=? n)%nat && (n <=? 70)%nat then Some (n - 55)
  else if (97 <=? n)%nat && (n <=? 102)%nat then Some (n - 87)
  else None.

(** A run of digits: the number read onto [acc], how many, the rest. *)
Fixpoint read_digits (s : string) (acc : Z) (count : nat) : Z * nat * string :=
  match s with
  | String c r =>
      match digit_of c with
      | Some d => read_digits r (acc * 10 + d)%Z (S count)
      | None => (acc, count, s)
      end
  | EmptyString => (acc, count, s)
  end.

Definition read_exponent (s : string) : option (Z * string) :=
  match s with
  | String c r =>
      if (c =? "e")%char || (c =? "E")%char then
        let '(negative, r1) :=
          match r with
          | String sign r' =>
              if (sign =? "-")%char then (true, r')
              else if (sign =? "+")%char then (false, r')
              else (false, r)
          | EmptyString => (false, r)
          end in
        let '(e, n, r2) := read_digits r1 0%Z 0 in
        if (n =? 0)%nat then None
        else Some (if negative then (- e)%Z else e, r2)
      else Some (0%Z, s)
  | EmptyString => Some (0%Z, s)
  end.

Definition parse_number (s : string) : option (Value * string) :=
  let '(negative, s1) :=
    match s with
    | String c r => if (c =? "-")%char then (true, r) else (false, s)
    | EmptyString => (false, s)
    end in
  match s1 with
  | String c r =>
      match digit_of c with
      | None => None
      | Some d =>
          let '(int, _, s2) :=
            if (d =? 0)%Z then (0%Z, 1, r) else read_digits s1 0%Z 0 in
          let fraction :=
            match s2 with
            | String p r2 =>
                if (p =? ".")%char then
                  let '(m, n, s3) := read_digits r2 int 0 in
                  if (n =? 0)%nat then None else Some (m, Z.of_nat n, s3)
                else Some (int, 0%Z, s2)
            | EmptyString => Some (int, 0%Z, s2)
            end in
          match fraction with
          | None => None
          | Some (m, places, s3) =>
              match read_exponent s3 with
              | None => None
              | Some (e, s4) =>
                  Some (Number (if negative then (- m)%Z else m) (e - places), s4)
              end
          end
      end
  | EmptyString => None
  end.

(** A code point of the basic plane, as UTF-8. *)
Definition utf8 (cp : nat) : string :=
  if (cp <? 128)%nat then String (ascii_of_nat cp) ""
  else if (cp <? 2048)%nat then
    String (ascii_of_nat (192 + cp / 64))
      (String (ascii_of_nat (128 + cp mod 64)) "")
  else
    String (ascii_of_nat (224 + cp / 4096))
      (String (ascii_of_nat (128 + (cp / 64) mod 64))
         (String (ascii_of_nat (128 + cp mod 64)) "")).

Definition unescape (c : ascii) : option ascii :=
  if (c =? dquote)%char then Some dquote
  else if (c =? backslash)%char then Some backslash
  else if (c =? "/")%char then Some "/"%char
  else if (c =? "b")%char then Some (ascii_of_nat 8)
  else if (c =? "f")%char then Some (ascii_of_nat 12)
  else if (c =? "n")%char then Some (ascii_of_nat 10)
  else if (c =? "r")%char then Some (ascii_of_nat 13)
  else if (c =? "t")%char then Some (ascii_of_nat 9)
  else None.

Definition prepend (p : string) (r : option (string * string))
  : option (string * string) :=
  match r with
  | Some (str, rest) => Some (p ++ str, rest)
  | None => None
  end.

(** A string literal after its opening quote: its text, and what follows
    the closing quote. *)
Fixpoint parse_string_body (s : string) : option (string * string) :=
  match s with
  | EmptyString => None
  | String c r =>
      if (c =? dquote)%char then Some ("", r)
      else if (c =? backslash)%char then
        match r with
        | String e r1 =>
            if (e =? "u")%char then
              match r1 with
              | String h1 (String h2 (String h3 (String h4 r2))) =>
                  match hex_of h1, hex_of h2, hex_of h3, hex_of h4 with
                  | Some a, Some b, Some c', Some d =>
                      prepend (utf8 (((a * 16 + b) * 16 + c') * 16 + d))
                              (parse_string_body r2)
                  | _, _, _, _ => None
                  end
              | _ => None
              end
            else
              match unescape e with
              | Some ch => prepend (String ch "") (parse_string_body r1)
              | None => None
              end
        | EmptyString => None
        end
      else if (nat_of_ascii c <? 32)%nat then None
      else prepend (String c "") (parse_string_body r)
  end.

(** [obj[k] = v] while an object literal is read: a repeated key keeps its
    place and takes the later value. *)
Fixpoint define (k : string) (v : Value) (fields : list (string * Value))
  : list (string * Value) :=
  match fields with
  | [] => [(k, v)]
  | (k', v') :: rest =>
      if k =? k' then (k, v) :: rest else (k', v') :: define k v rest
  end.

Definition strip_prefix (p s : string) : option string :=
  if prefix p s
  then Some (substring (String.length p) (String.length s - String.length p) s)
  else None.

Fixpoint parse_value (fuel : nat) (s : string) : option (Value * string) :=
  match fuel with
  | O => None
  | S fuel' =>
      match skip_ws s with
      | EmptyString => None
      | String c r as s0 =>
          if (c =? "{")%char then
            match skip_ws r with
            | String c2 r2 =>
                if (c2 =? "}")%char then Some (Obj [], r2)
                else parse_members fuel' r []
            | EmptyString => None
            end
          else if (c =? "[")%char then
            match skip_ws r with
            | String c2 r2 =>
                if (c2 =? "]")%char then Some (Arr [], r2)
                else parse_elements fuel' r []
            | EmptyString => None
            end
          else if (c =? dquote)%char then
            match parse_string_body r with
            | Some (str, rest) => Some (Str str, rest)
            | None => None
            end
          else
            match strip_prefix "true" s0, strip_prefix "false" s0,
                  strip_prefix "null" s0 with
            | Some rest, _, _ => Some (Bool true, rest)
            | _, Some rest, _ => Some (Bool false, rest)
            | _, _, Some rest => Some (Null, rest)
            | _, _, _ => parse_number s0
            end
      end
  end
with parse_members (fuel : nat) (s : string) (acc : list (string * Value))
  : option (Value * string) :=
  match fuel with
  | O => None
  | S fuel' =>
      match skip_ws s with
      | String c r =>
          if (c =? dquote)%char then
            match parse_string_body r with
            | Some (k, r1) =>
                match skip_ws r1 with
                | String c1 r2 =>
                    if (c1 =? ":")%char then
                      match parse_value fuel' r2 with
                      | Some (v, r3) =>
                          match skip_ws r3 with
                          | String c3 r4 =>
                              if (c3 =? ",")%char
                              then parse_members fuel' r4 (define k v acc)
                              else if (c3 =? "}")%char
                              then Some (Obj (define k v acc), r4)
                              else None
                          | EmptyString => None
                          end
                      | None => None
                      end
                    else None
                | EmptyString => None
                end
            | None => None
            end
          else None
      | EmptyString => None
      end
  end
with parse_elements (fuel : nat) (s : string) (acc : list Value)
  : option (Value * string) :=
  match fuel with
  | O => None
  | S fuel' =>
      match parse_value fuel' s with
      | Some (v, r1) =>
          match skip_ws r1 with
          | String c r2 =>
              if (c =? ",")%char then parse_elements fuel' r2 (acc ++ [v])
              else if (c =? "]")%char then Some (Arr (acc ++ [v]), r2)
              else None
          | EmptyString => None
          end
      | None => None
      end
  end.

Definition unexpected : Error :=
  mkError SyntaxError "Unexpected token in JSON" None.

(** [JSON.parse(text)] *)
Definition JSON_parse (text : string) : Result Value :=
  match parse_value (2 * String.length text + 2) text with
  | Some (v, rest) =>
      if skip_ws rest =? "" then Ok v else Err unexpected
  | None => Err unexpected
  end.

Definition number_of (s : string) : option Z :=
  let '(v, n, rest) := read_digits s 0%Z 0 in
  if (0 <? n)%nat && (rest =? "") then Some v else None.

Definition month_names : list string :=
  ["Jan"; "Feb"; "Mar"; "Apr"; "May"; "Jun";
   "Jul"; "Aug"; "Sep"; "Oct"; "Nov"; "Dec"].

Fixpoint index_of (name : string) (names : list string) (i : Z) : option Z :=
  match names with
  | [] => None
  | n :: rest => if name =? n then Some i else index_of name rest (i + 1)%Z
  end.

(** Days from 1970-01-01 to the given day of the Gregorian calendar. *)
Definition days_from_civil (y m d : Z) : Z :=
  let y' := (if m <=? 2 then y - 1 else y)%Z in
  let era := (y' / 400)%Z in
  let yoe := (y' - era * 400)%Z in
  let doy := ((153 * (if m <=? 2 then m + 9 else m - 3) + 2) / 5 + d - 1)%Z in
  let doe := (yoe * 365 + yoe / 4 - yoe / 100 + doy)%Z in
  (era * 146097 + doe - 719468)%Z.

(** [new Date(s).getTime()] for the form [toUTCString] writes, the form of
    the SDK's [creationTime] ("Tue, 01 Jan 2019 00:00:00 GMT"); any other
    text counts as an invalid date here. *)
Definition Date_getTime (s : string) : option Z :=
  if (String.length s =? 29)%nat && (substring 3 2 s =? ", ")
     && (substring 7 1 s =? " ") && (substring 11 1 s =? " ")
     && (substring 16 1 s =? " ") && (substring 19 1 s =? ":")
     && (substring 22 1 s =? ":") && (substring 25 4 s =? " GMT")
  then
    match number_of (substring 5 2 s), index_of (substring 8 3 s) month_names 1,
          number_of (substring 12 4 s), number_of (substring 17 2 s),
          number_of (substring 20 2 s), number_of (substring 23 2 s) with
    | Some d, Some m, Some y, Some h, Some mi, Some sec =>
        if ((1 <=? d) && (d <=? 31) && (h <? 24) && (mi <? 60) && (sec <? 60))%Z
        then Some (((((days_from_civil y m d * 24 + h) * 60 + mi) * 60 + sec)
                    * 1000)%Z)
        else None
    | _, _, _, _, _, _ => None
    end
  else None.

End Runtime.

(** ** Reference world: a file system with at most the one file, an SDK that
    keeps a default app, a provider with a directory of accounts *)
Module Reference.
Import Js Sdk.

Definition the_auth : Auth := mkAuth 0.
Definition default_app : App := mkApp "[DEFAULT]" (Ok the_auth).

Definition is_default (a : option App) : bool :=
  match a with
  | Some app => app_name app =? "[DEFAULT]"
  | None => false
  end.

Definition initializeApp (serviceAccount : Value) (apps : list (option App))
  : Result (list (option App)) :=
  if existsb is_default apps then
    Err (mkError PlainError "The default Firebase app already exists."
                 (Some "app/duplicate-app"))
  else
    match get serviceAccount "private_key" with
    | Str _ => Ok (apps ++ [Some default_app])%list
    | _ => Err (mkError PlainError
                  "Service account object must contain a string private_key property."
                  (Some "app/invalid-credential"))
    end.

Definition auth (apps : list (option App)) : Result Auth :=
  match find is_default apps with
  | Some (Some app) => app_auth app
  | _ => Err (mkError PlainError "The default Firebase app does not exist."
                      (Some "app/no-app"))
  end.

(** The provider gives the first [maxResults] accounts of its directory. *)
Definition listUsers (directory : list UserRecord) (a : Auth) (maxResults : Z)
  : ResultOf Thrown ListUsersPage :=
  if ((maxResults <=? 0) || (1000 <? maxResults))%Z then
    Err (ErrorObject
           (mkError PlainError
              "Required maxResults must be a positive integer that does not exceed 1000."
              (Some "auth/argument-error")))
  else
    Ok (mkListUsersPage
          (firstn (Z.to_nat maxResults) directory)
          (if (Z.to_nat maxResults <? List.length directory)%nat
           then Some "next" else None)).

Definition resolve (p : string) : string :=
  "/app/" ++ (if prefix "./" p then substring 2 (String.length p - 2) p else p).

(** [env]: the environment; [file]: the content of the service-account file,
    if there is one; [directory]: the provider's accounts. *)
Definition world (env : list (string * string)) (file : option string)
  (directory : list UserRecord) : World :=
  mkWorld
    (fun key =>
       match find (fun kv => fst kv =? key) env with
       | Some kv => Some (snd kv)
       | None => None
       end)
    resolve
    (fun path =>
       match file with
       | Some _ => path =? resolve ("./" ++ Admin.serviceAccountFilename)
       | None => false
       end)
    (fun path =>
       match file with
       | Some content =>
           if path =? resolve ("./" ++ Admin.serviceAccountFilename)
           then Ok content
           else Err (mkError PlainError "ENOENT: no such file or directory"
                             (Some "ENOENT"))
       | None => Err (mkError PlainError "ENOENT: no such file or directory"
                              (Some "ENOENT"))
       end)
    initializeApp
    auth
    (listUsers directory).

Definition good_key : string :=
  Runtime.json_text
    "{'project_id':'reportzen','private_key':'KEY','client_email':'admin@reportzen.example'}".

End Reference.

(** ** What the claims speak of *)
Module Props.
Import Js Stmt Sdk Admin.

Definition touches_file (ev : Event) : bool :=
  match ev with
  | ExistsSync _ | ReadFileSync _ => true
  | _ => false
  end.

Definition sdk_call (ev : Event) : bool :=
  match ev with
  | InitializeApp _ | AdminAuth | AppAuth _ => true
  | _ => false
  end.

Definition is_initializeApp (ev : Event) : bool :=
  match ev with
  | InitializeApp _ => true
  | _ => false
  end.

(** The local file was looked for. *)
Definition file_tried (st : State) : bool := existsb touches_file (trace st).

(** The SDK was asked to initialise or for a client. *)
Definition sdk_called (st : State) : bool := existsb sdk_call (trace st).

Definition initializeApp_calls (st : State) : nat :=
  List.length (filter is_initializeApp (trace st)).

(** Not both a client handle and a recorded failure. *)
Definition exclusive (st : State) : Prop :=
  adminAuthInstance st = None \/ initializationError st = None.

(** The module before its first initialisation attempt. *)
Definition fresh (st : State) : Prop :=
  isInitialized st = false /\ adminAuthInstance st = None
  /\ initializationError st = None.

(** An attempt was made and left a handle or a failure, one of the two. *)
Definition settled (st : State) : Prop :=
  isInitialized st = true
  /\ ((adminAuthInstance st = None /\ initializationError st <> None)
      \/ (adminAuthInstance st <> None /\ initializationError st = None)).

(** What every reachable state satisfies: before the first attempt nothing
    is recorded, and never both a handle and a failure. *)
Definition consistent (st : State) : Prop :=
  (isInitialized st = false -> fresh st) /\ exclusive st.

Section Bootstrap.
Variable JSON_parse : string -> Result Value.
Variable w : World.

(** The check of lines 45-48 and 77-80 passes. *)
Definition valid_credentials (blob : string) : bool :=
  match JSON_parse blob with
  | Ok parsed => negb (invalid_shape parsed)
  | Err _ => false
  end.

(** What that check throws when it does not pass. *)
Definition rejection (blob : string) : Error :=
  match JSON_parse blob with
  | Ok _ => new_Error invalid_shape_message
  | Err e => e
  end.

Definition serviceAccountPath : string :=
  path_resolve w ("./" ++ serviceAccountFilename).

(** The content of the local file, when it is there, readable and not
    blank. *)
Definition file_blob : option string :=
  if fs_existsSync w serviceAccountPath then
    match fs_readFileSync w serviceAccountPath with
    | Ok json => if trim json =? "" then None else Some json
    | Err _ => None
    end
  else None.

(** The blob whose shape the bootstrapper checks, if it gets to check one. *)
Definition checked_blob : option string :=
  if env_usable (process_env w envVarKey)
  then process_env w envVarKey
  else file_blob.

(** The environment variable holds credentials that pass the check. *)
Definition env_yields_credentials : bool :=
  match process_env w envVarKey with
  | Some v => valid_credentials v
  | None => false
  end.

(** The failures recorded at lines 53 and 89-92. *)
Definition env_failure (blob : string) : Error :=
  new_Error
    ("CRITICAL - Failed to parse service account JSON from " ++ envVarKey
     ++ ". Ensure it's valid, complete, single-line JSON. Error: "
     ++ message (rejection blob)).

Definition file_failure (error : Error) : Error :=
  if instanceof_SyntaxError error then
    new_Error ("CRITICAL - Failed to parse service account JSON from "
               ++ serviceAccountFilename
               ++ ". Ensure it's valid JSON. Error: " ++ message error)
  else
    new_Error ("CRITICAL - Error reading local "
               ++ serviceAccountFilename ++ ": " ++ message error).

(** States of the module variables over a process lifetime: the module is
    evaluated ([module_load]) and [initializeFirebaseAdmin] may be called. *)
Inductive reachable : State -> Prop :=
| reach_initial : forall apps, reachable (initial apps)
| reach_call : forall st,
    reachable st -> reachable (exec (initializeFirebaseAdmin JSON_parse w) st)
| reach_load : forall st,
    reachable st -> reachable (exec (module_load JSON_parse w) st).

(** States after the bootstrap has run: the module was evaluated, and
    [initializeFirebaseAdmin] may have been called again. *)
Inductive bootstrapped : State -> Prop :=
| boot_load : forall apps,
    bootstrapped (exec (module_load JSON_parse w) (initial apps))
| boot_call : forall st,
    bootstrapped st ->
    bootstrapped (exec (initializeFirebaseAdmin JSON_parse w) st).

End Bootstrap.

(** The comparator is [key b - key a] on the elements of [l]. *)
Definition by_key_desc {A : Type} (compareFn : A -> A -> option Z)
  (key : A -> Z) (l : list A) : Prop :=
  forall a b, In a l -> In b l -> compareFn a b = Some (key b - key a)%Z.

(** What the handler of [listUsersAction] gets a message from: an [Error]
    object, or a value other than [null] and [undefined] whose [message] is
    a string, an array, [null] or [undefined]. *)
Definition readable (reason : Thrown) : bool :=
  match reason with
  | ErrorObject _ => true
  | JsValue Undefined | JsValue Null => false
  | JsValue v =>
      match get v "message" with
      | Bool _ | Number _ _ | Obj _ => false
      | _ => true
      end
  end.

Section Listing.
Variable Date_getTime : string -> option Z.

(** The creation time of a listed user, in milliseconds. *)
Definition created (u : ListUsers.User) : Z :=
  match Date_getTime (ListUsers.creationTime u) with
  | Some t => t
  | None => 0%Z
  end.

Definition newer_or_same (a b : ListUsers.User) : Prop :=
  (created b <= created a)%Z.

End Listing.

End Props.

(** ** Concrete processes, for the closed examples *)
Module Examples.
Import Js Stmt Sdk Admin.

(** The environment variable holds text that is not JSON, next to a good
    local file. *)
Definition w_env_garbage : World :=
  Reference.world [(envVarKey, "not json")] (Some Reference.good_key) [].

(** The environment variable holds [{}], next to a good local file. *)
Definition w_env_braces : World :=
  Reference.world [(envVarKey, "{}")] (Some Reference.good_key) [].

(** No environment variable; the local file has the three fields, with an
    empty [project_id]. *)
Definition empty_project_id : string :=
  Runtime.json_text
    "{'project_id':'','private_key':'KEY','client_email':'admin@reportzen.example'}".

Definition w_file_empty_id : World :=
  Reference.world [] (Some empty_project_id) [].

Definition alice : UserRecord :=
  mkUserRecord "uid-alice" (Some "alice@reportzen.example")
    (mkUserMetadata "Tue, 01 Jan 2019 00:00:00 GMT"
                    "Wed, 02 Jan 2019 08:30:00 GMT")
    false Undefined.

Definition bob : UserRecord :=
  mkUserRecord "uid-bob" (Some "bob@reportzen.example")
    (mkUserMetadata "Fri, 15 Mar 2024 12:00:00 GMT"
                    "Sat, 16 Mar 2024 09:00:00 GMT")
    false
    (Obj [("admin", Bool true);
          ("allowedSections", Arr [Str "reports"; Str "trucks"])]).

Definition carol : UserRecord :=
  mkUserRecord "uid-carol" None
    (mkUserMetadata "Mon, 10 Feb 2020 06:45:10 GMT"
                    "Mon, 10 Feb 2020 06:45:10 GMT")
    true
    (Obj [("allowedSections", Str "all")]).

(** Good credentials in the environment, [NEXT_PUBLIC_ADMIN_UID] not set,
    three accounts at the provider. *)
Definition w_listing : World :=
  Reference.world [(envVarKey, Reference.good_key)] None [alice; bob; carol].

Definition st_listing : State :=
  exec (module_load Runtime.JSON_parse w_listing) (initial []).

Definition failed_result : ListUsers.ListUsersResult :=
  ListUsers.mkListUsersResult false "" None.

Definition result_of (c : Completion ListUsers.ListUsersResult)
  : ListUsers.ListUsersResult :=
  match c with
  | Normal r => r
  | _ => failed_result
  end.

Definition users_of (r : ListUsers.ListUsersResult) : list ListUsers.User :=
  match ListUsers.users r with
  | Some listed => listed
  | None => []
  end.

Definition result_listing : ListUsers.ListUsersResult :=
  result_of (eval (ListUsers.listUsersAction Runtime.Date_getTime w_listing)
                  st_listing).

(** The same, with 1001 accounts at the provider. *)
Definition directory_large : list UserRecord := repeat alice 1001.

Definition w_large : World :=
  Reference.world [(envVarKey, Reference.good_key)] None directory_large.

Definition st_large : State :=
  exec (module_load Runtime.JSON_parse w_large) (initial []).

Definition result_large : ListUsers.ListUsersResult :=
  result_of (eval (ListUsers.listUsersAction Runtime.Date_getTime w_large)
                  st_large).

Definition has_date (u : ListUsers.User) : bool :=
  match Runtime.Date_getTime (ListUsers.creationTime u) with
  | Some _ => true
  | None => false
  end.

End Examples.

(** ** The paths of the bootstrap, for the properties beyond the claims *)
Module Paths.
Import Js Stmt Sdk Admin Props.

(** How the loading of credentials (lines 34-104) ends: with the JSON text
    and the name of its source, or with the failure that is recorded. *)
Inductive Loaded : Type :=
| Found (json : string) (source : string)
| Failed (e : Error).

Section Loading.
Variable JSON_parse : string -> Result Value.
Variable w : World.

(** The failure recorded at line 101. *)
Definition no_credentials : Error :=
  new_Error
    ("CRITICAL - No valid service account credentials found. Cannot initialize. Checked environment variable '"
     ++ envVarKey ++ "' and local file at '"
     ++ path_resolve w ("./" ++ serviceAccountFilename) ++ "'.").

(** The file-system calls of "Method 2". *)
Definition file_events : list Event :=
  if env_usable (process_env w envVarKey) then []
  else if fs_existsSync w (serviceAccountPath w) then
    [ExistsSync (serviceAccountPath w); ReadFileSync (serviceAccountPath w)]
  else [ExistsSync (serviceAccountPath w)].

Definition local_file_source : string :=
  "local file (" ++ serviceAccountFilename ++ ")".

Definition loading : Loaded :=
  if env_usable (process_env w envVarKey) then
    match process_env w envVarKey with
    | Some v =>
        if valid_credentials JSON_parse v
        then Found v "environment variable"
        else Failed (env_failure JSON_parse v)
    | None => Failed no_credentials
    end
  else if fs_existsSync w (serviceAccountPath w) then
    match fs_readFileSync w (serviceAccountPath w) with
    | Ok content =>
        if trim content =? "" then Failed no_credentials
        else if valid_credentials JSON_parse content
        then Found content local_file_source
        else Failed (file_failure (rejection JSON_parse content))
    | Err e => Failed (file_failure e)
    end
  else Failed no_credentials.

(** The value [credentialSource] takes for the blob that is checked. *)
Definition credential_source : string :=
  if env_usable (process_env w envVarKey)
  then "environment variable" else local_file_source.

(** The failures recorded at lines 140 and 143. *)
Definition duplicate_without_app (error : Error) : Error :=
  new_Error
    ("CRITICAL - Caught 'app/duplicate-app' error but no existing app found. Initialization failed. Error: "
     ++ message error).

Definition initializeApp_failure (source : string) (error : Error) : Error :=
  new_Error
    ("CRITICAL - Error during admin.initializeApp() via " ++ source
     ++ ". Error: " ++ message error).

Definition is_duplicate_app (error : Error) : bool :=
  match code error with
  | Some c => c =? "app/duplicate-app"
  | None => false
  end.

End Loading.

End Paths.

(** ** The admin page (the second file of src/unnamed/part_000)

    The component's state is the values of its [useState] hooks; a handler
    is the sequence of its setter calls, and a call of [fetchUsers] that is
    not awaited runs in place, its promise dropped.  What is rendered is kept as the choices the
    JSX makes, not as markup. *)
Module AdminPage.
Import Js Stmt.

(** The argument of [toast]. *)
Record Toast : Type := mkToast {
  title : string;
  description : string;
  variant : string
}.

(** [interface UserBeingEdited] *)
Record UserBeingEdited : Type := mkUserBeingEdited {
  uid : string;
  email : option string;
  allowedSections : Value
}.

(** The result shape of the role, status and delete actions. *)
Record ActionResult : Type := mkActionResult {
  success : bool;
  message : string
}.

(** Calls that leave the component. *)
Inductive Call : Type :=
| ListUsersCall
| SetUserRoleCall (uid : string) (isAdmin : bool)
| ToggleUserStatusCall (uid : string) (isDisabled : bool)
| DeleteUserCall (uid : string)
| RouterPush (path : string).

Record State : Type := mkState {
  users : list ListUsers.User;
  listLoading : bool;
  listError : option string;
  isPermissionsDialogOpen : bool;
  userToEditPermissions : option UserBeingEdited;
  toasts : list Toast;
  calls : list Call
}.

Definition setUsers {E} (v : list ListUsers.User) : MOf E State unit :=
  modify (fun st =>
    mkState v (listLoading st) (listError st) (isPermissionsDialogOpen st)
            (userToEditPermissions st) (toasts st) (calls st)).
Definition setListLoading {E} (v : bool) : MOf E State unit :=
  modify (fun st =>
    mkState (users st) v (listError st) (isPermissionsDialogOpen st)
            (userToEditPermissions st) (toasts st) (calls st)).
Definition setListError {E} (v : option string) : MOf E State unit :=
  modify (fun st =>
    mkState (users st) (listLoading st) v (isPermissionsDialogOpen st)
            (userToEditPermissions st) (toasts st) (calls st)).
Definition setIsPermissionsDialogOpen {E} (v : bool) : MOf E State unit :=
  modify (fun st =>
    mkState (users st) (listLoading st) (listError st) v
            (userToEditPermissions st) (toasts st) (calls st)).
Definition setUserToEditPermissions {E} (v : option UserBeingEdited)
  : MOf E State unit :=
  modify (fun st =>
    mkState (users st) (listLoading st) (listError st)
            (isPermissionsDialogOpen st) v (toasts st) (calls st)).
Definition toast {E} (t : Toast) : MOf E State unit :=
  modify (fun st =>
    mkState (users st) (listLoading st) (listError st)
            (isPermissionsDialogOpen st) (userToEditPermissions st)
            (toasts st ++ [t]) (calls st)).
Definition call_out {E} (c : Call) : MOf E State unit :=
  modify (fun st =>
    mkState (users st) (listLoading st) (listError st)
            (isPermissionsDialogOpen st) (userToEditPermissions st)
            (toasts st) (calls st ++ [c])).

(** The component as first rendered. *)
Definition initial : State := mkState [] true None false None [] [].

(** [try { body } finally { cleanup }] *)
Definition try_finally {E S A} (body : MOf E S A) (cleanup : MOf E S unit)
  : MOf E S A :=
  fun s =>
    match body s with
    | (c, s') =>
        match cleanup s' with
        | (Normal _, s'') => (c, s'')
        | (Return, s'') => (Return, s'')
        | (Throw e, s'') => (Throw e, s'')
        end
    end.

(** A call of an async function that is not awaited: what it does is done,
    and a rejection of its promise reaches no one. *)
Definition not_awaited {E E' S A} (m : MOf E S A) : MOf E' S unit :=
  fun s => (Normal tt, snd (m s)).

(** [text || fallback] for strings. *)
Definition or_text (text fallback : string) : string :=
  if text =? "" then fallback else text.

(** What the server actions answer the page: the awaited promise resolved
    ([Ok]) or rejected ([Err]).  The rejection of [listUsersAction] is
    caught by the page and may be any value; the others are caught by no
    one. *)
Record Server : Type := mkServer {
  listUsersAction : ResultOf Thrown ListUsers.ListUsersResult;
  setUserRoleAction : string -> bool -> Result ActionResult;
  toggleUserStatusAction : string -> bool -> Result ActionResult;
  deleteUserAction : string -> Result ActionResult
}.

(** [useAuth()]: the user's [role] is all the page reads of it. *)
Record AuthUser : Type := mkAuthUser { role : Value }.
Record Auth : Type := mkAuth {
  currentUser : option AuthUser;
  authLoading : bool
}.

Section Page.
Variable server : Server.

(** [process.env.NEXT_PUBLIC_ADMIN_UID] as the page sees it. *)
Variable NEXT_PUBLIC_ADMIN_UID : option string.

(** [const fetchUsers = useCallback(async () => ...)] *)
Definition fetchUsers : M State unit :=
  (setListLoading true ;;
   setListError None ;;
   try_finally
     (try_catch
        (call_out ListUsersCall ;;
         result <- lift (listUsersAction server) ;;
         match ListUsers.success result, ListUsers.users result with
         | true, Some listed => setUsers listed
         | _, _ =>
             let errorMessage :=
               or_text (ListUsers.message result)
                 "Erreur inconnue lors de la récupération des utilisateurs." in
             setListError (Some ("Erreur: " ++ errorMessage)) ;;
             toast (mkToast "Erreur" errorMessage "destructive") ;;
             setUsers []
         end)
        (fun error =>
           message <- lift (message_of error) ;;
           let errorMessage :=
             ToString
               (or_ message
                  (Str "Une erreur serveur est survenue lors de la récupération des utilisateurs.")) in
           setListError (Some
             ("Erreur critique: Impossible d'initialiser Firebase Admin SDK. Vérifiez les logs du serveur. ("
              ++ errorMessage ++ ")")) ;;
           toast (mkToast "Erreur Critique"
                    ("Impossible de charger la liste des utilisateurs. Problème de configuration serveur. Détails: "
                     ++ errorMessage)
                    "destructive") ;;
           setUsers []))
     (setListLoading false))%stmt.

(** The toast of the three action handlers. *)
Definition result_toast (result : ActionResult) : Toast :=
  mkToast (if success result then "Succès" else "Erreur")
          (message result)
          (if success result then "default" else "destructive").

(** [handleSetAdmin], the callback given to [startTransition]. *)
Definition handleSetAdmin (uid : string) (isAdmin : bool) : M State unit :=
  (call_out (SetUserRoleCall uid isAdmin) ;;
   result <- lift (setUserRoleAction server uid isAdmin) ;;
   toast (result_toast result) ;;
   if success result then not_awaited fetchUsers else ret tt)%stmt.

(** [handleToggleStatus] *)
Definition handleToggleStatus (uid : string) (isDisabled : bool)
  : M State unit :=
  (call_out (ToggleUserStatusCall uid isDisabled) ;;
   result <- lift (toggleUserStatusAction server uid isDisabled) ;;
   toast (result_toast result) ;;
   if success result then not_awaited fetchUsers else ret tt)%stmt.

(** [handleDeleteUser] *)
Definition handleDeleteUser (uid : string) : M State unit :=
  (call_out (DeleteUserCall uid) ;;
   result <- lift (deleteUserAction server uid) ;;
   toast (result_toast result) ;;
   if success result then not_awaited fetchUsers else ret tt)%stmt.

(** [openPermissionsDialog] *)
Definition openPermissionsDialog (user : ListUsers.User) : M State unit :=
  (setUserToEditPermissions
     (Some (mkUserBeingEdited (ListUsers.uid user) (ListUsers.email user)
                              (ListUsers.allowedSections user))) ;;
   setIsPermissionsDialogOpen true)%stmt.

(** [handlePermissionsUpdate] *)
Definition handlePermissionsUpdate : M State unit := not_awaited fetchUsers.

(** [currentUser.role === 'admin'] *)
Definition is_admin_role (u : AuthUser) : bool :=
  ListUsers.strict_eq_string "admin" (role u).

(** The first effect: [!authLoading && (!currentUser || currentUser.role !==
    'admin')] sends the browser home. *)
Definition redirects (auth : Auth) : bool :=
  negb (authLoading auth)
  && match currentUser auth with
     | Some u => negb (is_admin_role u)
     | None => true
     end.

Definition redirect_effect (auth : Auth) : M State unit :=
  if redirects auth then call_out (RouterPush "/") else ret tt.

(** The second effect: [!authLoading && currentUser?.role === 'admin']
    fetches the users. *)
Definition fetches (auth : Auth) : bool :=
  negb (authLoading auth)
  && match currentUser auth with
     | Some u => is_admin_role u
     | None => false
     end.

Definition fetch_effect (auth : Auth) : M State unit :=
  if fetches auth then not_awaited fetchUsers else ret tt.

(** [authLoading || !currentUser || currentUser.role !== 'admin']: the
    page renders "Chargement ou redirection..." and nothing else. *)
Definition placeholder_only (auth : Auth) : bool :=
  authLoading auth
  || match currentUser auth with
     | Some u => negb (is_admin_role u)
     | None => true
     end.

(** [process.env.NEXT_PUBLIC_ADMIN_UID && usr.uid ===
    process.env.NEXT_PUBLIC_ADMIN_UID] *)
Definition is_primary_admin (usr : ListUsers.User) : Value :=
  and_ (of_option NEXT_PUBLIC_ADMIN_UID)
       (Bool (ListUsers.strict_eq_string (ListUsers.uid usr)
                                         (of_option NEXT_PUBLIC_ADMIN_UID))).

(** [usr.isAdmin || (...)], the test of the role and permissions cells. *)
Definition shown_as_admin (usr : ListUsers.User) : bool :=
  truthy (or_ (ListUsers.isAdmin usr) (is_primary_admin usr)).

Inductive RoleBadge : Type := AdminBadge | UserBadge.
Inductive StatusBadge : Type := DisabledBadge | EnabledBadge.

(** The permissions cell: "Toutes", or the badge that counts
    [usr.allowedSections] and opens the dialog. *)
Inductive PermissionsCell : Type :=
| AllSections
| SectionCount (allowedSections : Value).

(** What an entry of the actions menu does when chosen, or when its
    confirmation dialog is confirmed. *)
Inductive Handler : Type :=
| OpenPermissions (user : ListUsers.User)
| SetAdmin (uid : string) (isAdmin : bool)
| ToggleStatus (uid : string) (isDisabled : bool)
| DeleteUser (uid : string).

(** [confirmed]: the handler is on the confirm button of an [AlertDialog],
    not on the menu item. *)
Record MenuItem : Type := mkMenuItem {
  label : string;
  confirmed : bool;
  handler : Handler
}.

Inductive RowActions : Type :=
| Principal
| Menu (items : list MenuItem).

Record Row : Type := mkRow {
  row_user : ListUsers.User;
  role_badge : RoleBadge;
  status_badge : StatusBadge;
  permissions : PermissionsCell;
  actions : RowActions
}.

(** The body of [users.map((usr) => ...)]. *)
Definition render_row (usr : ListUsers.User) : Row :=
  mkRow usr
    (if shown_as_admin usr then AdminBadge else UserBadge)
    (if ListUsers.disabled usr then DisabledBadge else EnabledBadge)
    (if shown_as_admin usr then AllSections
     else SectionCount (ListUsers.allowedSections usr))
    (if truthy (is_primary_admin usr) then Principal
     else Menu
       [mkMenuItem "Gérer Permissions" false (OpenPermissions usr);
        (if truthy (ListUsers.isAdmin usr)
         then mkMenuItem "Retirer Admin" true
                (SetAdmin (ListUsers.uid usr) false)
         else mkMenuItem "Définir Admin" true
                (SetAdmin (ListUsers.uid usr) true));
        (if ListUsers.disabled usr
         then mkMenuItem "Activer" true
                (ToggleStatus (ListUsers.uid usr) false)
         else mkMenuItem "Désactiver" true
                (ToggleStatus (ListUsers.uid usr) true));
        mkMenuItem "Supprimer" true (DeleteUser (ListUsers.uid usr))]).

(** The content of the card: skeletons while loading, else the error with
    its retry link, else the table. *)
Inductive ListView : Type :=
| Skeletons
| ErrorAlert (listError : string)
| Table (rows : list Row)
| NoUsers.

(** [dialog]: the permissions dialog, rendered when a user is being edited,
    with its [open] flag. *)
Inductive View : Type :=
| Placeholder
| Panel (list : ListView) (dialog : option (UserBeingEdited * bool)).

(** The rendering logic, lines 389-649 of the file. *)
Definition render (auth : Auth) (st : State) : View :=
  if placeholder_only auth then Placeholder
  else
    Panel
      (if listLoading st then Skeletons
       else
         match listError st with
         | Some e =>
             if e =? "" then
               if (0 <? List.length (users st))%nat
               then Table (map render_row (users st)) else NoUsers
             else ErrorAlert e
         | None =>
             if (0 <? List.length (users st))%nat
             then Table (map render_row (users st)) else NoUsers
         end)
      (match userToEditPermissions st with
       | Some edited => Some (edited, isPermissionsDialogOpen st)
       | None => None
       end).

(** Runs the handler an entry of the menu stands for. *)
Definition run_handler (h : Handler) : M State unit :=
  match h with
  | OpenPermissions user => openPermissionsDialog user
  | SetAdmin uid isAdmin => handleSetAdmin uid isAdmin
  | ToggleStatus uid isDisabled => handleToggleStatus uid isDisabled
  | DeleteUser uid => handleDeleteUser uid
  end.

End Page.

End AdminPage.

(** ** More concrete processes *)
Module MoreExamples.
Import Js Stmt Sdk Admin Examples.

(** Neither the environment variable nor the local file. *)
Definition w_nothing : World := Reference.world [] None [].

(** Credentials that pass the check but that the SDK refuses: the private
    key is a number. *)
Definition odd_key : string :=
  Runtime.json_text
    "{'project_id':'reportzen','private_key':1,'client_email':'admin@reportzen.example'}".

Definition w_odd_key : World :=
  Reference.world [(envVarKey, odd_key)] None [].

(** [alice] is the primary admin. *)
Definition w_primary : World :=
  Reference.world
    [(envVarKey, Reference.good_key); ("NEXT_PUBLIC_ADMIN_UID", "uid-alice")]
    None [alice; bob; carol].

Definition st_primary : State :=
  exec (module_load Runtime.JSON_parse w_primary) (initial []).

Definition result_primary : ListUsers.ListUsersResult :=
  result_of (eval (ListUsers.listUsersAction Runtime.Date_getTime w_primary)
                  st_primary).

(** [dave] was created at the same instant as [alice]. *)
Definition dave : UserRecord :=
  mkUserRecord "uid-dave" (Some "dave@reportzen.example")
    (mkUserMetadata "Tue, 01 Jan 2019 00:00:00 GMT"
                    "Thu, 03 Jan 2019 10:00:00 GMT")
    false Undefined.

Definition w_twins : World :=
  Reference.world [(envVarKey, Reference.good_key)] None [alice; bob; dave].

Definition st_twins : State :=
  exec (module_load Runtime.JSON_parse w_twins) (initial []).

Definition result_twins : ListUsers.ListUsersResult :=
  result_of (eval (ListUsers.listUsersAction Runtime.Date_getTime w_twins)
                  st_twins).

(** The module after a bootstrap that failed. *)
Definition st_failed : State :=
  exec (module_load Runtime.JSON_parse w_env_garbage) (initial []).

(** A signed-in administrator. *)
Definition signed_in_admin : AdminPage.Auth :=
  AdminPage.mkAuth (Some (AdminPage.mkAuthUser (Str "admin"))) false.

(** A server that lists the three accounts, changes roles, refuses to
    change a status and is unreachable for deletions. *)
Definition server_listing : AdminPage.Server :=
  AdminPage.mkServer
    (Ok result_listing)
    (fun _ _ => Ok (AdminPage.mkActionResult true "Role updated."))
    (fun _ _ => Ok (AdminPage.mkActionResult false "Status not changed."))
    (fun _ => Err (new_Error "fetch failed")).

Definition user_alice : ListUsers.User := ListUsers.to_user w_listing alice.
Definition user_bob : ListUsers.User := ListUsers.to_user w_listing bob.

(** U+00A0, a no-break space, and U+FEFF, a byte order mark. *)
Definition nbsp : string :=
  String (ascii_of_nat 194) (String (ascii_of_nat 160) "").
Definition bom : string :=
  String (ascii_of_nat 239) (String (ascii_of_nat 187)
    (String (ascii_of_nat 191) "")).

(** The environment variable holds a no-break space, next to a good local
    file. *)
Definition w_env_nbsp : World :=
  Reference.world [(envVarKey, nbsp)] (Some Reference.good_key) [].

(** No environment variable; the local file holds a byte order mark and a
    line feed. *)
Definition w_file_bom : World :=
  Reference.world [] (Some (bom ++ String (ascii_of_nat 10) "")) [].

(** [world] with a provider whose [listUsers] is rejected with [reason]. *)
Definition rejecting (world : World) (reason : Thrown) : World :=
  mkWorld (process_env world) (path_resolve world) (fs_existsSync world)
          (fs_readFileSync world) (admin_initializeApp world)
          (admin_auth world) (fun _ _ => Err reason).

(** Good credentials, and a provider that rejects with [null]. *)
Definition w_rejects_null : World := rejecting w_listing (JsValue Null).

Definition st_rejects_null : State :=
  exec (module_load Runtime.JSON_parse w_rejects_null) (initial []).

(** ... with a quota error of the SDK. *)
Definition quota_exceeded : Error :=
  mkError PlainError "Exceeded quota for listing users."
          (Some "auth/quota-exceeded").

Definition w_quota : World := rejecting w_listing (ErrorObject quota_exceeded).

Definition st_quota : State :=
  exec (module_load Runtime.JSON_parse w_quota) (initial []).

(** A server whose [listUsersAction] is rejected with [reason]. *)
Definition server_rejecting (reason : Thrown) : AdminPage.Server :=
  AdminPage.mkServer
    (Err reason)
    (fun _ _ => Ok (AdminPage.mkActionResult true "Role updated."))
    (fun _ _ => Ok (AdminPage.mkActionResult false "Status not changed."))
    (fun _ => Err (new_Error "fetch failed")).

End MoreExamples.


(** * Proofs *)

Import Js Stmt Sdk Admin Props.

(** Unfolds the statement monad and the state accessors, nothing else. *)
Ltac run :=
  cbv beta iota zeta delta
    [bind ret return_ throw try_catch call gets modify lift emit log
     fst snd exec eval
     existsSync readFileSync initializeApp auth auth_of
     adminAuthInstance initializationError isInitialized initializedVia
     admin_apps trace
     set_adminAuthInstance set_initializationError set_isInitialized
     set_initializedVia set_admin_apps] in *.

(** Splits on the first condition the run is stuck on. *)
Ltac branch :=
  match goal with
  | |- context [match ?x with _ => _ end] =>
      lazymatch x with
      | context [match _ with _ => _ end] => fail
      | _ => destruct x eqn:?
      end
  end.

(** Gives the events a run added to the trace. *)
Ltac added_events :=
  repeat rewrite <- app_assoc; cbn [app];
  first [ eexists; split; [reflexivity|]
        | exists []; split; [symmetry; apply app_nil_r|] ].

(** ** [String.prototype.trim] *)

Lemma space_width_bound (s : string) : space_width s <= String.length s.
Proof.
  destruct s as [|c [|d [|e r]]]; unfold space_width; cbn [String.length];
    repeat match goal with
           | |- context [if ?b then _ else _] => destruct b
           end; lia.
Qed.

Lemma skip_length (n : nat) (s : string) :
  n <= String.length s -> String.length (skip n s) = String.length s - n.
Proof.
  revert s. induction n as [|n IH]; intros [|c r] Hn; cbn in *;
    try reflexivity; try lia.
  apply IH. lia.
Qed.

(** The fuel [trimStart] gives is enough: what it returns does not begin
    with white space. *)
Lemma trimStart_from_done (fuel : nat) (s : string) :
  String.length s <= fuel -> space_width (trimStart_from fuel s) = 0.
Proof.
  revert s. induction fuel as [|fuel IH]; intros s Hlen.
  - destruct s; [reflexivity | cbn in Hlen; lia].
  - cbn [trimStart_from].
    destruct (space_width s) as [|n] eqn:Hwidth; [exact Hwidth|].
    apply IH. pose proof (space_width_bound s) as Hbound.
    rewrite skip_length; lia.
Qed.

Lemma trimStart_no_space (s : string) : space_width (trimStart s) = 0.
Proof. apply trimStart_from_done. apply Nat.le_refl. Qed.

(** Only the empty string and white space trim to the empty string. *)
Lemma trim_keeps_text (c : ascii) (r : string) :
  space_width (String c r) = 0 -> trim (String c r) <> "".
Proof.
  intros Hwidth. unfold trim.
  assert (Hstart : trimStart (String c r) = String c r).
  { unfold trimStart. cbn [String.length trimStart_from].
    rewrite Hwidth. reflexivity. }
  rewrite Hstart. cbn [trimEnd]. rewrite Hstart. cbn. discriminate.
Qed.

Section BootstrapProofs.
Variable JSON_parse : string -> Result Value.
Variable w : World.

(** "Method 1" in closed form. *)
Lemma load_from_env_run (st : State) :
  load_from_env JSON_parse w st =
  if env_usable (process_env w envVarKey) then
    match process_env w envVarKey with
    | Some v =>
        if valid_credentials JSON_parse v
        then (Normal (Some v, Some "environment variable"), st)
        else (Return,
              set_initializationError (Some (env_failure JSON_parse v)) st)
    | None => (Normal (None, None), st)
    end
  else (Normal (None, None), st).
Proof.
  unfold load_from_env, env_failure, valid_credentials, rejection.
  destruct (process_env w envVarKey) as [v|]; [|reflexivity].
  destruct (env_usable (Some v)); [|reflexivity].
  run. destruct (JSON_parse v) as [parsed|e]; [|reflexivity].
  destruct (invalid_shape parsed); reflexivity.
Qed.

Lemma trim_empty (s : string) :
  (trim s =? "") = false -> no_json (Some s) = false.
Proof.
  intros H. cbn.
  destruct (String.eqb_spec s ""); [subst; discriminate | reflexivity].
Qed.

(** "Method 2" in closed form. *)
Lemma load_from_file_run (json : option string) (src : option string)
  (st : State) :
  load_from_file JSON_parse w json src st =
  if no_json json then
    if fs_existsSync w (serviceAccountPath w) then
      let st' := log [ExistsSync (serviceAccountPath w);
                      ReadFileSync (serviceAccountPath w)] st in
      match fs_readFileSync w (serviceAccountPath w) with
      | Ok content =>
          if trim content =? "" then (Normal (None, src), st')
          else if valid_credentials JSON_parse content then
            (Normal (Some content,
                     Some ("local file (" ++ serviceAccountFilename ++ ")")),
             st')
          else
            (Return,
             set_initializationError
               (Some (file_failure (rejection JSON_parse content))) st')
      | Err e =>
          (Return, set_initializationError (Some (file_failure e)) st')
      end
    else (Normal (json, src), log [ExistsSync (serviceAccountPath w)] st)
  else (Normal (json, src), st).
Proof.
  unfold load_from_file, file_failure, valid_credentials, rejection,
    serviceAccountPath.
  destruct (no_json json); [|reflexivity].
  destruct st as [inst err flag via apps tr].
  run. destruct (fs_existsSync w _); [|reflexivity].
  destruct (fs_readFileSync w _) as [content|e];
    [|rewrite <- app_assoc; reflexivity].
  rewrite <- app_assoc.
  destruct (trim content =? ""); [reflexivity|].
  destruct (JSON_parse content) as [parsed|e]; [|reflexivity].
  destruct (invalid_shape parsed); reflexivity.
Qed.

(** The SDK block, entered with credentials that passed the check and no
    client handle yet. *)
Lemma initialize_sdk_spec (json : string) (src : option string) (st : State) :
  valid_credentials JSON_parse json = true ->
  adminAuthInstance st = None ->
  exists evs,
    trace (exec (initialize_sdk JSON_parse w json src) st) = (trace st ++ evs)%list
    /\ isInitialized (exec (initialize_sdk JSON_parse w json src) st)
       = isInitialized st
    /\ existsb sdk_call evs = true
    /\ existsb touches_file evs = false
    /\ List.length (filter is_initializeApp evs) <= 1
    /\ match eval (initialize_sdk JSON_parse w json src) st with
       | Throw _ =>
           adminAuthInstance (exec (initialize_sdk JSON_parse w json src) st)
           = None
           /\ initializationError
                (exec (initialize_sdk JSON_parse w json src) st)
              = initializationError st
       | _ =>
           (adminAuthInstance (exec (initialize_sdk JSON_parse w json src) st)
            = None
            /\ initializationError
                 (exec (initialize_sdk JSON_parse w json src) st) <> None)
           \/ (adminAuthInstance
                 (exec (initialize_sdk JSON_parse w json src) st) <> None
               /\ initializationError
                    (exec (initialize_sdk JSON_parse w json src) st) = None)
       end.
Proof.
  unfold valid_credentials. intros Hvalid Hnone.
  destruct st as [inst err flag via apps tr].
  unfold initialize_sdk. run.
  repeat (branch; run); try discriminate; added_events; cbn;
    repeat split; auto; try lia; try (left; split; congruence);
    try (right; split; congruence).
Qed.

(** One call of [initializeFirebaseAdmin] on the module as first evaluated. *)
Lemma initializeFirebaseAdmin_fresh (st : State) :
  fresh st ->
  exists evs,
    trace (exec (initializeFirebaseAdmin JSON_parse w) st)
    = (trace st ++ evs)%list
    /\ isInitialized (exec (initializeFirebaseAdmin JSON_parse w) st) = true
    /\ existsb touches_file evs
       = negb (env_usable (process_env w envVarKey))
    /\ existsb sdk_call evs
       = match checked_blob w with
         | Some blob => valid_credentials JSON_parse blob
         | None => false
         end
    /\ List.length (filter is_initializeApp evs) <= 1
    /\ match eval (initializeFirebaseAdmin JSON_parse w) st with
       | Normal _ =>
           (adminAuthInstance (exec (initializeFirebaseAdmin JSON_parse w) st)
            = None
            /\ initializationError
                 (exec (initializeFirebaseAdmin JSON_parse w) st) <> None)
           \/ (adminAuthInstance
                 (exec (initializeFirebaseAdmin JSON_parse w) st) <> None
               /\ initializationError
                    (exec (initializeFirebaseAdmin JSON_parse w) st) = None
               /\ existsb sdk_call evs = true)
       | Return => False
       | Throw _ =>
           adminAuthInstance (exec (initializeFirebaseAdmin JSON_parse w) st)
           = None
           /\ initializationError
                (exec (initializeFirebaseAdmin JSON_parse w) st) = None
           /\ existsb sdk_call evs = true
       end.
Proof.
  intros (Hflag & Hnone & Hnoerr).
  destruct st as [inst err flag via apps tr].
  cbn in Hflag, Hnone, Hnoerr. subst.
  unfold initializeFirebaseAdmin, initializeFirebaseAdmin_body, checked_blob,
    file_blob.
  run. rewrite load_from_env_run.
  destruct (env_usable (process_env w envVarKey)) eqn:Huse.
  - (* Method 1 has something to check *)
    destruct (process_env w envVarKey) as [v|] eqn:Henv; [|discriminate].
    destruct (valid_credentials JSON_parse v) eqn:Hv; run.
    + rewrite load_from_file_run.
      assert (Hjson : no_json (Some v) = false).
      { unfold env_usable in Huse. cbn.
        destruct (v =? ""); [discriminate | reflexivity]. }
      rewrite Hjson. run. unfold require_credentials. rewrite Hjson. run.
      match goal with
      | |- context [initialize_sdk _ _ ?json ?src ?s] =>
          destruct (initialize_sdk_spec json src s Hv eq_refl)
            as (evs & Ht & Hi & Hs & Hf & Hn & Hc);
          run;
          destruct (initialize_sdk JSON_parse w json src s) as [c st3]
      end.
      exists evs. destruct c; rewrite ?Hf; intuition.
    + exists []. rewrite app_nil_r. cbn. intuition. left. split; congruence.
  - (* Method 2 *)
    rewrite load_from_file_run. cbn [no_json].
    destruct (fs_existsSync w (serviceAccountPath w)).
    + destruct (fs_readFileSync w (serviceAccountPath w)) as [content|e].
      * destruct (trim content =? "") eqn:Hblank.
        -- run. unfold require_credentials. cbn [no_json]. run.
           eexists; split; [reflexivity|]. cbn. intuition.
           left. split; congruence.
        -- destruct (valid_credentials JSON_parse content) eqn:Hv; run.
           ++ unfold require_credentials. rewrite (trim_empty _ Hblank). run.
              match goal with
              | |- context [initialize_sdk _ _ ?json ?src ?s] =>
                  destruct (initialize_sdk_spec json src s Hv eq_refl)
                    as (evs & Ht & Hi & Hs & Hf & Hn & Hc);
                  run;
                  destruct (initialize_sdk JSON_parse w json src s) as [c st3]
              end.
              rewrite <- app_assoc in Ht.
              destruct c; (eexists; split; [exact Ht|]);
                cbn [app existsb filter touches_file sdk_call is_initializeApp
                     orb negb];
                intuition.
           ++ eexists; split; [reflexivity|]. cbn. intuition.
              left. split; congruence.
      * run. eexists; split; [reflexivity|]. cbn. intuition.
        left. split; congruence.
    + run. unfold require_credentials. cbn [no_json]. run.
      eexists; split; [reflexivity|]. cbn. intuition.
      left. split; congruence.
Qed.

(** A call on a module that has been through an attempt changes nothing. *)
Lemma initialized_noop (st : State) :
  isInitialized st = true ->
  initializeFirebaseAdmin JSON_parse w st = (Normal tt, st).
Proof.
  intros Hflag. destruct st as [inst err flag via apps tr].
  cbn in Hflag. subst.
  unfold initializeFirebaseAdmin, initializeFirebaseAdmin_body.
  reflexivity.
Qed.

Lemma module_load_noop (st : State) :
  isInitialized st = true ->
  module_load JSON_parse w st = (Normal tt, st).
Proof.
  intros Hflag. unfold module_load, try_catch.
  rewrite (initialized_noop st Hflag). reflexivity.
Qed.

(** The module-load call on the module as first evaluated: it never throws,
    and leaves a handle or a failure. *)
Lemma module_load_fresh (st : State) :
  fresh st ->
  exists evs,
    trace (exec (module_load JSON_parse w) st) = (trace st ++ evs)%list
    /\ eval (module_load JSON_parse w) st = Normal tt
    /\ settled (exec (module_load JSON_parse w) st)
    /\ existsb touches_file evs
       = negb (env_usable (process_env w envVarKey))
    /\ existsb sdk_call evs
       = match checked_blob w with
         | Some blob => valid_credentials JSON_parse blob
         | None => false
         end
    /\ List.length (filter is_initializeApp evs) <= 1
    /\ (adminAuthInstance (exec (module_load JSON_parse w) st) <> None ->
        existsb sdk_call evs = true).
Proof.
  intros Hfresh.
  destruct (initializeFirebaseAdmin_fresh st Hfresh)
    as (evs & Ht & Hi & Hfile & Hsdk & Hn & Hc).
  exists evs. unfold module_load, settled. run.
  destruct (initializeFirebaseAdmin JSON_parse w st) as [c st'].
  destruct st' as [inst err flag via apps tr]. run. subst flag.
  destruct c as [[]| |e]; run.
  - intuition.
  - contradiction.
  - destruct Hc as (-> & -> & Hcalled).
    repeat split; auto. left. split; congruence.
Qed.

Lemma initial_fresh (apps : list (option App)) : fresh (initial apps).
Proof. repeat split. Qed.

Lemma bootstrapped_settled (st : State) :
  bootstrapped JSON_parse w st -> settled st.
Proof.
  induction 1 as [apps | st Hboot IH].
  - destruct (module_load_fresh (initial apps) (initial_fresh apps))
      as (evs & _ & _ & Hsettled & _).
    exact Hsettled.
  - unfold exec. rewrite (initialized_noop st (proj1 IH)). exact IH.
Qed.

Lemma settled_consistent (st : State) : settled st -> consistent st.
Proof.
  intros (Hflag & [[Hnone _] | [_ Hnoerr]]); split;
    try (intros; congruence); [left | right]; assumption.
Qed.

Lemma call_consistent (st : State) :
  consistent st -> consistent (exec (initializeFirebaseAdmin JSON_parse w) st).
Proof.
  intros [Hfresh Hexcl].
  destruct (isInitialized st) eqn:Hflag.
  - unfold exec. rewrite (initialized_noop st Hflag). cbn [snd].
    split; [congruence | exact Hexcl].
  - destruct (initializeFirebaseAdmin_fresh st (Hfresh eq_refl))
      as (evs & _ & Hi & _ & _ & _ & Hc).
    split; [congruence|]. unfold exclusive.
    destruct (eval (initializeFirebaseAdmin JSON_parse w) st);
      try contradiction; intuition.
Qed.

Lemma load_consistent (st : State) :
  consistent st -> consistent (exec (module_load JSON_parse w) st).
Proof.
  intros [Hfresh Hexcl].
  destruct (isInitialized st) eqn:Hflag.
  - unfold exec. rewrite (module_load_noop st Hflag). cbn [snd].
    split; [congruence | exact Hexcl].
  - destruct (module_load_fresh st (Hfresh eq_refl))
      as (evs & _ & _ & Hsettled & _).
    apply settled_consistent, Hsettled.
Qed.

Lemma reachable_consistent (st : State) :
  reachable JSON_parse w st -> consistent st.
Proof.
  induction 1 as [apps | st Hreach IH | st Hreach IH].
  - split; [intros _; apply initial_fresh | left; reflexivity].
  - apply call_consistent, IH.
  - apply load_consistent, IH.
Qed.

Lemma valid_credentials_shape (blob : string) :
  valid_credentials JSON_parse blob = true <->
  exists fields,
    JSON_parse blob = Ok (Obj fields)
    /\ truthy (lookup "project_id" fields) = true
    /\ truthy (lookup "private_key" fields) = true
    /\ truthy (lookup "client_email" fields) = true.
Proof.
  unfold valid_credentials, invalid_shape. split.
  - destruct (JSON_parse blob) as [parsed|e]; [|discriminate].
    destruct parsed; cbn; try discriminate.
    intros H. exists fields. split; [reflexivity|].
    destruct (truthy (lookup "project_id" fields));
      destruct (truthy (lookup "private_key" fields));
      destruct (truthy (lookup "client_email" fields));
      cbn in H; try discriminate; auto.
  - intros (fields & Hparsed & Hid & Hkey & Hmail). rewrite Hparsed.
    cbn [typeof_object is_null get negb orb]. rewrite Hid, Hkey, Hmail.
    reflexivity.
Qed.

(** C1, as amended: the bootstrap reads the environment variable first; the
    local file is looked for exactly when the variable is unset, blank or
    [{}], and not when it holds anything else, valid or not; the blob that
    is checked decides whether the SDK is called; the SDK is initialised at
    most once; the outcome is kept, a handle or a failure, a handle only
    through the SDK, and a further call returns at once with the state as
    it is. *)
Theorem bootstrap_sequence (apps : list (option App)) :
  let st := exec (module_load JSON_parse w) (initial apps) in
  eval (module_load JSON_parse w) (initial apps) = Normal tt
  /\ file_tried st = negb (env_usable (process_env w envVarKey))
  /\ sdk_called st
     = match checked_blob w with
       | Some blob => valid_credentials JSON_parse blob
       | None => false
       end
  /\ initializeApp_calls st <= 1
  /\ settled st
  /\ (adminAuthInstance st <> None -> sdk_called st = true)
  /\ initializeFirebaseAdmin JSON_parse w st = (Normal tt, st).
Proof.
  intros st. subst st.
  destruct (module_load_fresh (initial apps) (initial_fresh apps))
    as (evs & Ht & Hc & Hsettled & Hfile & Hsdk & Hn & Hinst).
  unfold file_tried, sdk_called, initializeApp_calls.
  rewrite Ht. cbn [initial trace app].
  repeat split; try assumption; try apply Hsettled.
  apply initialized_noop, Hsettled.
Qed.

(** C2: after the bootstrap has run, [getAdminAuth] throws exactly when a
    failure is recorded, its message then quotes the recorded one, and
    otherwise it returns the memoised handle. *)
Theorem getAdminAuth_after_bootstrap (st : State) :
  bootstrapped JSON_parse w st ->
  ((exists e, getAdminAuth st = Err e) <-> initializationError st <> None)
  /\ (forall err, initializationError st = Some err ->
        getAdminAuth st
        = Err (new_Error
                 ("Firebase Admin SDK access failed: " ++ message err
                  ++ ". Check server startup logs for details. Common causes are missing, empty, or invalid service account credentials (env var 'FIREBASE_SERVICE_ACCOUNT_KEY' or local file 'reportzen-mixd3-firebase-adminsdk-fbsvc-f006f10e8d.json'). Please verify your setup according to the README.md.")))
  /\ (initializationError st = None ->
        exists instance,
          adminAuthInstance st = Some instance
          /\ getAdminAuth st = Ok instance).
Proof.
  intros Hboot. apply bootstrapped_settled in Hboot.
  destruct Hboot as (_ & Hcases). unfold getAdminAuth.
  destruct (initializationError st) as [err|].
  - repeat split.
    + intros _. discriminate.
    + intros _. eexists. reflexivity.
    + intros err' [= <-]. reflexivity.
    + discriminate.
  - destruct Hcases as [[_ Hrec] | [Hinst _]]; [congruence|].
    destruct (adminAuthInstance st) as [instance|]; [|congruence].
    repeat split.
    + intros [e He]. discriminate.
    + congruence.
    + discriminate.
    + intros _. exists instance. split; reflexivity.
Qed.

(** C4, as amended: the blob the bootstrapper checks is accepted exactly
    when it parses to an object whose [project_id], [private_key] and
    [client_email] are all truthy; the SDK is called exactly then, and when
    the check fails a failure is recorded and no handle is made. *)
Theorem credential_shape_check (apps : list (option App)) (blob : string) :
  checked_blob w = Some blob ->
  let st := exec (module_load JSON_parse w) (initial apps) in
  (valid_credentials JSON_parse blob = true <->
   exists fields,
     JSON_parse blob = Ok (Obj fields)
     /\ truthy (lookup "project_id" fields) = true
     /\ truthy (lookup "private_key" fields) = true
     /\ truthy (lookup "client_email" fields) = true)
  /\ sdk_called st = valid_credentials JSON_parse blob
  /\ (valid_credentials JSON_parse blob = false ->
      initializationError st <> None /\ adminAuthInstance st = None).
Proof.
  intros Hblob st. subst st.
  destruct (module_load_fresh (initial apps) (initial_fresh apps))
    as (evs & Ht & _ & Hsettled & _ & Hsdk & _ & Hinst).
  rewrite Hblob in Hsdk. unfold sdk_called. rewrite Ht. cbn [initial trace app].
  split; [apply valid_credentials_shape|]. split; [exact Hsdk|].
  intros Hinvalid. rewrite Hinvalid in Hsdk.
  destruct Hsettled as (_ & [[Hnone Herr] | [Hsome _]]).
  - split; assumption.
  - apply Hinst in Hsome. congruence.
Qed.

(** C5: once [isInitialized] is set, a call of [initializeFirebaseAdmin]
    returns and leaves [adminAuthInstance], [initializationError] and
    [initializedVia] (and everything else) as they were. *)
Theorem initializeFirebaseAdmin_idempotent (st : State) :
  isInitialized st = true ->
  eval (initializeFirebaseAdmin JSON_parse w) st = Normal tt
  /\ adminAuthInstance (exec (initializeFirebaseAdmin JSON_parse w) st)
     = adminAuthInstance st
  /\ initializationError (exec (initializeFirebaseAdmin JSON_parse w) st)
     = initializationError st
  /\ initializedVia (exec (initializeFirebaseAdmin JSON_parse w) st)
     = initializedVia st
  /\ exec (initializeFirebaseAdmin JSON_parse w) st = st.
Proof.
  intros Hflag. unfold eval, exec.
  rewrite (initialized_noop st Hflag). repeat split.
Qed.

(** C6: in every state the module can reach, through the module-load call
    or a bare call of [initializeFirebaseAdmin], a client handle and a
    recorded failure are never both present. *)
Theorem handle_and_failure_exclusive (st : State) :
  reachable JSON_parse w st ->
  ~ (adminAuthInstance st <> None /\ initializationError st <> None).
Proof.
  intros Hreach [Hinst Herr].
  destruct (reachable_consistent st Hreach) as [_ [Hnone | Hnone]];
    contradiction.
Qed.

End BootstrapProofs.

(** ** [Array.prototype.sort] with a comparator that is a difference of keys *)
Section SortingProofs.
Context {A : Type}.
Variable compareFn : A -> A -> option Z.
Variable key : A -> Z.

Lemma sort_insert_perm (x : A) (l : list A) :
  Permutation (x :: l) (ListUsers.sort_insert compareFn x l).
Proof.
  induction l as [|y rest IH]; cbn [ListUsers.sort_insert].
  - apply Permutation_refl.
  - destruct (ListUsers.sorts_before compareFn y x).
    + apply perm_trans with (y :: x :: rest);
        [apply perm_swap | apply perm_skip, IH].
    + apply Permutation_refl.
Qed.

Lemma Array_sort_perm (l : list A) :
  Permutation l (ListUsers.Array_sort compareFn l).
Proof.
  induction l as [|x rest IH]; cbn [ListUsers.Array_sort].
  - apply perm_nil.
  - apply perm_trans with (x :: ListUsers.Array_sort compareFn rest);
      [apply perm_skip, IH | apply sort_insert_perm].
Qed.

Lemma Array_sort_length (l : list A) :
  List.length (ListUsers.Array_sort compareFn l) = List.length l.
Proof. symmetry. apply Permutation_length, Array_sort_perm. Qed.

Lemma sort_insert_sorted (x : A) (l : list A) :
  by_key_desc compareFn key (x :: l) ->
  StronglySorted (fun a b => (key b <= key a)%Z) l ->
  StronglySorted (fun a b => (key b <= key a)%Z)
                 (ListUsers.sort_insert compareFn x l).
Proof.
  intros Hcmp Hsorted.
  induction Hsorted as [|y rest Hrest IH Hall]; cbn [ListUsers.sort_insert].
  - constructor; constructor.
  - unfold ListUsers.sorts_before.
    rewrite (Hcmp y x) by (cbn; auto).
    destruct (Z.ltb_spec (key x - key y) 0) as [Hlt | Hge].
    + constructor.
      * apply IH. intros a b Ha Hb. apply Hcmp; cbn in *; intuition.
      * apply (Permutation_Forall (sort_insert_perm x rest)).
        constructor; [lia | exact Hall].
    + constructor.
      * constructor; assumption.
      * constructor; [lia|].
        eapply Forall_impl; [|exact Hall]. cbn. intros; lia.
Qed.

Lemma Array_sort_sorted (l : list A) :
  by_key_desc compareFn key l ->
  StronglySorted (fun a b => (key b <= key a)%Z)
                 (ListUsers.Array_sort compareFn l).
Proof.
  induction l as [|x rest IH]; intros Hcmp; cbn [ListUsers.Array_sort].
  - constructor.
  - apply sort_insert_sorted.
    + intros a b Ha Hb. apply Hcmp.
      * destruct Ha as [<- | Ha]; [left; reflexivity | right].
        apply (Permutation_in _ (Permutation_sym (Array_sort_perm rest))), Ha.
      * destruct Hb as [<- | Hb]; [left; reflexivity | right].
        apply (Permutation_in _ (Permutation_sym (Array_sort_perm rest))), Hb.
    + apply IH. intros a b Ha Hb. apply Hcmp; right; assumption.
Qed.

End SortingProofs.

(** ** [listUsersAction] *)
Section ActionProofs.
Variable Date_getTime : string -> option Z.
Variable w : World.

(** The handler in closed form. *)
Lemma on_error_run (error : Thrown) (st : State) :
  ListUsers.on_error error st =
  match message_of error with
  | Err e => (Throw e, st)
  | Ok message =>
      match optional_includes "error.message?.includes" message
              ListUsers.critical_marker with
      | Err e => (Throw e, st)
      | Ok critical =>
          (Normal (ListUsers.mkListUsersResult
                     false
                     (if critical then
                        "Erreur critique: Impossible d'initialiser Firebase Admin SDK. Vérifiez les logs du serveur. ("
                        ++ ToString message ++ ")"
                      else
                        "Erreur lors de la récupération des utilisateurs: "
                        ++ ToString message)
                     None),
           st)
      end
  end.
Proof.
  unfold ListUsers.on_error. cbv beta iota zeta delta [bind ret lift].
  destruct (message_of error) as [message|e]; [|reflexivity].
  destruct (optional_includes _ message _); reflexivity.
Qed.

(** On an [Error] object the handler does not throw. *)
Lemma on_error_Error (e : Error) (st : State) :
  ListUsers.on_error (ErrorObject e) st
  = (Normal (ListUsers.mkListUsersResult
               false (ListUsers.error_message e) None), st).
Proof.
  rewrite on_error_run. unfold ListUsers.error_message.
  cbn [message_of optional_includes ToString].
  destruct (includes ListUsers.critical_marker (message e)); reflexivity.
Qed.

(** The ways a call goes. *)
Lemma listUsersAction_run (st : State) :
  ListUsers.listUsersAction Date_getTime w st =
  match getAdminAuth st with
  | Err e =>
      (Normal (ListUsers.mkListUsersResult
                 false (ListUsers.error_message e) None), st)
  | Ok adminAuth =>
      match auth_listUsers w adminAuth 1000 with
      | Err reason =>
          ListUsers.on_error reason (log [ListUsers adminAuth 1000] st)
      | Ok page =>
          let listed :=
            ListUsers.Array_sort (ListUsers.by_creation_desc Date_getTime)
              (map (ListUsers.to_user w) (users page)) in
          (Normal (ListUsers.mkListUsersResult
                     true
                     ("Successfully fetched "
                      ++ nat_to_string (List.length listed) ++ " users.")
                     (Some listed)),
           log [ListUsers adminAuth 1000] st)
      end
  end.
Proof.
  unfold ListUsers.listUsersAction, ListUsers.listUsers.
  cbv beta iota zeta delta [bind ret try_catch gets modify lift thrown].
  destruct (getAdminAuth st) as [adminAuth|e]; [|apply on_error_Error].
  destruct (auth_listUsers w adminAuth 1000) as [page|reason]; reflexivity.
Qed.

(** What a call that does not reject returns when the provider rejected:
    no users, and a message that is not empty. *)
Lemma on_error_result (reason : Thrown) (st : State)
  (r : ListUsers.ListUsersResult) :
  fst (ListUsers.on_error reason st) = Normal r ->
  ListUsers.success r = false
  /\ ListUsers.users r = None
  /\ (ListUsers.message r =? "") = false.
Proof.
  rewrite on_error_run.
  destruct (message_of reason) as [message|e]; [|discriminate].
  destruct (optional_includes _ message _) as [[|]|e];
    cbn [fst]; intros [= <-]; repeat split.
Qed.

Lemma append_empty (s : string) : s ++ "" = s.
Proof. induction s as [|c r IH]; cbn; [|rewrite IH]; reflexivity. Qed.

Lemma error_message_quotes (e : Error) :
  exists before after,
    ListUsers.error_message e = before ++ message e ++ after.
Proof.
  unfold ListUsers.error_message.
  destruct (includes ListUsers.critical_marker (message e)).
  - exists "Erreur critique: Impossible d'initialiser Firebase Admin SDK. Vérifiez les logs du serveur. (", ")".
    reflexivity.
  - exists "Erreur lors de la récupération des utilisateurs: ", "".
    rewrite append_empty. reflexivity.
Qed.

(** C3, as amended: [listUsersAction] does not throw when [getAdminAuth]
    fails, nor when the provider rejects with an [Error] object: both come
    back as a result with [success = false] whose message quotes the
    error's; a call that goes through comes back with [success = true] and
    the users, one for each account of the page.  When the provider rejects
    with another value, the handler quotes its [message] if that is a
    string, an array or missing; when the value is [null] or [undefined],
    or its [message] is a number, a boolean or an object, the handler
    itself throws a TypeError and the action rejects. *)
Theorem listUsersAction_captures_errors (st : State) :
  match getAdminAuth st with
  | Err e =>
      eval (ListUsers.listUsersAction Date_getTime w) st
      = Normal (ListUsers.mkListUsersResult
                  false (ListUsers.error_message e) None)
  | Ok adminAuth =>
      match auth_listUsers w adminAuth 1000 with
      | Ok page =>
          exists text listed,
            eval (ListUsers.listUsersAction Date_getTime w) st
            = Normal (ListUsers.mkListUsersResult true text (Some listed))
            /\ Permutation (map (ListUsers.to_user w) (users page)) listed
      | Err (ErrorObject e) =>
          eval (ListUsers.listUsersAction Date_getTime w) st
          = Normal (ListUsers.mkListUsersResult
                      false (ListUsers.error_message e) None)
      | Err (JsValue v) =>
          if readable (JsValue v) then
            exists before after,
              eval (ListUsers.listUsersAction Date_getTime w) st
              = Normal (ListUsers.mkListUsersResult
                          false
                          (before ++ ToString (get v "message") ++ after)
                          None)
          else
            exists e,
              eval (ListUsers.listUsersAction Date_getTime w) st = Throw e
              /\ class e = TypeError
      end
  end
  /\ (forall e, exists before after,
        ListUsers.error_message e = before ++ message e ++ after).
Proof.
  split; [|apply error_message_quotes].
  unfold eval. rewrite listUsersAction_run.
  destruct (getAdminAuth st) as [adminAuth|e]; [|reflexivity].
  destruct (auth_listUsers w adminAuth 1000) as [page|[e|v]].
  - eexists _, _. split; [reflexivity|]. apply Array_sort_perm.
  - rewrite on_error_Error. reflexivity.
  - rewrite on_error_run.
    assert (Hquote : forall message critical,
              exists before after,
                (if critical : bool then
                   "Erreur critique: Impossible d'initialiser Firebase Admin SDK. Vérifiez les logs du serveur. ("
                   ++ ToString message ++ ")"
                 else
                   "Erreur lors de la récupération des utilisateurs: "
                   ++ ToString message)
                = before ++ ToString message ++ after).
    { intros message [|]; eexists _, _;
        [reflexivity | rewrite append_empty; reflexivity]. }
    destruct v as [| |b|m e|s|items|fields];
      cbn [readable message_of get optional_includes fst];
      try (eexists; split; reflexivity);
      try (destruct (Hquote Undefined false) as (before & after & H);
           exists before, after; rewrite <- H; reflexivity).
    destruct (lookup "message" fields) as [| |b|m e|s|items|fields'] eqn:Hm;
      cbn [optional_includes fst];
      try (eexists; split; reflexivity).
    + destruct (Hquote Undefined false) as (before & after & H).
      exists before, after. rewrite <- H. reflexivity.
    + destruct (Hquote Null false) as (before & after & H).
      exists before, after. rewrite <- H. reflexivity.
    + destruct (Hquote (Str s) (includes ListUsers.critical_marker s))
        as (before & after & H).
      exists before, after. rewrite <- H. reflexivity.
    + destruct (Hquote (Arr items)
                  (existsb (same_string ListUsers.critical_marker) items))
        as (before & after & H).
      exists before, after. rewrite <- H. reflexivity.
Qed.

(** [isAdmin] is truthy exactly for an account with a truthy admin claim or
    with the uid that [NEXT_PUBLIC_ADMIN_UID] names. *)
Lemma isAdmin_truthy (userRecord : UserRecord) :
  truthy (ListUsers.isAdmin_of w userRecord)
  = truthy (get_opt (customClaims userRecord) "admin")
    || match process_env w "NEXT_PUBLIC_ADMIN_UID" with
       | Some id => negb (id =? "") && (uid userRecord =? id)
       | None => false
       end.
Proof.
  unfold ListUsers.isAdmin_of, or_, and_, notnot.
  cbn [truthy].
  destruct (truthy (get_opt (customClaims userRecord) "admin"));
    [reflexivity|].
  destruct (process_env w "NEXT_PUBLIC_ADMIN_UID") as [id|];
    cbn [of_option truthy ListUsers.strict_eq_string orb]; [|reflexivity].
  destruct (id =? "") eqn:Hempty; cbn [negb andb truthy];
    rewrite ?Hempty; reflexivity.
Qed.

(** What a successful call returns: the mapped records of the page the
    provider gave for [maxResults = 1000], sorted. *)
Lemma successful_call (st : State) (r : ListUsers.ListUsersResult)
  (listed : list ListUsers.User) :
  eval (ListUsers.listUsersAction Date_getTime w) st = Normal r ->
  ListUsers.users r = Some listed ->
  exists adminAuth page,
    getAdminAuth st = Ok adminAuth
    /\ auth_listUsers w adminAuth 1000 = Ok page
    /\ listed = ListUsers.Array_sort (ListUsers.by_creation_desc Date_getTime)
                  (map (ListUsers.to_user w) (users page)).
Proof.
  unfold eval. rewrite listUsersAction_run.
  destruct (getAdminAuth st) as [adminAuth|e].
  - destruct (auth_listUsers w adminAuth 1000) as [page|reason] eqn:Hpage.
    + cbn [fst]. intros [= <-]. cbn [ListUsers.users]. intros [= <-].
      exists adminAuth, page. repeat split. exact Hpage.
    + intros Hrun Husers.
      destruct (on_error_result _ _ _ Hrun) as (_ & Hnone & _). congruence.
  - cbn [fst]. intros [= <-]. discriminate.
Qed.

(** C8: the users of a successful call come newest first, every creation
    time being a date [Date] can read (the SDK writes them as UTC strings). *)
Theorem users_sorted_newest_first (st : State)
  (r : ListUsers.ListUsersResult) (listed : list ListUsers.User) :
  eval (ListUsers.listUsersAction Date_getTime w) st = Normal r ->
  ListUsers.success r = true ->
  ListUsers.users r = Some listed ->
  Forall (fun u => Date_getTime (ListUsers.creationTime u) <> None) listed ->
  StronglySorted (newer_or_same Date_getTime) listed.
Proof.
  intros Hrun _ Husers Hdates.
  destruct (successful_call st r listed Hrun Husers)
    as (adminAuth & page & _ & _ & ->).
  apply (Array_sort_sorted _ (created Date_getTime)).
  intros a b Ha Hb.
  rewrite Forall_forall in Hdates.
  pose proof (Hdates a (Permutation_in _ (Array_sort_perm _ _) Ha)) as Hda.
  pose proof (Hdates b (Permutation_in _ (Array_sort_perm _ _) Hb)) as Hdb.
  unfold ListUsers.by_creation_desc, created.
  destruct (Date_getTime (ListUsers.creationTime a)); [|congruence].
  destruct (Date_getTime (ListUsers.creationTime b)); [|congruence].
  reflexivity.
Qed.

(** C9: the action asks the provider once at most, for [maxResults = 1000];
    the provider keeping to that limit, a successful call returns at most
    1000 users. *)
Theorem at_most_1000_users (st : State) :
  (forall adminAuth page,
     getAdminAuth st = Ok adminAuth ->
     auth_listUsers w adminAuth 1000 = Ok page ->
     List.length (users page) <= 1000) ->
  trace (exec (ListUsers.listUsersAction Date_getTime w) st)
  = (trace st
     ++ match getAdminAuth st with
        | Ok adminAuth => [ListUsers adminAuth 1000]
        | Err _ => []
        end)%list
  /\ forall r listed,
       eval (ListUsers.listUsersAction Date_getTime w) st = Normal r ->
       ListUsers.users r = Some listed ->
       List.length listed <= 1000.
Proof.
  intros Hlimit. split.
  - unfold exec. rewrite listUsersAction_run.
    destruct (getAdminAuth st) as [adminAuth|e].
    + destruct (auth_listUsers w adminAuth 1000) as [page|reason];
        [reflexivity|].
      rewrite on_error_run.
      destruct (message_of reason) as [message|e]; [|reflexivity].
      destruct (optional_includes _ message _); reflexivity.
    + cbn [snd]. rewrite app_nil_r. reflexivity.
  - intros r listed Hrun Husers.
    destruct (successful_call st r listed Hrun Husers)
      as (adminAuth & page & Hauth & Hpage & ->).
    rewrite Array_sort_length, length_map.
    apply (Hlimit adminAuth page Hauth Hpage).
Qed.

(** The users of a successful call are the accounts of the provider's
    page, each mapped by [to_user]. *)
Lemma listed_accounts (st : State) (r : ListUsers.ListUsersResult)
  (listed : list ListUsers.User) :
  eval (ListUsers.listUsersAction Date_getTime w) st = Normal r ->
  ListUsers.users r = Some listed ->
  exists adminAuth page,
    getAdminAuth st = Ok adminAuth
    /\ auth_listUsers w adminAuth 1000 = Ok page
    /\ Permutation (map (ListUsers.to_user w) (users page)) listed.
Proof.
  intros Hrun Husers.
  destruct (successful_call st r listed Hrun Husers)
    as (adminAuth & page & Hauth & Hpage & ->).
  exists adminAuth, page. repeat split; try assumption.
  apply Array_sort_perm.
Qed.

(** C10: the users of a result are the accounts of the provider's page;
    for every account of the page, the user returned for it carries the
    empty array as [allowedSections] when the record's claim is missing or
    is not an array, and the claim itself when it is one; hence every user
    of a result carries an array. *)
Theorem allowedSections_always_array (st : State)
  (r : ListUsers.ListUsersResult) (listed : list ListUsers.User) :
  eval (ListUsers.listUsersAction Date_getTime w) st = Normal r ->
  ListUsers.users r = Some listed ->
  (forall u, In u listed -> Array_isArray (ListUsers.allowedSections u) = true)
  /\ exists adminAuth page,
       getAdminAuth st = Ok adminAuth
       /\ auth_listUsers w adminAuth 1000 = Ok page
       /\ Permutation (map (ListUsers.to_user w) (users page)) listed
       /\ forall userRecord,
            In userRecord (users page) ->
            In (ListUsers.to_user w userRecord) listed
            /\ (Array_isArray
                  (get_opt (customClaims userRecord) "allowedSections") = false ->
                ListUsers.allowedSections (ListUsers.to_user w userRecord)
                = Arr [])
            /\ (Array_isArray
                  (get_opt (customClaims userRecord) "allowedSections") = true ->
                ListUsers.allowedSections (ListUsers.to_user w userRecord)
                = get_opt (customClaims userRecord) "allowedSections").
Proof.
  intros Hrun Husers.
  destruct (listed_accounts st r listed Hrun Husers)
    as (adminAuth & page & Hauth & Hpage & Hperm).
  split.
  - intros u Hin.
    apply (Permutation_in _ (Permutation_sym Hperm)) in Hin.
    apply in_map_iff in Hin. destruct Hin as (userRecord & <- & _).
    cbn [ListUsers.to_user ListUsers.allowedSections].
    unfold ListUsers.allowedSections_of.
    destruct (Array_isArray
                (get_opt (customClaims userRecord) "allowedSections")) eqn:H;
      [exact H | reflexivity].
  - exists adminAuth, page. repeat split; try assumption.
    + apply (Permutation_in _ Hperm), in_map. assumption.
    + cbn [ListUsers.to_user ListUsers.allowedSections].
      unfold ListUsers.allowedSections_of. intros ->. reflexivity.
    + cbn [ListUsers.to_user ListUsers.allowedSections].
      unfold ListUsers.allowedSections_of. intros ->. reflexivity.
Qed.

End ActionProofs.

(** ** Closed examples on the reference runtime *)
Import Examples MoreExamples.

Lemma has_date_Forall (listed : list ListUsers.User) :
  forallb has_date listed = true ->
  Forall (fun u => Runtime.Date_getTime (ListUsers.creationTime u) <> None)
         listed.
Proof.
  intros H. apply Forall_forall. intros u Hu.
  rewrite forallb_forall in H. specialize (H u Hu). unfold has_date in H.
  destruct (Runtime.Date_getTime (ListUsers.creationTime u)); congruence.
Qed.

Lemma reference_provider_keeps_limit (directory : list UserRecord)
  (a : Auth) (n : Z) (page : ListUsersPage) :
  Reference.listUsers directory a n = Ok page ->
  List.length (users page) <= Z.to_nat n.
Proof.
  unfold Reference.listUsers.
  destruct ((n <=? 0)%Z || (1000 <? n)%Z); [discriminate|].
  intros [= <-]. cbn [users]. apply firstn_le_length.
Qed.

(** C1, as stated, fails: with text that is not JSON in the environment
    variable, the variable yields no credentials, the local file is there,
    and the bootstrap never looks for it. *)
Lemma env_garbage_file_not_tried :
  env_yields_credentials Runtime.JSON_parse w_env_garbage = false
  /\ fs_existsSync w_env_garbage (serviceAccountPath w_env_garbage) = true
  /\ file_tried
       (exec (module_load Runtime.JSON_parse w_env_garbage) (initial []))
     = false.
Proof. vm_compute. repeat split. Qed.

(** C4, as stated, fails twice.  [{}] in the environment variable fails the
    check, yet no failure is recorded and a handle is made (from the file);
    and a file that parses to an object containing the three fields, one of
    them empty, is not accepted. *)
Lemma shape_check_as_stated_fails :
  (process_env w_env_braces envVarKey = Some "{}"
   /\ valid_credentials Runtime.JSON_parse "{}" = false
   /\ initializationError
        (exec (module_load Runtime.JSON_parse w_env_braces) (initial []))
      = None
   /\ adminAuthInstance
        (exec (module_load Runtime.JSON_parse w_env_braces) (initial []))
      = Some Reference.the_auth)
  /\ (checked_blob w_file_empty_id = Some empty_project_id
      /\ Runtime.JSON_parse empty_project_id
         = Ok (Obj [("project_id", Str ""); ("private_key", Str "KEY");
                    ("client_email", Str "admin@reportzen.example")])
      /\ sdk_called
           (exec (module_load Runtime.JSON_parse w_file_empty_id) (initial []))
         = false
      /\ adminAuthInstance
           (exec (module_load Runtime.JSON_parse w_file_empty_id) (initial []))
         = None
      /\ initializationError
           (exec (module_load Runtime.JSON_parse w_file_empty_id) (initial []))
         <> None).
Proof. vm_compute. repeat split. discriminate. Qed.

(** A variable that holds a no-break space is blank, as [trim] has it: the
    local file is read, and the handle made from it. *)
Lemma nbsp_variable_reads_file :
  process_env w_env_nbsp envVarKey = Some nbsp
  /\ trim nbsp = ""
  /\ file_tried
       (exec (module_load Runtime.JSON_parse w_env_nbsp) (initial []))
     = true
  /\ adminAuthInstance
       (exec (module_load Runtime.JSON_parse w_env_nbsp) (initial []))
     = Some Reference.the_auth
  /\ initializedVia
       (exec (module_load Runtime.JSON_parse w_env_nbsp) (initial []))
     = Some "local file (reportzen-mixd3-firebase-adminsdk-fbsvc-f006f10e8d.json)".
Proof. vm_compute. repeat split. Qed.

(** After the bootstrap with good credentials in the environment, the getter
    returns the handle. *)
Lemma getAdminAuth_after_bootstrap_witness :
  bootstrapped Runtime.JSON_parse w_listing st_listing
  /\ exists instance,
       adminAuthInstance st_listing = Some instance
       /\ getAdminAuth st_listing = Ok instance.
Proof.
  assert (Hboot : bootstrapped Runtime.JSON_parse w_listing st_listing)
    by apply boot_load.
  split; [exact Hboot|].
  apply (proj2 (proj2 (getAdminAuth_after_bootstrap Runtime.JSON_parse
                         w_listing st_listing Hboot))).
  vm_compute. reflexivity.
Defined.

(** The blob checked there is the environment variable's, and it passes. *)
Lemma credential_shape_check_witness :
  checked_blob w_listing = Some Reference.good_key
  /\ sdk_called st_listing
     = valid_credentials Runtime.JSON_parse Reference.good_key.
Proof.
  assert (Hblob : checked_blob w_listing = Some Reference.good_key)
    by (vm_compute; reflexivity).
  split; [exact Hblob|].
  apply (credential_shape_check Runtime.JSON_parse w_listing []
           Reference.good_key Hblob).
Defined.

(** A second call on the bootstrapped module. *)
Lemma initializeFirebaseAdmin_idempotent_witness :
  isInitialized st_listing = true
  /\ exec (initializeFirebaseAdmin Runtime.JSON_parse w_listing) st_listing
     = st_listing.
Proof.
  assert (Hflag : isInitialized st_listing = true) by (vm_compute; reflexivity).
  split; [exact Hflag|].
  apply (initializeFirebaseAdmin_idempotent Runtime.JSON_parse w_listing
           st_listing Hflag).
Defined.

(** The bootstrapped module is a reachable state. *)
Lemma handle_and_failure_exclusive_witness :
  reachable Runtime.JSON_parse w_listing st_listing
  /\ ~ (adminAuthInstance st_listing <> None
        /\ initializationError st_listing <> None).
Proof.
  assert (Hreach : reachable Runtime.JSON_parse w_listing st_listing)
    by (apply reach_load, reach_initial).
  split; [exact Hreach|].
  apply (handle_and_failure_exclusive Runtime.JSON_parse w_listing
           st_listing Hreach).
Defined.

(** C7, at the failing input: [NEXT_PUBLIC_ADMIN_UID] is not set and the
    provider gives a record with the admin claim and two without; the users
    without the claim come back with [isAdmin] undefined, not [false]. *)
Theorem isAdmin_undefined_without_admin_uid :
  process_env w_listing "NEXT_PUBLIC_ADMIN_UID" = None
  /\ ListUsers.success result_listing = true
  /\ map (fun u => (ListUsers.uid u, ListUsers.isAdmin u))
         (users_of result_listing)
     = [("uid-bob", Bool true); ("uid-carol", Undefined);
        ("uid-alice", Undefined)].
Proof. vm_compute. repeat split. Qed.

(** Three accounts given oldest first come back newest first. *)
Lemma users_sorted_newest_first_witness :
  map ListUsers.uid (users_of result_listing)
  = ["uid-bob"; "uid-carol"; "uid-alice"]
  /\ StronglySorted (newer_or_same Runtime.Date_getTime)
                    (users_of result_listing).
Proof.
  split; [vm_compute; reflexivity|].
  apply (users_sorted_newest_first Runtime.Date_getTime w_listing st_listing
           result_listing (users_of result_listing)).
  - vm_compute. reflexivity.
  - vm_compute. reflexivity.
  - vm_compute. reflexivity.
  - apply has_date_Forall. vm_compute. reflexivity.
Defined.

(** With 1001 accounts at the provider, 1000 users come back. *)
Lemma at_most_1000_users_witness :
  1000 < List.length directory_large
  /\ List.length (users_of result_large) <= 1000.
Proof.
  split; [apply Nat.ltb_lt; vm_compute; reflexivity|].
  assert (Hlimit : forall adminAuth page,
             getAdminAuth st_large = Ok adminAuth ->
             auth_listUsers w_large adminAuth 1000 = Ok page ->
             List.length (users page) <= 1000).
  { intros adminAuth page _ Hpage.
    exact (reference_provider_keeps_limit directory_large adminAuth 1000
             page Hpage). }
  apply (proj2 (at_most_1000_users Runtime.Date_getTime w_large st_large
                  Hlimit) result_large (users_of result_large)).
  - vm_compute. reflexivity.
  - vm_compute. reflexivity.
Defined.

(** The account whose [allowedSections] claim is a string is listed, with
    the empty array. *)
Lemma allowedSections_always_array_witness :
  In (ListUsers.to_user w_listing carol) (users_of result_listing)
  /\ ListUsers.allowedSections (ListUsers.to_user w_listing carol) = Arr [].
Proof.
  destruct (allowedSections_always_array Runtime.Date_getTime w_listing
              st_listing result_listing (users_of result_listing)
              eq_refl eq_refl)
    as (_ & adminAuth & page & Hauth & Hpage & _ & Hrecords).
  assert (Hcarol : In carol (users page)).
  { vm_compute in Hauth. injection Hauth as <-.
    vm_compute in Hpage. injection Hpage as <-.
    right. right. left. reflexivity. }
  destruct (Hrecords carol Hcarol) as (Hin & Hempty & _).
  split; [exact Hin|]. apply Hempty. reflexivity.
Defined.

(** The provider rejecting with a quota error, the action returns it. *)
Lemma listUsersAction_captures_errors_witness :
  eval (ListUsers.listUsersAction Runtime.Date_getTime w_quota) st_quota
  = Normal (ListUsers.mkListUsersResult
              false
              "Erreur lors de la récupération des utilisateurs: Exceeded quota for listing users."
              None).
Proof.
  exact (proj1 (listUsersAction_captures_errors Runtime.Date_getTime w_quota
                  st_quota)).
Defined.

(** C3, as stated, fails: the provider rejecting with [null], the handler
    throws on reading [error.message] and the action rejects. *)
Lemma provider_rejects_with_null :
  getAdminAuth st_rejects_null = Ok Reference.the_auth
  /\ auth_listUsers w_rejects_null Reference.the_auth 1000
     = Err (JsValue Null)
  /\ eval (ListUsers.listUsersAction Runtime.Date_getTime w_rejects_null)
          st_rejects_null
     = Throw (cannot_read "null" "message").
Proof. vm_compute. repeat split. Qed.

(** * Beyond the claims: the paths of the bootstrap *)
Import Paths.

Section BootstrapPaths.
Variable JSON_parse : string -> Result Value.
Variable w : World.

Lemma log_nil (st : State) : log [] st = st.
Proof. destruct st. unfold log. cbn. rewrite app_nil_r. reflexivity. Qed.

(** The loading blocks in closed form: the body either enters the SDK block
    with what was found, or returns with the failure recorded. *)
Lemma body_loading (st : State) :
  isInitialized st = false ->
  initializeFirebaseAdmin_body JSON_parse w st =
  match loading JSON_parse w with
  | Found json source =>
      initialize_sdk JSON_parse w json (Some source)
        (log (file_events w) (set_isInitialized true st))
  | Failed e =>
      (Return,
       set_initializationError (Some e)
         (log (file_events w) (set_isInitialized true st)))
  end.
Proof.
  intros Hflag. unfold initializeFirebaseAdmin_body, loading, file_events.
  destruct st as [inst err flag via apps tr]. cbn in Hflag. subst flag.
  run. rewrite load_from_env_run.
  destruct (env_usable (process_env w envVarKey)) eqn:Huse.
  - destruct (process_env w envVarKey) as [v|] eqn:Henv; [|discriminate].
    destruct (valid_credentials JSON_parse v) eqn:Hv; run;
      rewrite app_nil_r; [|reflexivity].
    rewrite load_from_file_run.
    assert (Hjson : no_json (Some v) = false).
    { unfold env_usable in Huse. cbn.
      destruct (v =? ""); [discriminate | reflexivity]. }
    rewrite Hjson. run. unfold require_credentials. rewrite Hjson. run.
    reflexivity.
  - rewrite load_from_file_run. cbn [no_json].
    destruct (fs_existsSync w (serviceAccountPath w)).
    + destruct (fs_readFileSync w (serviceAccountPath w)) as [content|e].
      * destruct (trim content =? "") eqn:Hblank.
        -- run. unfold require_credentials. cbn [no_json]. run. reflexivity.
        -- destruct (valid_credentials JSON_parse content) eqn:Hv; run.
           ++ unfold require_credentials. rewrite (trim_empty _ Hblank). run.
              reflexivity.
           ++ reflexivity.
      * run. reflexivity.
    + run. unfold require_credentials. cbn [no_json]. run. reflexivity.
Qed.

(** The module-load call on the module as first evaluated, by how the body
    of [initializeFirebaseAdmin] completes. *)
Lemma module_load_initial (apps : list (option App)) :
  module_load JSON_parse w (initial apps) =
  match initializeFirebaseAdmin_body JSON_parse w (initial apps) with
  | (Throw e, st) =>
      (Normal tt,
       set_adminAuthInstance None
         (set_initializationError
            (Some match initializationError st with
                  | Some recorded => recorded
                  | None => e
                  end) st))
  | (_, st) => (Normal tt, st)
  end.
Proof.
  unfold module_load, initializeFirebaseAdmin. run.
  destruct (initializeFirebaseAdmin_body JSON_parse w (initial apps))
    as [[[]| |e] [inst err flag via apps' tr]]; try reflexivity.
  destruct err; reflexivity.
Qed.

(** The SDK block when [admin.apps] already holds an app. *)
Lemma initialize_sdk_hot (json : string) (src : option string) (st : State) :
  admin_apps st <> [] ->
  initialize_sdk JSON_parse w json src st =
  match admin_auth w (admin_apps st) with
  | Ok a =>
      (Return,
       set_initializationError None
         (set_initializedVia (Some (source_or_existing src))
            (set_adminAuthInstance (Some a) (log [AdminAuth] st))))
  | Err e => (Throw e, log [AdminAuth] st)
  end.
Proof.
  intros Happs. destruct st as [inst err flag via apps tr].
  unfold initialize_sdk. run.
  destruct apps as [|app rest]; [contradiction|]. cbn [List.length Nat.ltb Nat.leb].
  destruct (admin_auth w (app :: rest)); reflexivity.
Qed.

(** The SDK block when [admin.apps] is empty and [initializeApp] throws. *)
Lemma initialize_sdk_cold_failure (json : string) (src : option string)
  (st : State) (sa : Value) (e : Error) :
  admin_apps st = [] ->
  JSON_parse json = Ok sa ->
  admin_initializeApp w sa [] = Err e ->
  initialize_sdk JSON_parse w json src st =
  (Normal tt,
   set_adminAuthInstance None
     (set_initializationError
        (Some (if is_duplicate_app e then duplicate_without_app e
               else initializeApp_failure (source_or_unknown src) e))
        (log [InitializeApp sa] st))).
Proof.
  intros Happs Hparse Hinit. destruct st as [inst err flag via apps tr].
  cbn in Happs. subst apps.
  unfold initialize_sdk, is_duplicate_app, duplicate_without_app,
    initializeApp_failure.
  run. cbn [List.length Nat.ltb Nat.leb]. rewrite Hparse, Hinit.
  destruct (code e) as [c|]; [|reflexivity].
  destruct (c =? "app/duplicate-app"); reflexivity.
Qed.

(** The SDK block when [admin.apps] is empty and the SDK does its part. *)
Lemma initialize_sdk_cold_success (json : string) (src : option string)
  (st : State) (sa : Value) (apps' : list (option App)) (a : Auth) :
  admin_apps st = [] ->
  JSON_parse json = Ok sa ->
  admin_initializeApp w sa [] = Ok apps' ->
  admin_auth w apps' = Ok a ->
  initialize_sdk JSON_parse w json src st =
  (Normal tt,
   set_initializationError None
     (set_initializedVia src
        (set_adminAuthInstance (Some a)
           (log [AdminAuth]
              (set_admin_apps apps' (log [InitializeApp sa] st)))))).
Proof.
  intros Happs Hparse Hinit Hauth. destruct st as [inst err flag via apps tr].
  cbn in Happs. subst apps.
  unfold initialize_sdk. run. cbn [List.length Nat.ltb Nat.leb].
  rewrite Hparse, Hinit, Hauth. reflexivity.
Qed.

(** What the SDK block does to the handle, its source, [admin.apps] and the
    trace, whatever the SDK answers. *)
Lemma initialize_sdk_effects (json : string) (src : string) (st : State) :
  adminAuthInstance st = None ->
  initializedVia st = None ->
  (src =? "") = false ->
  (adminAuthInstance (exec (initialize_sdk JSON_parse w json (Some src)) st)
   <> None
   <-> initializedVia (exec (initialize_sdk JSON_parse w json (Some src)) st)
       = Some src)
  /\ (initializedVia (exec (initialize_sdk JSON_parse w json (Some src)) st)
      = None
      \/ initializedVia (exec (initialize_sdk JSON_parse w json (Some src)) st)
         = Some src)
  /\ (admin_apps (exec (initialize_sdk JSON_parse w json (Some src)) st)
      = admin_apps st
      \/ exists sa,
           JSON_parse json = Ok sa
           /\ admin_initializeApp w sa (admin_apps st)
              = Ok (admin_apps
                      (exec (initialize_sdk JSON_parse w json (Some src)) st)))
  /\ (forall sa,
        In (InitializeApp sa)
           (trace (exec (initialize_sdk JSON_parse w json (Some src)) st)) ->
        In (InitializeApp sa) (trace st) \/ JSON_parse json = Ok sa)
  /\ (forall a,
        adminAuthInstance (exec (initialize_sdk JSON_parse w json (Some src)) st)
        = Some a ->
        admin_auth w
          (admin_apps (exec (initialize_sdk JSON_parse w json (Some src)) st))
        = Ok a
        \/ exists app rest,
             admin_apps (exec (initialize_sdk JSON_parse w json (Some src)) st)
             = Some app :: rest
             /\ app_auth app = Ok a).
Proof.
  intros Hnone Hvia Hsrc.
  destruct st as [inst err flag via apps tr]. cbn in Hnone, Hvia. subst.
  unfold initialize_sdk, source_or_existing. rewrite Hsrc. run.
  repeat (branch; run);
    (split; [split; congruence|]);
    (split; [auto|]);
    (split; [first [left; reflexivity | right; eexists; split; [reflexivity|]; eassumption]|]);
    (split;
      [intros sa' Hin; repeat rewrite in_app_iff in Hin; cbn [In] in Hin;
       intuition (try discriminate; try congruence)|]);
    intros a' Ha; try discriminate; injection Ha as <-;
    first [left; assumption | right; do 2 eexists; split; [reflexivity|]; assumption].
Qed.

Lemma loading_found (blob : string) :
  checked_blob w = Some blob ->
  valid_credentials JSON_parse blob = true ->
  loading JSON_parse w = Found blob (credential_source w).
Proof.
  unfold checked_blob, file_blob, loading, credential_source.
  destruct (env_usable (process_env w envVarKey)).
  - intros -> ->. reflexivity.
  - destruct (fs_existsSync w (serviceAccountPath w)); [|discriminate].
    destruct (fs_readFileSync w (serviceAccountPath w)) as [content|e];
      [|discriminate].
    destruct (trim content =? ""); [discriminate|].
    intros [= ->] ->. reflexivity.
Qed.

Lemma loading_found_inv (json source : string) :
  loading JSON_parse w = Found json source ->
  checked_blob w = Some json
  /\ valid_credentials JSON_parse json = true
  /\ source = credential_source w.
Proof.
  unfold checked_blob, file_blob, loading, credential_source.
  destruct (env_usable (process_env w envVarKey)).
  - destruct (process_env w envVarKey) as [v|]; [|discriminate].
    destruct (valid_credentials JSON_parse v) eqn:Hv; [|discriminate].
    intros [= <- <-]. auto.
  - destruct (fs_existsSync w (serviceAccountPath w)); [|discriminate].
    destruct (fs_readFileSync w (serviceAccountPath w)) as [content|e];
      [|discriminate].
    destruct (trim content =? ""); [discriminate|].
    destruct (valid_credentials JSON_parse content) eqn:Hv; [|discriminate].
    intros [= <- <-]. auto.
Qed.

Lemma credential_source_not_empty : (credential_source w =? "") = false.
Proof.
  unfold credential_source.
  destruct (env_usable (process_env w envVarKey)); reflexivity.
Qed.

(** When the loading fails, the failure is recorded and nothing else of the
    module or of the SDK changes. *)
Lemma module_load_failed (apps : list (option App)) (e : Error) :
  loading JSON_parse w = Failed e ->
  exec (module_load JSON_parse w) (initial apps)
  = mkState None (Some e) true None apps (file_events w).
Proof.
  intros Hload. unfold exec. rewrite module_load_initial.
  rewrite body_loading by reflexivity. rewrite Hload. reflexivity.
Qed.

(** The failure of line 101 is none of the failures of lines 53, 89 and
    91. *)
Lemma no_credentials_unlike_others (e : Error) (blob : string) :
  env_failure JSON_parse blob <> no_credentials w
  /\ file_failure e <> no_credentials w.
Proof.
  unfold env_failure, file_failure, no_credentials, new_Error.
  split; [|destruct (instanceof_SyntaxError e)];
    intros H; injection H as H; cbn [append] in H; discriminate.
Qed.

(** X1: "No valid service account credentials found" (line 101) is what
    the bootstrap records without calling the SDK exactly when the
    environment variable is unset, blank or [{}] and the local file is
    missing or blank: none of the other failures reads like it.  No handle
    is kept then and [admin.apps] is as it was, apps already registered or
    not. *)
Theorem no_credentials_found (apps : list (option App)) :
  let st := exec (module_load JSON_parse w) (initial apps) in
  ((initializationError st
    = Some (new_Error
              ("CRITICAL - No valid service account credentials found. Cannot initialize. Checked environment variable 'FIREBASE_SERVICE_ACCOUNT_KEY' and local file at '"
               ++ path_resolve w
                    "./reportzen-mixd3-firebase-adminsdk-fbsvc-f006f10e8d.json"
               ++ "'."))
    /\ sdk_called st = false)
   <-> (env_usable (process_env w envVarKey) = false
        /\ (fs_existsSync w (serviceAccountPath w) = false
            \/ exists content,
                 fs_readFileSync w (serviceAccountPath w) = Ok content
                 /\ trim content = "")))
  /\ (initializationError st <> None /\ sdk_called st = false ->
      adminAuthInstance st = None
      /\ initializedVia st = None
      /\ admin_apps st = apps).
Proof.
  intros st.
  change (new_Error _) with (no_credentials w).
  assert (Hcalled : forall json source,
            loading JSON_parse w = Found json source -> sdk_called st = true).
  { intros json source Hload.
    destruct (loading_found_inv json source Hload) as (Hblob & Hvalid & _).
    destruct (module_load_fresh JSON_parse w (initial apps)
                (initial_fresh apps))
      as (evs & Ht & _ & _ & _ & Hsdk & _).
    subst st. unfold sdk_called. rewrite Ht. cbn [initial trace app].
    rewrite Hsdk, Hblob. exact Hvalid. }
  assert (Hquiet : forall e,
            loading JSON_parse w = Failed e ->
            st = mkState None (Some e) true None apps (file_events w)
            /\ sdk_called st = false).
  { intros e Hload. subst st. rewrite (module_load_failed apps e Hload).
    split; [reflexivity|].
    unfold sdk_called, file_events. cbn [trace].
    destruct (env_usable (process_env w envVarKey)); [reflexivity|].
    destruct (fs_existsSync w (serviceAccountPath w)); reflexivity. }
  split; [split|].
  - intros [Herr Hsdk].
    destruct (loading JSON_parse w) as [json source|e] eqn:Hload;
      [rewrite (Hcalled json source eq_refl) in Hsdk; discriminate|].
    destruct (Hquiet e eq_refl) as [Hst _]. rewrite Hst in Herr.
    cbn [initializationError] in Herr.
    assert (He : e = no_credentials w) by congruence.
    clear Herr Hst Hquiet Hcalled. unfold loading in Hload.
    destruct (env_usable (process_env w envVarKey)) eqn:Huse.
    + exfalso. unfold env_usable in Huse.
      destruct (process_env w envVarKey) as [v|]; [|discriminate].
      destruct (valid_credentials JSON_parse v); [discriminate|].
      injection Hload as Hload. rewrite He in Hload.
      exact (proj1 (no_credentials_unlike_others e v) Hload).
    + split; [reflexivity|].
      destruct (fs_existsSync w (serviceAccountPath w)); [|left; reflexivity].
      right.
      destruct (fs_readFileSync w (serviceAccountPath w)) as [content|e'].
      * exists content. split; [reflexivity|].
        destruct (String.eqb_spec (trim content) ""); [assumption|].
        exfalso.
        destruct (valid_credentials JSON_parse content); [discriminate|].
        injection Hload as Hload. rewrite He in Hload.
        exact (proj2 (no_credentials_unlike_others _ content) Hload).
      * exfalso. injection Hload as Hload. rewrite He in Hload.
        exact (proj2 (no_credentials_unlike_others e' "") Hload).
  - intros [Huse Hfile].
    assert (Hload : loading JSON_parse w = Failed (no_credentials w)).
    { unfold loading. rewrite Huse.
      destruct (fs_existsSync w (serviceAccountPath w)); [|reflexivity].
      destruct Hfile as [Hno | (content & -> & ->)]; [discriminate|].
      reflexivity. }
    destruct (Hquiet _ Hload) as [Hst Hsdk].
    split; [|exact Hsdk]. rewrite Hst. reflexivity.
  - intros [Herr Hsdk].
    destruct (loading JSON_parse w) as [json source|e] eqn:Hload;
      [rewrite (Hcalled json source eq_refl) in Hsdk; discriminate|].
    destruct (Hquiet e eq_refl) as [Hst _]. rewrite Hst. repeat split.
Qed.

(** X2: a local file that is well-formed JSON but fails the shape check is
    recorded as an error reading the file, not as a failure to parse: the
    handler of lines 87-92 tells the two apart by [instanceof SyntaxError],
    and the check throws a plain [Error]. *)
Theorem file_shape_failure_is_read_error (apps : list (option App))
  (content : string) (parsed : Value) :
  env_usable (process_env w envVarKey) = false ->
  fs_existsSync w (serviceAccountPath w) = true ->
  fs_readFileSync w (serviceAccountPath w) = Ok content ->
  trim content <> "" ->
  JSON_parse content = Ok parsed ->
  invalid_shape parsed = true ->
  let st := exec (module_load JSON_parse w) (initial apps) in
  initializationError st
  = Some (new_Error
            "CRITICAL - Error reading local reportzen-mixd3-firebase-adminsdk-fbsvc-f006f10e8d.json: Parsed JSON object is invalid or missing required fields (project_id, private_key, client_email).")
  /\ adminAuthInstance st = None
  /\ sdk_called st = false.
Proof.
  intros Huse Hexists Hread Hblank Hparse Hshape st. subst st.
  assert (Hload : loading JSON_parse w
                  = Failed (file_failure (rejection JSON_parse content))).
  { unfold loading, valid_credentials.
    rewrite Huse, Hexists, Hread, Hparse, Hshape.
    destruct (String.eqb_spec (trim content) ""); [contradiction|].
    reflexivity. }
  rewrite (module_load_failed apps _ Hload).
  unfold sdk_called, file_events, rejection. rewrite Huse, Hexists, Hparse.
  repeat split.
Qed.

(** The state in which the SDK block is entered from the module as first
    evaluated. *)
Lemma module_load_found (apps : list (option App)) (blob : string) :
  checked_blob w = Some blob ->
  valid_credentials JSON_parse blob = true ->
  module_load JSON_parse w (initial apps) =
  match initialize_sdk JSON_parse w blob (Some (credential_source w))
          (mkState None None true None apps (file_events w)) with
  | (Throw e, st) =>
      (Normal tt,
       set_adminAuthInstance None
         (set_initializationError
            (Some match initializationError st with
                  | Some recorded => recorded
                  | None => e
                  end) st))
  | (_, st) => (Normal tt, st)
  end.
Proof.
  intros Hblob Hvalid. rewrite module_load_initial.
  rewrite body_loading by reflexivity.
  rewrite (loading_found blob Hblob Hvalid). reflexivity.
Qed.

(** X3: when [admin.apps] already holds an app (hot reload) and the
    credentials pass the check, [initializeApp] is not called and
    [admin.apps] is left alone; the handle is what [admin.auth()] gives,
    with the source of the credentials noted, and if [admin.auth()] throws,
    the module-load call records that very error. *)
Theorem hot_reload_reuses_app (apps : list (option App)) (blob : string) :
  apps <> [] ->
  checked_blob w = Some blob ->
  valid_credentials JSON_parse blob = true ->
  let st := exec (module_load JSON_parse w) (initial apps) in
  initializeApp_calls st = 0
  /\ admin_apps st = apps
  /\ match admin_auth w apps with
     | Ok a =>
         adminAuthInstance st = Some a
         /\ initializationError st = None
         /\ initializedVia st = Some (credential_source w)
     | Err e =>
         adminAuthInstance st = None
         /\ initializationError st = Some e
         /\ initializedVia st = None
     end.
Proof.
  intros Happs Hblob Hvalid st. subst st. unfold exec.
  rewrite (module_load_found apps blob Hblob Hvalid).
  rewrite initialize_sdk_hot by exact Happs.
  cbn [admin_apps]. unfold initializeApp_calls, source_or_existing.
  rewrite credential_source_not_empty.
  assert (Hfiles : filter is_initializeApp (file_events w) = []).
  { unfold file_events.
    destruct (env_usable (process_env w envVarKey)); [reflexivity|].
    destruct (fs_existsSync w (serviceAccountPath w)); reflexivity. }
  destruct (admin_auth w apps) as [a|e]; run;
    rewrite filter_app, Hfiles; repeat split.
Qed.

(** X4: when [admin.apps] is empty and [initializeApp] throws, no handle is
    made and the failure recorded quotes the SDK's message: as an error
    during [admin.initializeApp()] via the credentials' source, or, for the
    code [app/duplicate-app], as a duplicate app without an existing app
    (the call that failed registered none, so the recovery of line 134 has
    nothing to recover). *)
Theorem initializeApp_failure_recorded (blob : string) (sa : Value)
  (e : Error) :
  checked_blob w = Some blob ->
  valid_credentials JSON_parse blob = true ->
  JSON_parse blob = Ok sa ->
  admin_initializeApp w sa [] = Err e ->
  let st := exec (module_load JSON_parse w) (initial []) in
  initializationError st
  = Some (new_Error
            (if is_duplicate_app e then
               "CRITICAL - Caught 'app/duplicate-app' error but no existing app found. Initialization failed. Error: "
               ++ message e
             else
               "CRITICAL - Error during admin.initializeApp() via "
               ++ credential_source w ++ ". Error: " ++ message e))
  /\ adminAuthInstance st = None
  /\ initializedVia st = None
  /\ admin_apps st = [].
Proof.
  intros Hblob Hvalid Hparse Hinit st. subst st. unfold exec.
  rewrite (module_load_found [] blob Hblob Hvalid).
  rewrite (initialize_sdk_cold_failure blob _
             (mkState None None true None [] (file_events w)) sa e
             eq_refl Hparse Hinit).
  unfold source_or_unknown. rewrite credential_source_not_empty.
  unfold duplicate_without_app, initializeApp_failure.
  destruct (is_duplicate_app e); repeat split.
Qed.

(** X5: with credentials that pass the check, no app registered yet and an
    SDK that does its part, the bootstrap calls [initializeApp] with the
    parsed credentials, then [admin.auth()], after the file-system calls
    and nothing else; [getAdminAuth] then returns that handle. *)
Theorem first_initialization (blob : string) (sa : Value)
  (apps' : list (option App)) (a : Auth) :
  checked_blob w = Some blob ->
  valid_credentials JSON_parse blob = true ->
  JSON_parse blob = Ok sa ->
  admin_initializeApp w sa [] = Ok apps' ->
  admin_auth w apps' = Ok a ->
  let st := exec (module_load JSON_parse w) (initial []) in
  getAdminAuth st = Ok a
  /\ initializedVia st = Some (credential_source w)
  /\ admin_apps st = apps'
  /\ trace st = (file_events w ++ [InitializeApp sa; AdminAuth])%list.
Proof.
  intros Hblob Hvalid Hparse Hinit Hauth st. subst st. unfold exec.
  rewrite (module_load_found [] blob Hblob Hvalid).
  rewrite (initialize_sdk_cold_success blob _
             (mkState None None true None [] (file_events w)) sa apps' a
             eq_refl Hparse Hinit Hauth).
  run. rewrite <- app_assoc. repeat split.
Qed.

(** What the module-load call leaves, by what the SDK block did. *)
Lemma module_load_effects (apps : list (option App)) :
  let st := exec (module_load JSON_parse w) (initial apps) in
  (adminAuthInstance st <> None
   <-> initializedVia st = Some (credential_source w))
  /\ (initializedVia st = None
      \/ initializedVia st = Some (credential_source w))
  /\ (admin_apps st = apps
      \/ exists blob sa,
           checked_blob w = Some blob
           /\ JSON_parse blob = Ok sa
           /\ admin_initializeApp w sa apps = Ok (admin_apps st))
  /\ (forall sa,
        In (InitializeApp sa) (trace st) ->
        exists blob,
          checked_blob w = Some blob
          /\ valid_credentials JSON_parse blob = true
          /\ JSON_parse blob = Ok sa)
  /\ (forall a,
        adminAuthInstance st = Some a ->
        admin_auth w (admin_apps st) = Ok a
        \/ exists app rest,
             admin_apps st = Some app :: rest /\ app_auth app = Ok a).
Proof.
  intros st. subst st. unfold exec.
  assert (Hfiles : forall sa, ~ In (InitializeApp sa) (file_events w)).
  { intros sa. unfold file_events.
    destruct (env_usable (process_env w envVarKey)); [intros []|].
    destruct (fs_existsSync w (serviceAccountPath w)); cbn;
      intuition discriminate. }
  destruct (loading JSON_parse w) as [json source|e] eqn:Hload.
  - destruct (loading_found_inv json source Hload) as (Hblob & Hvalid & ->).
    rewrite (module_load_found apps json Hblob Hvalid).
    pose proof (initialize_sdk_effects json (credential_source w)
                  (mkState None None true None apps (file_events w))
                  eq_refl eq_refl credential_source_not_empty)
      as (Hiff & Hvia & Happs & Hevents & Hfrom).
    destruct (initialize_sdk_spec JSON_parse w json
                (Some (credential_source w))
                (mkState None None true None apps (file_events w))
                Hvalid eq_refl) as (evs & _ & _ & _ & _ & _ & Hthrow).
    unfold exec, eval in *.
    destruct (initialize_sdk JSON_parse w json (Some (credential_source w))
                (mkState None None true None apps (file_events w)))
      as [c st']. cbn [fst snd admin_apps trace] in *.
    assert (Hsent : forall sa, In (InitializeApp sa) (trace st') ->
              exists blob, checked_blob w = Some blob
                /\ valid_credentials JSON_parse blob = true
                /\ JSON_parse blob = Ok sa).
    { intros sa Hin. destruct (Hevents sa Hin) as [Hin' | Hparse].
      - destruct (Hfiles sa Hin').
      - exists json. auto. }
    assert (Hreg : admin_apps st' = apps
              \/ exists blob sa, checked_blob w = Some blob
                   /\ JSON_parse blob = Ok sa
                   /\ admin_initializeApp w sa apps = Ok (admin_apps st')).
    { destruct Happs as [Hsame | (sa & Hparse & Hinit)];
        [left; exact Hsame | right; exists json, sa; auto]. }
    destruct c as [[]| |e]; cbn [snd];
      try exact (conj Hiff (conj Hvia (conj Hreg (conj Hsent Hfrom)))).
    cbn in Hthrow. destruct Hthrow as [Hinst Herr].
    destruct st' as [inst err flag via apps' tr]. cbn in *. subst.
    repeat split; try assumption; try congruence.
    intros Hv. apply Hiff in Hv. congruence.
  - rewrite module_load_initial, body_loading by reflexivity.
    rewrite Hload. cbn.
    repeat split; try congruence; auto.
    intros sa Hin. destruct (Hfiles sa Hin).
Qed.

(** X6: after the bootstrap [initializedVia] is set exactly when there is a
    handle, and it then names the source of the credentials that were
    checked: the environment variable or the local file. *)
Theorem initializedVia_names_source (apps : list (option App)) :
  let st := exec (module_load JSON_parse w) (initial apps) in
  (adminAuthInstance st <> None <-> initializedVia st <> None)
  /\ forall via,
       initializedVia st = Some via ->
       via = (if env_usable (process_env w envVarKey)
              then "environment variable"
              else "local file (reportzen-mixd3-firebase-adminsdk-fbsvc-f006f10e8d.json)").
Proof.
  intros st. subst st.
  destruct (module_load_effects apps) as (Hiff & Hvia & _).
  split.
  - split.
    + intros H. apply Hiff in H. congruence.
    + intros H. apply Hiff. destruct Hvia as [Hv|Hv]; congruence.
  - intros via Hsome. destruct Hvia as [Hv|Hv]; [congruence|].
    rewrite Hv in Hsome. injection Hsome as <-. reflexivity.
Qed.

(** X7: the SDK is only ever initialised with the parsed form of the blob
    that passed the check, and [admin.apps] changes only through such a
    call that succeeded. *)
Theorem sdk_gets_checked_credentials (apps : list (option App)) :
  let st := exec (module_load JSON_parse w) (initial apps) in
  (forall sa,
     In (InitializeApp sa) (trace st) ->
     exists blob,
       checked_blob w = Some blob
       /\ valid_credentials JSON_parse blob = true
       /\ JSON_parse blob = Ok sa)
  /\ (admin_apps st = apps
      \/ exists blob sa,
           checked_blob w = Some blob
           /\ JSON_parse blob = Ok sa
           /\ admin_initializeApp w sa apps = Ok (admin_apps st)).
Proof.
  intros st. subst st.
  destruct (module_load_effects apps) as (_ & _ & Happs & Hsent & _).
  split; assumption.
Qed.

(** X8: the handle [getAdminAuth] returns after the bootstrap is one the SDK
    gave: the result of [admin.auth()] on the registered apps, or of
    [auth()] on the first of them. *)
Theorem handle_comes_from_sdk (apps : list (option App)) (a : Auth) :
  getAdminAuth (exec (module_load JSON_parse w) (initial apps)) = Ok a ->
  let st := exec (module_load JSON_parse w) (initial apps) in
  admin_auth w (admin_apps st) = Ok a
  \/ exists app rest,
       admin_apps st = Some app :: rest /\ app_auth app = Ok a.
Proof.
  intros Hget st. subst st.
  destruct (module_load_effects apps) as (_ & _ & _ & _ & Hfrom).
  apply Hfrom. unfold getAdminAuth in Hget.
  destruct (initializationError _); [discriminate|].
  destruct (adminAuthInstance _) as [a'|]; [|discriminate].
  injection Hget as ->. reflexivity.
Qed.

End BootstrapPaths.

(** * Beyond the claims: the list the action returns *)
Section StableSort.
Context {A : Type}.
Variable compareFn : A -> A -> option Z.
Variable key : A -> Z.

Lemma sort_insert_filter (t : Z) (x : A) (l : list A) :
  by_key_desc compareFn key (x :: l) ->
  filter (fun a => (key a =? t)%Z) (ListUsers.sort_insert compareFn x l)
  = filter (fun a => (key a =? t)%Z) (x :: l).
Proof.
  intros Hcmp. induction l as [|y rest IH]; [reflexivity|].
  cbn [ListUsers.sort_insert]. unfold ListUsers.sorts_before.
  rewrite (Hcmp y x) by (cbn; auto).
  destruct (Z.ltb_spec (key x - key y) 0) as [Hlt | Hge]; [|reflexivity].
  cbn [filter]. rewrite IH.
  - cbn [filter].
    destruct (Z.eqb_spec (key x) t), (Z.eqb_spec (key y) t);
      try reflexivity; lia.
  - intros a b Ha Hb. apply Hcmp; cbn in *; intuition.
Qed.

Lemma Array_sort_filter (t : Z) (l : list A) :
  by_key_desc compareFn key l ->
  filter (fun a => (key a =? t)%Z) (ListUsers.Array_sort compareFn l)
  = filter (fun a => (key a =? t)%Z) l.
Proof.
  induction l as [|x rest IH]; intros Hcmp; [reflexivity|].
  cbn [ListUsers.Array_sort]. rewrite sort_insert_filter.
  - cbn [filter]. rewrite IH; [reflexivity|].
    intros a b Ha Hb. apply Hcmp; right; assumption.
  - intros a b Ha Hb. apply Hcmp.
    + destruct Ha as [<- | Ha]; [left; reflexivity | right].
      apply (Permutation_in _ (Permutation_sym (Array_sort_perm compareFn rest))), Ha.
    + destruct Hb as [<- | Hb]; [left; reflexivity | right].
      apply (Permutation_in _ (Permutation_sym (Array_sort_perm compareFn rest))), Hb.
Qed.

End StableSort.

Lemma append_associative (a b c : string) : (a ++ b) ++ c = a ++ (b ++ c).
Proof. induction a as [|x a IH]; cbn; [|rewrite IH]; reflexivity. Qed.

Lemma includes_prefix (p s : string) : includes p (p ++ s) = true.
Proof.
  assert (Hprefix : prefix p (p ++ s) = true).
  { induction p as [|c p IH]; cbn; [destruct s; reflexivity|].
    destruct (ascii_dec c c); [exact IH | contradiction]. }
  destruct (p ++ s); cbn [includes]; rewrite Hprefix; reflexivity.
Qed.

Section ListingMore.
Variable Date_getTime : string -> option Z.
Variable w : World.

(** X9: a call that goes through returns every account the provider gave
    for it, each once, with the count of them in the message. *)
Theorem every_account_listed_once (st : State) (adminAuth : Auth)
  (page : ListUsersPage) :
  getAdminAuth st = Ok adminAuth ->
  auth_listUsers w adminAuth 1000 = Ok page ->
  exists listed,
    eval (ListUsers.listUsersAction Date_getTime w) st
    = Normal (ListUsers.mkListUsersResult
                true
                ("Successfully fetched "
                 ++ nat_to_string (List.length (users page)) ++ " users.")
                (Some listed))
    /\ Permutation (map (ListUsers.to_user w) (users page)) listed
    /\ Permutation (map uid (users page)) (map ListUsers.uid listed).
Proof.
  intros Hauth Hpage. unfold eval. rewrite listUsersAction_run.
  rewrite Hauth, Hpage. cbn [fst].
  eexists. split; [|split].
  - rewrite Array_sort_length, length_map. reflexivity.
  - apply Array_sort_perm.
  - apply perm_trans
      with (map ListUsers.uid (map (ListUsers.to_user w) (users page))).
    + rewrite map_map. apply Permutation_refl.
    + apply Permutation_map, Array_sort_perm.
Qed.

(** X10: accounts created at the same instant keep the order the provider
    gave them in (the sort is stable), every creation time being a date. *)
Theorem same_instant_keeps_provider_order (st : State) (adminAuth : Auth)
  (page : ListUsersPage) (r : ListUsers.ListUsersResult)
  (listed : list ListUsers.User) (t : Z) :
  getAdminAuth st = Ok adminAuth ->
  auth_listUsers w adminAuth 1000 = Ok page ->
  Forall (fun record =>
            Date_getTime (creationTime (metadata record)) <> None)
         (users page) ->
  eval (ListUsers.listUsersAction Date_getTime w) st = Normal r ->
  ListUsers.users r = Some listed ->
  filter (fun u => (created Date_getTime u =? t)%Z) listed
  = filter (fun u => (created Date_getTime u =? t)%Z)
           (map (ListUsers.to_user w) (users page)).
Proof.
  intros Hauth Hpage Hdates. unfold eval. rewrite listUsersAction_run.
  rewrite Hauth, Hpage. cbn [fst]. intros [= <-] [= <-].
  apply Array_sort_filter.
  intros a b Ha Hb.
  apply in_map_iff in Ha. destruct Ha as (ra & <- & Hra).
  apply in_map_iff in Hb. destruct Hb as (rb & <- & Hrb).
  rewrite Forall_forall in Hdates.
  pose proof (Hdates ra Hra) as Hda. pose proof (Hdates rb Hrb) as Hdb.
  unfold ListUsers.by_creation_desc, created.
  cbn [ListUsers.to_user ListUsers.creationTime].
  destruct (Date_getTime (creationTime (metadata ra))); [|congruence].
  destruct (Date_getTime (creationTime (metadata rb))); [|congruence].
  reflexivity.
Qed.

(** X11: when [NEXT_PUBLIC_ADMIN_UID] is set and not empty, the users of a
    result are the accounts of the provider's page, and for every account
    of the page the user returned carries a boolean as [isAdmin]: [true]
    for a record with a truthy admin claim and for the record with that
    uid, [false] for the others. *)
Theorem isAdmin_boolean_with_admin_uid (st : State)
  (r : ListUsers.ListUsersResult) (listed : list ListUsers.User)
  (id : string) :
  process_env w "NEXT_PUBLIC_ADMIN_UID" = Some id ->
  id <> "" ->
  eval (ListUsers.listUsersAction Date_getTime w) st = Normal r ->
  ListUsers.users r = Some listed ->
  exists adminAuth page,
    getAdminAuth st = Ok adminAuth
    /\ auth_listUsers w adminAuth 1000 = Ok page
    /\ Permutation (map (ListUsers.to_user w) (users page)) listed
    /\ forall userRecord,
         In userRecord (users page) ->
         In (ListUsers.to_user w userRecord) listed
         /\ ListUsers.isAdmin (ListUsers.to_user w userRecord)
            = Bool (truthy (get_opt (customClaims userRecord) "admin")
                    || (uid userRecord =? id)).
Proof.
  intros Henv Hid Hrun Husers.
  destruct (listed_accounts Date_getTime w st r listed Hrun Husers)
    as (adminAuth & page & Hauth & Hpage & Hperm).
  exists adminAuth, page. repeat split; try assumption.
  - apply (Permutation_in _ Hperm), in_map. assumption.
  - cbn [ListUsers.to_user ListUsers.isAdmin].
    unfold ListUsers.isAdmin_of, or_, and_, notnot. rewrite Henv.
    cbn [of_option truthy ListUsers.strict_eq_string].
    destruct (String.eqb_spec id ""); [contradiction|]. cbn [negb].
    destruct (truthy (get_opt (customClaims userRecord) "admin"));
      reflexivity.
Qed.

(** X12: when the bootstrap recorded a failure, the action does not call the
    provider and returns the critical message, which quotes the getter's
    message and through it the recorded one. *)
Theorem initialization_failure_is_critical (st : State) (err : Error) :
  initializationError st = Some err ->
  ListUsers.listUsersAction Date_getTime w st
  = (Normal
       (ListUsers.mkListUsersResult
          false
          ("Erreur critique: Impossible d'initialiser Firebase Admin SDK. Vérifiez les logs du serveur. (Firebase Admin SDK access failed: "
           ++ message err
           ++ ". Check server startup logs for details. Common causes are missing, empty, or invalid service account credentials (env var 'FIREBASE_SERVICE_ACCOUNT_KEY' or local file 'reportzen-mixd3-firebase-adminsdk-fbsvc-f006f10e8d.json'). Please verify your setup according to the README.md.)")
          None),
     st).
Proof.
  intros Herr. rewrite listUsersAction_run. unfold getAdminAuth.
  rewrite Herr. unfold ListUsers.error_message, ListUsers.critical_marker.
  cbn [message new_Error]. unfold access_failed_message.
  change ("Firebase Admin SDK access failed: " ++ ?m)
    with ("Firebase Admin SDK access failed" ++ (": " ++ m)).
  rewrite includes_prefix. rewrite !append_associative. reflexivity.
Qed.

End ListingMore.

(** * Beyond the claims: the admin page *)
(** Unfolds the page's setters along with the statement monad. *)
Ltac run_page :=
  cbv beta iota zeta delta
    [bind ret return_ throw try_catch gets modify lift fst snd exec eval
     AdminPage.try_finally AdminPage.setUsers AdminPage.setListLoading
     AdminPage.setListError AdminPage.setIsPermissionsDialogOpen
     AdminPage.setUserToEditPermissions AdminPage.toast AdminPage.call_out
     AdminPage.users AdminPage.listLoading AdminPage.listError
     AdminPage.isPermissionsDialogOpen AdminPage.userToEditPermissions
     AdminPage.toasts AdminPage.calls] in *.

Section PageProofs.
Variable server : AdminPage.Server.
Variable NEXT_PUBLIC_ADMIN_UID : option string.

(** [fetchUsers] in closed form, by what the server answers. *)
Lemma fetchUsers_run (st : AdminPage.State) :
  AdminPage.fetchUsers server st =
  match AdminPage.listUsersAction server with
  | Ok result =>
      (Normal tt,
       match ListUsers.success result, ListUsers.users result with
       | true, Some listed =>
           AdminPage.mkState listed false None
             (AdminPage.isPermissionsDialogOpen st)
             (AdminPage.userToEditPermissions st)
             (AdminPage.toasts st)
             (AdminPage.calls st ++ [AdminPage.ListUsersCall])
       | _, _ =>
           AdminPage.mkState [] false
             (Some ("Erreur: "
                    ++ AdminPage.or_text (ListUsers.message result)
                         "Erreur inconnue lors de la récupération des utilisateurs."))
             (AdminPage.isPermissionsDialogOpen st)
             (AdminPage.userToEditPermissions st)
             (AdminPage.toasts st
              ++ [AdminPage.mkToast "Erreur"
                    (AdminPage.or_text (ListUsers.message result)
                       "Erreur inconnue lors de la récupération des utilisateurs.")
                    "destructive"])
             (AdminPage.calls st ++ [AdminPage.ListUsersCall])
       end)
  | Err error =>
      match message_of error with
      | Ok message =>
          let errorMessage :=
            ToString
              (or_ message
                 (Str "Une erreur serveur est survenue lors de la récupération des utilisateurs.")) in
          (Normal tt,
           AdminPage.mkState [] false
             (Some ("Erreur critique: Impossible d'initialiser Firebase Admin SDK. Vérifiez les logs du serveur. ("
                    ++ errorMessage ++ ")"))
             (AdminPage.isPermissionsDialogOpen st)
             (AdminPage.userToEditPermissions st)
             (AdminPage.toasts st
              ++ [AdminPage.mkToast "Erreur Critique"
                    ("Impossible de charger la liste des utilisateurs. Problème de configuration serveur. Détails: "
                     ++ errorMessage)
                    "destructive"])
             (AdminPage.calls st ++ [AdminPage.ListUsersCall]))
      | Err e =>
          (Throw e,
           AdminPage.mkState (AdminPage.users st) false None
             (AdminPage.isPermissionsDialogOpen st)
             (AdminPage.userToEditPermissions st)
             (AdminPage.toasts st)
             (AdminPage.calls st ++ [AdminPage.ListUsersCall]))
      end
  end.
Proof.
  destruct st as [us loading err open edited ts cs].
  unfold AdminPage.fetchUsers. run_page.
  destruct (AdminPage.listUsersAction server) as [result|error].
  - destruct (ListUsers.success result); [|reflexivity].
    destruct (ListUsers.users result); reflexivity.
  - destruct (message_of error) as [message|e]; reflexivity.
Qed.

(** Splits on what the server answered and, for a rejection, on whether the
    handler can read its message. *)
Ltac fetch_cases :=
  match goal with
  | |- context [AdminPage.listUsersAction ?server] =>
      destruct (AdminPage.listUsersAction server) as [?result|?error] eqn:?;
      [destruct (ListUsers.success result) eqn:?;
         [destruct (ListUsers.users result) eqn:?|]
      |destruct (message_of error) eqn:?]
  end.

Lemma fetchUsers_loading (st : AdminPage.State) :
  AdminPage.listLoading (exec (AdminPage.fetchUsers server) st) = false.
Proof.
  unfold exec. rewrite fetchUsers_run. fetch_cases; reflexivity.
Qed.

Lemma fetchUsers_calls (st : AdminPage.State) :
  AdminPage.calls (exec (AdminPage.fetchUsers server) st)
  = (AdminPage.calls st ++ [AdminPage.ListUsersCall])%list.
Proof.
  unfold exec. rewrite fetchUsers_run. fetch_cases; reflexivity.
Qed.

(** A fetch adds toasts, and takes none away. *)
Lemma fetchUsers_toasts (st : AdminPage.State) :
  exists added,
    AdminPage.toasts (exec (AdminPage.fetchUsers server) st)
    = (AdminPage.toasts st ++ added)%list.
Proof.
  unfold exec. rewrite fetchUsers_run.
  fetch_cases; cbn [snd AdminPage.toasts];
    first [ eexists; reflexivity
          | exists []; symmetry; apply app_nil_r ].
Qed.

(** X13: a fetch always ends the loading, asks the server once and leaves
    the permissions dialog alone.  It rejects only when the server action
    was rejected with [null] or [undefined]: the handler then fails to read
    the message, no error is set, and the table and the toasts stay as they
    were.  In every other case it does not reject; it leaves an error
    exactly when the server did not answer with [success] and a list, then
    with an empty table and one destructive toast, and otherwise the
    server's list, no error and no toast. *)
Theorem fetchUsers_settles (st : AdminPage.State) :
  let st' := exec (AdminPage.fetchUsers server) st in
  AdminPage.listLoading st' = false
  /\ AdminPage.userToEditPermissions st' = AdminPage.userToEditPermissions st
  /\ AdminPage.isPermissionsDialogOpen st' = AdminPage.isPermissionsDialogOpen st
  /\ AdminPage.calls st' = (AdminPage.calls st ++ [AdminPage.ListUsersCall])%list
  /\ match AdminPage.listUsersAction server with
     | Err (JsValue Undefined) | Err (JsValue Null) =>
         (exists e,
            eval (AdminPage.fetchUsers server) st = Throw e
            /\ class e = TypeError)
         /\ AdminPage.listError st' = None
         /\ AdminPage.users st' = AdminPage.users st
         /\ AdminPage.toasts st' = AdminPage.toasts st
     | answer =>
         eval (AdminPage.fetchUsers server) st = Normal tt
         /\ (AdminPage.listError st' = None <->
             exists result,
               answer = Ok result
               /\ ListUsers.success result = true
               /\ ListUsers.users result = Some (AdminPage.users st'))
         /\ (AdminPage.listError st' = None ->
             AdminPage.toasts st' = AdminPage.toasts st)
         /\ (AdminPage.listError st' <> None ->
             AdminPage.users st' = []
             /\ exists t,
                  AdminPage.toasts st' = (AdminPage.toasts st ++ [t])%list
                  /\ AdminPage.variant t = "destructive")
     end.
Proof.
  intros st'. subst st'. unfold exec, eval. rewrite fetchUsers_run.
  destruct (AdminPage.listUsersAction server)
    as [result|[error|[| |b|m x|s|items|fields]]].
  - destruct (ListUsers.success result) eqn:Hs;
      [destruct (ListUsers.users result) as [listed|] eqn:Hu|];
      cbn; repeat split; intros;
      try congruence; try discriminate;
      try (eexists; split; reflexivity);
      try (exists result; auto);
      match goal with
      | H : ex _ |- _ =>
          destruct H as (r & Hr & H1 & H2); injection Hr as <-; congruence
      end.
  - cbn. repeat split; intros; try congruence; try discriminate;
      try (eexists; split; reflexivity).
    match goal with
    | H : ex _ |- _ => destruct H as (r & Hr & _); discriminate
    end.
  - cbn. repeat split. eexists. split; reflexivity.
  - cbn. repeat split. eexists. split; reflexivity.
  - cbn. repeat split; intros; try congruence; try discriminate;
      try (eexists; split; reflexivity).
    match goal with
    | H : ex _ |- _ => destruct H as (r & Hr & _); discriminate
    end.
  - cbn. repeat split; intros; try congruence; try discriminate;
      try (eexists; split; reflexivity).
    match goal with
    | H : ex _ |- _ => destruct H as (r & Hr & _); discriminate
    end.
  - cbn. repeat split; intros; try congruence; try discriminate;
      try (eexists; split; reflexivity).
    match goal with
    | H : ex _ |- _ => destruct H as (r & Hr & _); discriminate
    end.
  - cbn. repeat split; intros; try congruence; try discriminate;
      try (eexists; split; reflexivity).
    match goal with
    | H : ex _ |- _ => destruct H as (r & Hr & _); discriminate
    end.
  - cbn. repeat split; intros; try congruence; try discriminate;
      try (eexists; split; reflexivity).
    match goal with
    | H : ex _ |- _ => destruct H as (r & Hr & _); discriminate
    end.
Qed.

Lemma fetch_error_not_empty (st : AdminPage.State) (e : string) :
  AdminPage.listError (exec (AdminPage.fetchUsers server) st) = Some e ->
  (e =? "") = false.
Proof.
  unfold exec. rewrite fetchUsers_run.
  fetch_cases; cbn [snd AdminPage.listError];
    try discriminate; intros [= <-]; reflexivity.
Qed.

Lemma rows_keep_users (listed : list ListUsers.User) :
  map AdminPage.row_user
      (map (AdminPage.render_row NEXT_PUBLIC_ADMIN_UID) listed)
  = listed.
Proof.
  induction listed as [|u rest IH]; [reflexivity|].
  cbn [map]. rewrite IH. reflexivity.
Qed.

(** X14: once a fetch is over, an admin never sees the skeletons: the card
    shows the error of the fetch if there is one, else the notice that
    there are no users, else the table, one row per user in the order the
    server gave. *)
Theorem view_after_fetch (auth : AdminPage.Auth) (st : AdminPage.State) :
  AdminPage.placeholder_only auth = false ->
  let st' := exec (AdminPage.fetchUsers server) st in
  exists dialog,
    AdminPage.render NEXT_PUBLIC_ADMIN_UID auth st'
    = AdminPage.Panel
        match AdminPage.listError st' with
        | Some e => AdminPage.ErrorAlert e
        | None =>
            match AdminPage.users st' with
            | [] => AdminPage.NoUsers
            | listed =>
                AdminPage.Table
                  (map (AdminPage.render_row NEXT_PUBLIC_ADMIN_UID) listed)
            end
        end
        dialog
    /\ (forall rows,
          AdminPage.render NEXT_PUBLIC_ADMIN_UID auth st'
          = AdminPage.Panel (AdminPage.Table rows) dialog ->
          map AdminPage.row_user rows = AdminPage.users st').
Proof.
  intros Hgate st'. unfold AdminPage.render. rewrite Hgate.
  pose proof (fetchUsers_loading st) as Hloading.
  fold st' in Hloading. rewrite Hloading.
  eexists. split.
  - f_equal. destruct (AdminPage.listError st') as [e|] eqn:He.
    + rewrite (fetch_error_not_empty st e He). reflexivity.
    + destruct (AdminPage.users st'); reflexivity.
  - intros rows Hrows. injection Hrows as Hrows.
    destruct (AdminPage.listError st') as [e|] eqn:He.
    + rewrite (fetch_error_not_empty st e He) in Hrows. discriminate.
    + destruct (AdminPage.users st') as [|u rest]; [discriminate|].
      cbn [List.length Nat.ltb Nat.leb] in Hrows. injection Hrows as <-.
      exact (rows_keep_users (u :: rest)).
Qed.

(** X16: the users are fetched on mount exactly for whom the panel is
    rendered; anyone else is sent to "/" once the authentication has
    loaded, and nothing is fetched or pushed while it loads. *)
Theorem access_gate (auth : AdminPage.Auth) (st : AdminPage.State) :
  AdminPage.calls (exec (AdminPage.fetch_effect server auth) st)
  = (AdminPage.calls st
     ++ (if AdminPage.placeholder_only auth then []
         else [AdminPage.ListUsersCall]))%list
  /\ AdminPage.calls (exec (AdminPage.redirect_effect auth) st)
     = (AdminPage.calls st
        ++ (if AdminPage.authLoading auth then []
            else if AdminPage.placeholder_only auth
                 then [AdminPage.RouterPush "/"] else []))%list
  /\ (AdminPage.render NEXT_PUBLIC_ADMIN_UID auth st = AdminPage.Placeholder
      <-> AdminPage.placeholder_only auth = true).
Proof.
  assert (Hfetch : AdminPage.fetches auth
                   = negb (AdminPage.placeholder_only auth)).
  { unfold AdminPage.fetches, AdminPage.placeholder_only.
    destruct (AdminPage.authLoading auth), (AdminPage.currentUser auth);
      try destruct (AdminPage.is_admin_role _); reflexivity. }
  assert (Hpush : AdminPage.redirects auth
                  = negb (AdminPage.authLoading auth)
                    && AdminPage.placeholder_only auth).
  { unfold AdminPage.redirects, AdminPage.placeholder_only.
    destruct (AdminPage.authLoading auth), (AdminPage.currentUser auth);
      try destruct (AdminPage.is_admin_role _); reflexivity. }
  unfold AdminPage.fetch_effect, AdminPage.redirect_effect, AdminPage.render.
  rewrite Hfetch, Hpush.
  destruct (AdminPage.placeholder_only auth); cbn [negb andb].
  - split; [|split].
    + destruct st; cbn. rewrite app_nil_r. reflexivity.
    + destruct (AdminPage.authLoading auth), st; cbn;
        rewrite ?app_nil_r; reflexivity.
    + split; reflexivity.
  - split; [|split].
    + apply fetchUsers_calls.
    + rewrite andb_false_r. destruct (AdminPage.authLoading auth), st; cbn;
        rewrite app_nil_r; reflexivity.
    + split; discriminate.
Qed.

(** X17: the account whose uid is [NEXT_PUBLIC_ADMIN_UID] is shown as an
    admin with all sections, and its row offers no action at all: the
    "Principal" badge stands where the menu would be. *)
Theorem primary_admin_row_has_no_actions (usr : ListUsers.User)
  (id : string) :
  NEXT_PUBLIC_ADMIN_UID = Some id ->
  id <> "" ->
  ListUsers.uid usr = id ->
  AdminPage.role_badge (AdminPage.render_row NEXT_PUBLIC_ADMIN_UID usr)
  = AdminPage.AdminBadge
  /\ AdminPage.permissions (AdminPage.render_row NEXT_PUBLIC_ADMIN_UID usr)
     = AdminPage.AllSections
  /\ AdminPage.actions (AdminPage.render_row NEXT_PUBLIC_ADMIN_UID usr)
     = AdminPage.Principal.
Proof.
  intros Henv Hid Huid.
  assert (Hprimary : AdminPage.is_primary_admin NEXT_PUBLIC_ADMIN_UID usr
                     = Bool true).
  { unfold AdminPage.is_primary_admin, and_. rewrite Henv, Huid.
    cbn [of_option truthy ListUsers.strict_eq_string].
    destruct (String.eqb_spec id ""); [contradiction|].
    rewrite String.eqb_refl. reflexivity. }
  unfold AdminPage.render_row, AdminPage.shown_as_admin, or_.
  rewrite Hprimary.
  cbn [AdminPage.role_badge AdminPage.permissions AdminPage.actions truthy].
  destruct (truthy (ListUsers.isAdmin usr)) eqn:Hadmin;
    rewrite ?Hadmin; repeat split.
Qed.

(** X18: every entry of a row's menu is about that row's account; the role
    and status entries ask for the opposite of what the row shows; and
    every entry that changes or deletes the account runs only from the
    confirm button of its dialog. *)
Theorem menu_entries_target_their_row (usr : ListUsers.User)
  (items : list AdminPage.MenuItem) (item : AdminPage.MenuItem) :
  AdminPage.actions (AdminPage.render_row NEXT_PUBLIC_ADMIN_UID usr)
  = AdminPage.Menu items ->
  In item items ->
  match AdminPage.handler item with
  | AdminPage.OpenPermissions user => user = usr
  | AdminPage.SetAdmin uid isAdmin =>
      uid = ListUsers.uid usr
      /\ isAdmin = negb (truthy (ListUsers.isAdmin usr))
      /\ AdminPage.confirmed item = true
  | AdminPage.ToggleStatus uid isDisabled =>
      uid = ListUsers.uid usr
      /\ isDisabled = negb (ListUsers.disabled usr)
      /\ AdminPage.confirmed item = true
  | AdminPage.DeleteUser uid =>
      uid = ListUsers.uid usr /\ AdminPage.confirmed item = true
  end.
Proof.
  unfold AdminPage.render_row. cbn [AdminPage.actions].
  destruct (truthy (AdminPage.is_primary_admin NEXT_PUBLIC_ADMIN_UID usr));
    [discriminate|].
  intros [= <-] Hin. cbn [In] in Hin.
  destruct Hin as [<- | [<- | [<- | [<- | []]]]];
    try destruct (truthy (ListUsers.isAdmin usr));
    try destruct (ListUsers.disabled usr);
    cbn; auto.
Qed.

(** The three action handlers share one shape. *)
Lemma action_handler_run (c : AdminPage.Call)
  (response : Result AdminPage.ActionResult) (st : AdminPage.State) :
  (AdminPage.call_out c ;;
   result <- lift response ;;
   AdminPage.toast (AdminPage.result_toast result) ;;
   if AdminPage.success result
   then AdminPage.not_awaited (AdminPage.fetchUsers server) else ret tt)%stmt
    st
  = match response with
    | Err e =>
        (Throw e,
         AdminPage.mkState (AdminPage.users st) (AdminPage.listLoading st)
           (AdminPage.listError st) (AdminPage.isPermissionsDialogOpen st)
           (AdminPage.userToEditPermissions st) (AdminPage.toasts st)
           (AdminPage.calls st ++ [c]))
    | Ok result =>
        let st1 :=
          AdminPage.mkState (AdminPage.users st) (AdminPage.listLoading st)
            (AdminPage.listError st) (AdminPage.isPermissionsDialogOpen st)
            (AdminPage.userToEditPermissions st)
            (AdminPage.toasts st ++ [AdminPage.result_toast result])
            (AdminPage.calls st ++ [c]) in
        (Normal tt,
         if AdminPage.success result
         then exec (AdminPage.fetchUsers server) st1
         else st1)
    end.
Proof.
  destruct st as [us l err open edited ts cs].
  destruct response as [result|e]; run_page; [|reflexivity].
  destruct (AdminPage.success result); reflexivity.
Qed.

(** Closes the goal on what a handler of the shape above leaves, by what
    the server answered to the change and to the fetch that follows. *)
Ltac handler_outcome :=
  match goal with
  | |- context [match ?response with Ok _ => _ | Err _ => _ end] =>
      destruct response as [result|e];
      [|match goal with st : AdminPage.State |- _ =>
          destruct st; cbn; repeat split end];
      unfold AdminPage.result_toast; cbn [snd];
      destruct (AdminPage.success result);
      [split;
       [rewrite fetchUsers_calls; cbn [AdminPage.calls];
        rewrite <- app_assoc; reflexivity
       |match goal with
        | |- context [exec (AdminPage.fetchUsers _) ?st1] =>
            destruct (fetchUsers_toasts st1) as (? & ->)
        end;
        eexists; cbn [AdminPage.toasts];
        rewrite <- app_assoc; reflexivity]
      |match goal with st : AdminPage.State |- _ =>
         destruct st; cbn; repeat split end]
  end.

(** X19: choosing an entry of a row's menu asks the server for one change,
    of that row's account; the answer is shown in one toast, "Succès" or a
    destructive "Erreur"; the list is fetched again exactly when the change
    succeeded, and a change that failed leaves the table as it was.  The
    permissions entry only opens the dialog on that account. *)
Theorem menu_entry_effect (usr : ListUsers.User)
  (items : list AdminPage.MenuItem) (item : AdminPage.MenuItem)
  (st : AdminPage.State) :
  AdminPage.actions (AdminPage.render_row NEXT_PUBLIC_ADMIN_UID usr)
  = AdminPage.Menu items ->
  In item items ->
  let st' := exec (AdminPage.run_handler server (AdminPage.handler item)) st in
  match AdminPage.handler item with
  | AdminPage.OpenPermissions _ =>
      AdminPage.calls st' = AdminPage.calls st
      /\ AdminPage.toasts st' = AdminPage.toasts st
      /\ AdminPage.users st' = AdminPage.users st
      /\ AdminPage.isPermissionsDialogOpen st' = true
      /\ AdminPage.userToEditPermissions st'
         = Some (AdminPage.mkUserBeingEdited
                   (ListUsers.uid usr) (ListUsers.email usr)
                   (ListUsers.allowedSections usr))
  | _ =>
      exists change response,
        (change = AdminPage.SetUserRoleCall (ListUsers.uid usr)
                    (negb (truthy (ListUsers.isAdmin usr)))
         /\ response = AdminPage.setUserRoleAction server (ListUsers.uid usr)
                         (negb (truthy (ListUsers.isAdmin usr)))
         \/ change = AdminPage.ToggleUserStatusCall (ListUsers.uid usr)
                       (negb (ListUsers.disabled usr))
            /\ response = AdminPage.toggleUserStatusAction server
                            (ListUsers.uid usr)
                            (negb (ListUsers.disabled usr))
         \/ change = AdminPage.DeleteUserCall (ListUsers.uid usr)
            /\ response = AdminPage.deleteUserAction server
                            (ListUsers.uid usr))
        /\ match response with
           | Err _ =>
               AdminPage.calls st' = (AdminPage.calls st ++ [change])%list
               /\ AdminPage.toasts st' = AdminPage.toasts st
               /\ AdminPage.users st' = AdminPage.users st
           | Ok result =>
               if AdminPage.success result then
                 AdminPage.calls st'
                 = (AdminPage.calls st
                    ++ [change; AdminPage.ListUsersCall])%list
                 /\ exists rest,
                      AdminPage.toasts st'
                      = (AdminPage.toasts st
                         ++ AdminPage.mkToast "Succès"
                              (AdminPage.message result) "default"
                            :: rest)%list
               else
                 AdminPage.calls st' = (AdminPage.calls st ++ [change])%list
                 /\ AdminPage.toasts st'
                    = (AdminPage.toasts st
                       ++ [AdminPage.mkToast "Erreur"
                             (AdminPage.message result) "destructive"])%list
                 /\ AdminPage.users st' = AdminPage.users st
                 /\ AdminPage.listError st' = AdminPage.listError st
           end
  end.
Proof.
  intros Hmenu Hin st'. subst st'.
  unfold AdminPage.render_row in Hmenu. cbn [AdminPage.actions] in Hmenu.
  destruct (truthy (AdminPage.is_primary_admin NEXT_PUBLIC_ADMIN_UID usr));
    [discriminate|].
  injection Hmenu as <-. cbn [In] in Hin.
  destruct Hin as [<- | [<- | [<- | [<- | []]]]].
  - destruct st as [us l err open edited ts cs]. cbn. repeat split.
  - destruct (truthy (ListUsers.isAdmin usr));
      cbn [AdminPage.handler AdminPage.run_handler negb];
      (eexists _, _; split; [left; split; reflexivity|]);
      unfold AdminPage.handleSetAdmin, exec; rewrite action_handler_run;
      handler_outcome.
  - destruct (ListUsers.disabled usr);
      cbn [AdminPage.handler AdminPage.run_handler negb];
      (eexists _, _; split; [right; left; split; reflexivity|]);
      unfold AdminPage.handleToggleStatus, exec; rewrite action_handler_run;
      handler_outcome.
  - cbn [AdminPage.handler AdminPage.run_handler].
    eexists _, _; split; [right; right; split; reflexivity|].
    unfold AdminPage.handleDeleteUser, exec. rewrite action_handler_run.
    handler_outcome.
Qed.

End PageProofs.

(** * Beyond the claims: the page over the action *)
Section EndToEnd.
Variable Date_getTime : string -> option Z.
Variable w : World.
Variable server : AdminPage.Server.
Variable NEXT_PUBLIC_ADMIN_UID : option string.

Lemma error_message_not_empty (e : Error) :
  AdminPage.or_text (ListUsers.error_message e)
    "Erreur inconnue lors de la récupération des utilisateurs."
  = ListUsers.error_message e.
Proof.
  unfold AdminPage.or_text, ListUsers.error_message.
  destruct (includes ListUsers.critical_marker (message e)); reflexivity.
Qed.

(** X15: when the page's call of [listUsersAction] gets what the action
    returns, the page shows an error exactly when the getter or the
    provider failed on the server, the action's message after "Erreur: "
    and in one "Erreur" toast; otherwise it shows the provider's accounts
    as the action sorted them.  The page's own "Erreur Critique" branch is
    never taken.  (When the provider rejected with a value that is no
    [Error] and the action still returned, its message is the one shown.) *)
Theorem page_error_iff_server_failure (sst : State) (st : AdminPage.State)
  (r : ListUsers.ListUsersResult) :
  eval (ListUsers.listUsersAction Date_getTime w) sst = Normal r ->
  AdminPage.listUsersAction server = Ok r ->
  let st' := exec (AdminPage.fetchUsers server) st in
  match getAdminAuth sst with
  | Err e =>
      AdminPage.listError st' = Some ("Erreur: " ++ ListUsers.error_message e)
      /\ AdminPage.toasts st'
         = (AdminPage.toasts st
            ++ [AdminPage.mkToast "Erreur" (ListUsers.error_message e)
                  "destructive"])%list
      /\ AdminPage.users st' = []
  | Ok adminAuth =>
      match auth_listUsers w adminAuth 1000 with
      | Err (ErrorObject e) =>
          AdminPage.listError st'
          = Some ("Erreur: " ++ ListUsers.error_message e)
          /\ AdminPage.toasts st'
             = (AdminPage.toasts st
                ++ [AdminPage.mkToast "Erreur" (ListUsers.error_message e)
                      "destructive"])%list
          /\ AdminPage.users st' = []
      | Err (JsValue _) =>
          AdminPage.listError st' = Some ("Erreur: " ++ ListUsers.message r)
          /\ AdminPage.toasts st'
             = (AdminPage.toasts st
                ++ [AdminPage.mkToast "Erreur" (ListUsers.message r)
                      "destructive"])%list
          /\ AdminPage.users st' = []
      | Ok page =>
          AdminPage.listError st' = None
          /\ AdminPage.toasts st' = AdminPage.toasts st
          /\ AdminPage.users st'
             = ListUsers.Array_sort (ListUsers.by_creation_desc Date_getTime)
                 (map (ListUsers.to_user w) (users page))
      end
  end.
Proof.
  intros Hrun Hanswer st'. subst st'. unfold exec.
  rewrite fetchUsers_run, Hanswer. cbn [snd].
  unfold eval in Hrun. rewrite listUsersAction_run in Hrun.
  destruct (getAdminAuth sst) as [adminAuth|e].
  - destruct (auth_listUsers w adminAuth 1000) as [page|[e|v]].
    + cbn [fst] in Hrun. injection Hrun as <-. cbn. repeat split.
    + rewrite on_error_Error in Hrun. cbn [fst] in Hrun.
      injection Hrun as <-. cbn.
      rewrite ?error_message_not_empty. repeat split.
    + destruct (on_error_result _ _ _ Hrun) as (Hfailed & _ & Htext).
      rewrite Hfailed. unfold AdminPage.or_text. rewrite Htext.
      repeat split.
  - cbn [fst] in Hrun. injection Hrun as <-. cbn.
    rewrite ?error_message_not_empty. repeat split.
Qed.

(** X20: for a user the action returned under the same
    [NEXT_PUBLIC_ADMIN_UID], the page's own test of the uid changes
    nothing: the row shows the Admin badge exactly when [isAdmin] is
    truthy. *)
Theorem admin_badge_agrees_with_action (userRecord : UserRecord) :
  process_env w "NEXT_PUBLIC_ADMIN_UID" = NEXT_PUBLIC_ADMIN_UID ->
  AdminPage.shown_as_admin NEXT_PUBLIC_ADMIN_UID
    (ListUsers.to_user w userRecord)
  = truthy (ListUsers.isAdmin (ListUsers.to_user w userRecord)).
Proof.
  intros Henv. unfold AdminPage.shown_as_admin, or_.
  destruct (truthy (ListUsers.isAdmin (ListUsers.to_user w userRecord)))
    eqn:Hadmin; [exact Hadmin|].
  cbn [ListUsers.to_user ListUsers.isAdmin] in Hadmin.
  rewrite isAdmin_truthy, Henv in Hadmin.
  apply orb_false_iff in Hadmin. destruct Hadmin as [_ Huid].
  unfold AdminPage.is_primary_admin, and_.
  cbn [ListUsers.to_user ListUsers.uid].
  destruct NEXT_PUBLIC_ADMIN_UID as [id|];
    cbn [of_option truthy ListUsers.strict_eq_string]; [|reflexivity].
  destruct (id =? "") eqn:Hempty;
    cbn [negb andb truthy] in *; rewrite ?Hempty;
    [reflexivity | exact Huid].
Qed.

End EndToEnd.

(** ** Closed examples for the properties beyond the claims *)

(** A local file that holds a byte order mark and a line feed is blank: no
    credentials are found, one app already registered or not. *)
Lemma no_credentials_found_witness :
  fs_readFileSync w_file_bom (serviceAccountPath w_file_bom)
  = Ok (bom ++ String (ascii_of_nat 10) "")
  /\ initializationError
       (exec (module_load Runtime.JSON_parse w_file_bom)
             (initial [Some Reference.default_app]))
     = Some (new_Error
               "CRITICAL - No valid service account credentials found. Cannot initialize. Checked environment variable 'FIREBASE_SERVICE_ACCOUNT_KEY' and local file at '/app/reportzen-mixd3-firebase-adminsdk-fbsvc-f006f10e8d.json'.")
  /\ sdk_called
       (exec (module_load Runtime.JSON_parse w_file_bom)
             (initial [Some Reference.default_app]))
     = false.
Proof.
  split; [vm_compute; reflexivity|].
  apply (proj2 (proj1 (no_credentials_found Runtime.JSON_parse w_file_bom
                         [Some Reference.default_app]))).
  split; [vm_compute; reflexivity|].
  right. eexists. split; vm_compute; reflexivity.
Defined.

(** The file with an empty [project_id]. *)
Lemma file_shape_failure_is_read_error_witness :
  sdk_called
    (exec (module_load Runtime.JSON_parse w_file_empty_id) (initial []))
  = false.
Proof.
  refine (proj2 (proj2
    (file_shape_failure_is_read_error Runtime.JSON_parse w_file_empty_id []
       empty_project_id
       (Obj [("project_id", Str ""); ("private_key", Str "KEY");
             ("client_email", Str "admin@reportzen.example")])
       _ _ _ _ _ _))).
  - vm_compute. reflexivity.
  - vm_compute. reflexivity.
  - vm_compute. reflexivity.
  - vm_compute. discriminate.
  - vm_compute. reflexivity.
  - vm_compute. reflexivity.
Defined.

(** A reload with the default app registered and good credentials. *)
Lemma hot_reload_reuses_app_witness :
  initializeApp_calls
    (exec (module_load Runtime.JSON_parse w_listing)
          (initial [Some Reference.default_app])) = 0.
Proof.
  refine (proj1
    (hot_reload_reuses_app Runtime.JSON_parse w_listing
       [Some Reference.default_app] Reference.good_key _ _ _)).
  - discriminate.
  - vm_compute. reflexivity.
  - vm_compute. reflexivity.
Defined.

(** Credentials whose private key is a number: the SDK refuses them. *)
Lemma initializeApp_failure_recorded_witness :
  adminAuthInstance
    (exec (module_load Runtime.JSON_parse w_odd_key) (initial [])) = None.
Proof.
  refine (proj1 (proj2
    (initializeApp_failure_recorded Runtime.JSON_parse w_odd_key odd_key
       (Obj [("project_id", Str "reportzen"); ("private_key", Number 1 0);
             ("client_email", Str "admin@reportzen.example")])
       (mkError PlainError
          "Service account object must contain a string private_key property."
          (Some "app/invalid-credential"))
       _ _ _ _))).
  - vm_compute. reflexivity.
  - vm_compute. reflexivity.
  - vm_compute. reflexivity.
  - vm_compute. reflexivity.
Defined.

(** Good credentials in the environment, nothing registered yet. *)
Lemma first_initialization_witness :
  getAdminAuth st_listing = Ok Reference.the_auth.
Proof.
  refine (proj1
    (first_initialization Runtime.JSON_parse w_listing Reference.good_key
       (Obj [("project_id", Str "reportzen"); ("private_key", Str "KEY");
             ("client_email", Str "admin@reportzen.example")])
       [Some Reference.default_app] Reference.the_auth _ _ _ _ _)).
  - vm_compute. reflexivity.
  - vm_compute. reflexivity.
  - vm_compute. reflexivity.
  - vm_compute. reflexivity.
  - vm_compute. reflexivity.
Defined.

(** The handle of the bootstrapped module is the default app's. *)
Lemma handle_comes_from_sdk_witness :
  admin_auth w_listing (admin_apps st_listing) = Ok Reference.the_auth
  \/ exists app rest,
       admin_apps st_listing = Some app :: rest
       /\ app_auth app = Ok Reference.the_auth.
Proof.
  apply (handle_comes_from_sdk Runtime.JSON_parse w_listing []
           Reference.the_auth).
  vm_compute. reflexivity.
Defined.

(** The three accounts, each once. *)
Lemma every_account_listed_once_witness :
  exists listed,
    Permutation (map uid [alice; bob; carol]) (map ListUsers.uid listed).
Proof.
  destruct (every_account_listed_once Runtime.Date_getTime w_listing
              st_listing Reference.the_auth
              (mkListUsersPage [alice; bob; carol] None))
    as (listed & _ & _ & Huids).
  - vm_compute. reflexivity.
  - vm_compute. reflexivity.
  - exists listed. exact Huids.
Defined.

Lemma records_have_dates (records : list UserRecord) :
  forallb (fun record =>
             match Runtime.Date_getTime (creationTime (metadata record)) with
             | Some _ => true
             | None => false
             end) records = true ->
  Forall (fun record =>
            Runtime.Date_getTime (creationTime (metadata record)) <> None)
         records.
Proof.
  intros H. apply Forall_forall. intros record Hin.
  rewrite forallb_forall in H. specialize (H record Hin).
  destruct (Runtime.Date_getTime (creationTime (metadata record)));
    congruence.
Qed.

(** [alice] and [dave], created at the same instant, come back in the
    provider's order, after [bob]. *)
Lemma same_instant_keeps_provider_order_witness :
  map ListUsers.uid
      (filter (fun u => (created Runtime.Date_getTime u =? 1546300800000)%Z)
              (users_of result_twins))
  = ["uid-alice"; "uid-dave"].
Proof.
  rewrite (same_instant_keeps_provider_order Runtime.Date_getTime w_twins
             st_twins Reference.the_auth
             (mkListUsersPage [alice; bob; dave] None)
             result_twins (users_of result_twins) 1546300800000%Z).
  - vm_compute. reflexivity.
  - vm_compute. reflexivity.
  - vm_compute. reflexivity.
  - apply records_have_dates. vm_compute. reflexivity.
  - vm_compute. reflexivity.
  - vm_compute. reflexivity.
Defined.

(** With [alice] as primary admin, [alice] is listed with [true] and
    [carol] with [false]. *)
Lemma isAdmin_boolean_with_admin_uid_witness :
  process_env w_primary "NEXT_PUBLIC_ADMIN_UID" = Some "uid-alice"
  /\ In (ListUsers.to_user w_primary carol) (users_of result_primary)
  /\ ListUsers.isAdmin (ListUsers.to_user w_primary alice) = Bool true
  /\ ListUsers.isAdmin (ListUsers.to_user w_primary carol) = Bool false.
Proof.
  assert (Henv : process_env w_primary "NEXT_PUBLIC_ADMIN_UID"
                 = Some "uid-alice") by (vm_compute; reflexivity).
  assert (Hid : "uid-alice" <> "") by discriminate.
  split; [exact Henv|].
  destruct (isAdmin_boolean_with_admin_uid Runtime.Date_getTime w_primary
              st_primary result_primary (users_of result_primary)
              "uid-alice" Henv Hid eq_refl eq_refl)
    as (adminAuth & page & Hauth & Hpage & _ & Hrecords).
  assert (Hpage' : users page = [alice; bob; carol]).
  { vm_compute in Hauth. injection Hauth as <-.
    vm_compute in Hpage. injection Hpage as <-. reflexivity. }
  assert (Halice : In alice (users page))
    by (rewrite Hpage'; left; reflexivity).
  assert (Hcarol : In carol (users page))
    by (rewrite Hpage'; right; right; left; reflexivity).
  destruct (Hrecords alice Halice) as (_ & Ha).
  destruct (Hrecords carol Hcarol) as (Hin & Hc).
  split; [exact Hin|]. split; [exact Ha | exact Hc].
Defined.

(** The server action rejected with [null]: the fetch rejects, with the
    loading over and no error set. *)
Lemma fetchUsers_settles_witness :
  eval (AdminPage.fetchUsers (server_rejecting (JsValue Null)))
       AdminPage.initial
  = Throw (cannot_read "null" "message")
  /\ AdminPage.listLoading
       (exec (AdminPage.fetchUsers (server_rejecting (JsValue Null)))
             AdminPage.initial) = false
  /\ AdminPage.listError
       (exec (AdminPage.fetchUsers (server_rejecting (JsValue Null)))
             AdminPage.initial) = None.
Proof.
  destruct (fetchUsers_settles (server_rejecting (JsValue Null))
              AdminPage.initial)
    as (Hloading & _ & _ & _ & _ & Herror & _).
  split; [reflexivity|]. split; [exact Hloading | exact Herror].
Defined.

(** After a bootstrap that failed on the environment variable. *)
Lemma initialization_failure_is_critical_witness :
  ListUsers.success
    (result_of
       (eval (ListUsers.listUsersAction Runtime.Date_getTime w_env_garbage)
             st_failed)) = false.
Proof.
  unfold eval.
  rewrite (initialization_failure_is_critical Runtime.Date_getTime
             w_env_garbage st_failed
             (new_Error
                "CRITICAL - Failed to parse service account JSON from FIREBASE_SERVICE_ACCOUNT_KEY. Ensure it's valid, complete, single-line JSON. Error: Unexpected token in JSON")).
  - reflexivity.
  - vm_compute. reflexivity.
Defined.

(** An administrator after the first fetch. *)
Lemma view_after_fetch_witness :
  exists rows dialog,
    AdminPage.render None signed_in_admin
      (exec (AdminPage.fetchUsers server_listing) AdminPage.initial)
    = AdminPage.Panel (AdminPage.Table rows) dialog
    /\ map AdminPage.row_user rows = users_of result_listing.
Proof.
  destruct (view_after_fetch server_listing None signed_in_admin AdminPage.initial)
    as (dialog & Hview & Hrows).
  - vm_compute. reflexivity.
  - eexists _, dialog. split.
    + rewrite Hview. vm_compute. reflexivity.
    + apply (Hrows _). rewrite Hview. vm_compute. reflexivity.
Defined.

(** The page over the action on the bootstrapped server. *)
Lemma page_error_iff_server_failure_witness :
  AdminPage.listError
    (exec (AdminPage.fetchUsers server_listing) AdminPage.initial) = None.
Proof.
  assert (Hrun : eval (ListUsers.listUsersAction Runtime.Date_getTime
                         w_listing) st_listing = Normal result_listing)
    by (vm_compute; reflexivity).
  pose proof (page_error_iff_server_failure Runtime.Date_getTime w_listing
                server_listing st_listing AdminPage.initial result_listing
                Hrun eq_refl) as H.
  cbv zeta in H.
  assert (Hauth : getAdminAuth st_listing = Ok Reference.the_auth)
    by (vm_compute; reflexivity).
  assert (Hpage : auth_listUsers w_listing Reference.the_auth 1000
                  = Ok (mkListUsersPage [alice; bob; carol] None))
    by (vm_compute; reflexivity).
  rewrite Hauth, Hpage in H. exact (proj1 H).
Defined.

(** [alice] as primary admin. *)
Lemma primary_admin_row_has_no_actions_witness :
  AdminPage.actions
    (AdminPage.render_row (Some "uid-alice")
       (ListUsers.to_user w_primary alice))
  = AdminPage.Principal.
Proof.
  refine (proj2 (proj2
    (primary_admin_row_has_no_actions (Some "uid-alice")
       (ListUsers.to_user w_primary alice) "uid-alice" eq_refl _ eq_refl))).
  discriminate.
Defined.

(** The delete entry of [bob]'s row. *)
Lemma menu_entries_target_their_row_witness :
  exists item,
    AdminPage.handler item = AdminPage.DeleteUser "uid-bob"
    /\ AdminPage.confirmed item = true.
Proof.
  exists (AdminPage.mkMenuItem "Supprimer" true (AdminPage.DeleteUser "uid-bob")).
  split; [reflexivity|].
  refine (proj2
    (menu_entries_target_their_row None user_bob _
       (AdminPage.mkMenuItem "Supprimer" true (AdminPage.DeleteUser "uid-bob"))
       eq_refl _)).
  vm_compute. do 3 right. left. reflexivity.
Defined.

(** The permissions entry of [bob]'s row opens the dialog. *)
Lemma menu_entry_effect_witness :
  AdminPage.isPermissionsDialogOpen
    (exec (AdminPage.run_handler server_listing
             (AdminPage.OpenPermissions user_bob)) AdminPage.initial)
  = true.
Proof.
  refine (proj1 (proj2 (proj2 (proj2
    (menu_entry_effect server_listing None user_bob _
       (AdminPage.mkMenuItem "Gérer Permissions" false
          (AdminPage.OpenPermissions user_bob))
       AdminPage.initial eq_refl _))))).
  vm_compute. left. reflexivity.
Defined.

(** [alice], the primary admin, as the action returns her. *)
Lemma admin_badge_agrees_with_action_witness :
  AdminPage.shown_as_admin (Some "uid-alice")
    (ListUsers.to_user w_primary alice) = true.
Proof.
  rewrite (admin_badge_agrees_with_action w_primary (Some "uid-alice") alice).
  - vm_compute. reflexivity.
  - vm_compute. reflexivity.
Defined.
